(** * Order / payment lifecycle of the web shop (app/models.py, app/services.py)

    A shallow embedding of the service layer.  The SQLModel tables become
    keyed row lists, every service method becomes a function in a small
    store-and-exception monad, and what a method reads from its
    environment ([datetime.utcnow()], [uuid.uuid4()]) is an explicit
    argument: one instant per method body entered, one uuid string per
    identifier built.  Logging has no effect on the store or on results
    and is left out.

    The properties proved at the end follow the order/payment lifecycle:
    what a checkout writes, when it refuses, what completing and
    cancelling a payment overwrite, and which tables each call leaves
    alone. *)

From Stdlib Require Import ZArith List String Ascii Bool Lia DecimalString.
Import ListNotations.
Local Open Scope Z_scope.
Local Open Scope string_scope.

Set Implicit Arguments.

(** ** Scalars *)

(** [decimal.Decimal] with [decimal_places=2]: the amount in hundredths. *)
Definition Decimal := Z.

(** A naive [datetime] as returned by [datetime.utcnow()]. *)
Record datetime := {
  year : nat; month : nat; day : nat;
  hour : nat; minute : nat; second : nat; microsecond : nat
}.

Module PaymentStatus.
Inductive t := PENDING | COMPLETED | FAILED | CANCELLED.
End PaymentStatus.

Module OrderStatus.
Inductive t :=
  CREATED | PAYMENT_PENDING | PAID | PROCESSING | SHIPPED | DELIVERED | CANCELLED.
End OrderStatus.

(** ** String helpers used by the identifier formats *)

(** [str.upper()] on ASCII text. *)
Definition upper_ascii (c : ascii) : ascii :=
  let n := nat_of_ascii c in
  if ((97 <=? n) && (n <=? 122))%nat then ascii_of_nat (n - 32) else c.

Fixpoint upper (s : string) : string :=
  match s with
  | EmptyString => EmptyString
  | String c s' => String (upper_ascii c) (upper s')
  end.

(** [s.replace('-', '')]. *)
Fixpoint remove_hyphens (s : string) : string :=
  match s with
  | EmptyString => EmptyString
  | String c s' =>
      if Ascii.eqb c "-"%char then remove_hyphens s' else String c (remove_hyphens s')
  end.

(** [s[:n]]: the first [n] characters, fewer when [s] is shorter. *)
Definition prefix_of (n : nat) (s : string) : string := substring 0 n s.

Fixpoint zeros (n : nat) : string :=
  match n with O => EmptyString | S n' => String "0"%char (zeros n') end.

(** A number in decimal, left-padded with zeros to [width] digits. *)
Definition zero_padded (width n : nat) : string :=
  let digits := NilZero.string_of_uint (Nat.to_uint n) in
  zeros (width - String.length digits) ++ digits.

(** [dt.strftime('%Y%m%d')]. *)
Definition strftime_Ymd (dt : datetime) : string :=
  zero_padded 4 (year dt) ++ zero_padded 2 (month dt) ++ zero_padded 2 (day dt).

(** ** Persistent models (app/models.py) *)

Module Product.
Record t := {
  id : option Z;
  name : string;
  description : string;
  price : Decimal;
  is_active : bool;
  stock_quantity : Z;
  sku : option string;
  category : option string;
  image_url : option string;
  created_at : datetime;
  updated_at : datetime
}.
Definition with_id (k : option Z) (p : t) : t :=
  {| id := k; name := name p; description := description p; price := price p;
     is_active := is_active p; stock_quantity := stock_quantity p; sku := sku p;
     category := category p; image_url := image_url p;
     created_at := created_at p; updated_at := updated_at p |}.
End Product.

Module Customer.
Record t := {
  id : option Z;
  email : string;
  first_name : string;
  last_name : string;
  phone : option string;
  created_at : datetime;
  updated_at : datetime
}.
Definition with_id (k : option Z) (c : t) : t :=
  {| id := k; email := email c; first_name := first_name c;
     last_name := last_name c; phone := phone c;
     created_at := created_at c; updated_at := updated_at c |}.
End Customer.

Module Order.
Record t := {
  id : option Z;
  order_number : string;
  customer_id : Z;
  status : OrderStatus.t;
  total_amount : Decimal;
  currency : string;
  shipping_first_name : string;
  shipping_last_name : string;
  shipping_address_line1 : string;
  shipping_address_line2 : option string;
  shipping_city : string;
  shipping_state : string;
  shipping_postal_code : string;
  shipping_country : string;
  created_at : datetime;
  updated_at : datetime
}.
Definition with_id (k : option Z) (o : t) : t :=
  {| id := k; order_number := order_number o; customer_id := customer_id o;
     status := status o; total_amount := total_amount o; currency := currency o;
     shipping_first_name := shipping_first_name o;
     shipping_last_name := shipping_last_name o;
     shipping_address_line1 := shipping_address_line1 o;
     shipping_address_line2 := shipping_address_line2 o;
     shipping_city := shipping_city o; shipping_state := shipping_state o;
     shipping_postal_code := shipping_postal_code o;
     shipping_country := shipping_country o;
     created_at := created_at o; updated_at := updated_at o |}.
(** [order.status = s; order.updated_at = now]. *)
Definition set_status (s : OrderStatus.t) (now : datetime) (o : t) : t :=
  {| id := id o; order_number := order_number o; customer_id := customer_id o;
     status := s; total_amount := total_amount o; currency := currency o;
     shipping_first_name := shipping_first_name o;
     shipping_last_name := shipping_last_name o;
     shipping_address_line1 := shipping_address_line1 o;
     shipping_address_line2 := shipping_address_line2 o;
     shipping_city := shipping_city o; shipping_state := shipping_state o;
     shipping_postal_code := shipping_postal_code o;
     shipping_country := shipping_country o;
     created_at := created_at o; updated_at := now |}.
End Order.

Module OrderItem.
Record t := {
  id : option Z;
  order_id : Z;
  product_id : Z;
  quantity : Z;
  unit_price : Decimal;
  total_price : Decimal
}.
Definition with_id (k : option Z) (i : t) : t :=
  {| id := k; order_id := order_id i; product_id := product_id i;
     quantity := quantity i; unit_price := unit_price i;
     total_price := total_price i |}.
End OrderItem.

Module Payment.
Record t := {
  id : option Z;
  order_id : Z;
  payment_method : string;
  status : PaymentStatus.t;
  amount : Decimal;
  currency : string;
  paypal_payment_id : option string;
  paypal_payer_id : option string;
  paypal_payment_token : option string;
  transaction_id : option string;
  payment_data : option (list (string * string));
  created_at : datetime;
  updated_at : datetime;
  completed_at : option datetime
}.
Definition with_id (k : option Z) (p : t) : t :=
  {| id := k; order_id := order_id p; payment_method := payment_method p;
     status := status p; amount := amount p; currency := currency p;
     paypal_payment_id := paypal_payment_id p;
     paypal_payer_id := paypal_payer_id p;
     paypal_payment_token := paypal_payment_token p;
     transaction_id := transaction_id p; payment_data := payment_data p;
     created_at := created_at p; updated_at := updated_at p;
     completed_at := completed_at p |}.
(** The five assignments of [complete_paypal_payment]. *)
Definition complete (payer : string) (now : datetime) (txn : string) (p : t) : t :=
  {| id := id p; order_id := order_id p; payment_method := payment_method p;
     status := PaymentStatus.COMPLETED; amount := amount p; currency := currency p;
     paypal_payment_id := paypal_payment_id p;
     paypal_payer_id := Some payer;
     paypal_payment_token := paypal_payment_token p;
     transaction_id := Some txn; payment_data := payment_data p;
     created_at := created_at p; updated_at := now;
     completed_at := Some now |}.
(** The two assignments of [cancel_paypal_payment]. *)
Definition cancel (now : datetime) (p : t) : t :=
  {| id := id p; order_id := order_id p; payment_method := payment_method p;
     status := PaymentStatus.CANCELLED; amount := amount p; currency := currency p;
     paypal_payment_id := paypal_payment_id p;
     paypal_payer_id := paypal_payer_id p;
     paypal_payment_token := paypal_payment_token p;
     transaction_id := transaction_id p; payment_data := payment_data p;
     created_at := created_at p; updated_at := now;
     completed_at := completed_at p |}.
End Payment.

(** ** Request / response schemas *)

Module PayPalPaymentRequest.
Record t := {
  product_id : Z;
  customer_email : string;
  customer_first_name : string;
  customer_last_name : string;
  shipping_address_line1 : string;
  shipping_address_line2 : option string;
  shipping_city : string;
  shipping_state : string;
  shipping_postal_code : string;
  shipping_country : string;
  phone : option string
}.
End PayPalPaymentRequest.

Module PayPalPaymentResponse.
Record t := {
  payment_id : string;
  payment_url : string;
  order_id : Z;
  status : PaymentStatus.t
}.
End PayPalPaymentResponse.

Module ProductCreate.
Record t := {
  name : string;
  description : string;
  price : Decimal;
  stock_quantity : Z;
  sku : option string;
  category : option string;
  image_url : option string;
  is_active : bool
}.
End ProductCreate.

(** The [shipping_data] dict of [OrderService.create_order].  The method
    reads exactly these eight keys and its one caller fills all of them, so
    the dict is a record here; [shipping_address_line2] is the key read with
    [.get], whose value may be [None]. *)
Module ShippingData.
Record t := {
  shipping_first_name : string;
  shipping_last_name : string;
  shipping_address_line1 : string;
  shipping_address_line2 : option string;
  shipping_city : string;
  shipping_state : string;
  shipping_postal_code : string;
  shipping_country : string
}.
End ShippingData.

(** ** Tables and sessions *)

(** Modelled from the spec: app/database.py ([get_session]) is not part of
    the sources, so the persistent store follows the spec's reading of it
    ("persists", "loads", "the persistent store itself ... the single
    source of truth").  A table is the list of its rows in insertion order,
    each keyed by its primary key, and [first()] returns the earliest
    matching row.  A row handed out by a session carries its key in [id]
    and keeps the values it was loaded with after the session is closed.
    [session.add] of a new object followed by [commit] and [refresh]
    appends the row under the next key of the auto-increment sequence;
    [add] and [commit] of a loaded object rewrite the row of its key.  Each
    [commit] is its own transaction.  The [unique=True] indexes of
    app/models.py are enforced when a row is written; foreign-key columns
    are stored as given. *)
Section Table.
Variable R : Type.
Variable with_id : option Z -> R -> R.

Definition load (row : Z * R) : R := with_id (Some (fst row)) (snd row).

(** [session.get(Model, k)]. *)
Definition session_get (k : Z) (tbl : list (Z * R)) : option R :=
  option_map load (find (fun row => Z.eqb (fst row) k) tbl).

(** [session.exec(select(Model).where(p)).first()]. *)
Definition select_first (p : R -> bool) (tbl : list (Z * R)) : option R :=
  option_map load (find (fun row => p (load row)) tbl).

(** [session.exec(select(Model).where(p)).all()]. *)
Definition select_all (p : R -> bool) (tbl : list (Z * R)) : list R :=
  filter p (map load tbl).

Definition max_key (tbl : list (Z * R)) : Z :=
  fold_right (fun row m => Z.max (fst row) m) 0 tbl.

Definition next_key (tbl : list (Z * R)) : Z := max_key tbl + 1.

(** INSERT: the refreshed object and the new table. *)
Definition insert_row (r : R) (tbl : list (Z * R)) : R * list (Z * R) :=
  let k := next_key tbl in
  let r' := with_id (Some k) r in
  (r', (tbl ++ [(k, r')])%list).

(** UPDATE ... WHERE id = k. *)
Definition update_row (k : Z) (r : R) (tbl : list (Z * R)) : list (Z * R) :=
  map (fun row => if Z.eqb (fst row) k then (k, with_id (Some k) r) else row) tbl.
End Table.

Record Store := {
  products : list (Z * Product.t);
  customers : list (Z * Customer.t);
  orders : list (Z * Order.t);
  order_items : list (Z * OrderItem.t);
  payments : list (Z * Payment.t)
}.

Definition empty_store : Store :=
  {| products := []; customers := []; orders := []; order_items := []; payments := [] |}.

Definition set_products (t : list (Z * Product.t)) (st : Store) : Store :=
  {| products := t; customers := customers st; orders := orders st;
     order_items := order_items st; payments := payments st |}.

Definition set_customers (t : list (Z * Customer.t)) (st : Store) : Store :=
  {| products := products st; customers := t; orders := orders st;
     order_items := order_items st; payments := payments st |}.

Definition set_orders (t : list (Z * Order.t)) (st : Store) : Store :=
  {| products := products st; customers := customers st; orders := t;
     order_items := order_items st; payments := payments st |}.

Definition set_order_items (t : list (Z * OrderItem.t)) (st : Store) : Store :=
  {| products := products st; customers := customers st; orders := orders st;
     order_items := t; payments := payments st |}.

Definition set_payments (t : list (Z * Payment.t)) (st : Store) : Store :=
  {| products := products st; customers := customers st; orders := orders st;
     order_items := order_items st; payments := t |}.

(** ** Exceptions and the store monad *)

Inductive exn :=
| ValueError (msg : string)
| IntegrityError (constraint : string).

Inductive result (A : Type) :=
| Ok (a : A)
| Raise (e : exn).
Arguments Ok {A} a.
Arguments Raise {A} e.

(** A computation reads and writes the store and returns or raises; what
    was committed before an exception stays committed. *)
Definition M (A : Type) : Type := Store -> result A * Store.

Definition ret {A} (a : A) : M A := fun st => (Ok a, st).

Definition raise {A} (e : exn) : M A := fun st => (Raise e, st).

Definition bind {A B} (c : M A) (k : A -> M B) : M B :=
  fun st =>
    match c st with
    | (Ok a, st') => k a st'
    | (Raise e, st') => (Raise e, st')
    end.

(** [try: c  except Exception as e: h e]. *)
Definition try_except {A} (c : M A) (h : exn -> M A) : M A :=
  fun st =>
    match c st with
    | (Ok a, st') => (Ok a, st')
    | (Raise e, st') => h e st'
    end.

Definition gets {A} (f : Store -> A) : M A := fun st => (Ok (f st), st).

Declare Scope store_scope.
Delimit Scope store_scope with store.
Notation "x <- c ;; k" := (bind c (fun x => k))
  (at level 100, c at next level, right associativity) : store_scope.
Notation "c ;;; k" := (bind c (fun _ => k))
  (at level 100, right associativity) : store_scope.
Local Open Scope store_scope.

(** ** Writing rows: [session.add(x); session.commit(); session.refresh(x)]

    An object without [id] is inserted, a loaded object rewrites its row.
    A write that breaks a unique index raises [IntegrityError] and leaves
    the table as it was. *)

Definition opt_string_eqb (a b : option string) : bool :=
  match a, b with
  | Some x, Some y => String.eqb x y
  | None, None => true
  | _, _ => false
  end.

(** [customers.email] is unique. *)
Definition email_taken (e : string) (tbl : list (Z * Customer.t)) : bool :=
  existsb (fun row => String.eqb (Customer.email (snd row)) e) tbl.

(** [orders.order_number] is unique. *)
Definition order_number_taken (n : string) (tbl : list (Z * Order.t)) : bool :=
  existsb (fun row => String.eqb (Order.order_number (snd row)) n) tbl.

(** [payments.transaction_id] is unique among the rows where it is set;
    [k] is the key of the row being rewritten, if any. *)
Definition transaction_id_taken (k : option Z) (txn : string)
    (tbl : list (Z * Payment.t)) : bool :=
  existsb (fun row =>
             negb (match k with Some k' => Z.eqb (fst row) k' | None => false end)
             && opt_string_eqb (Payment.transaction_id (snd row)) (Some txn)) tbl.

(** [products.sku] is unique among the rows where it is set. *)
Definition sku_taken (s : string) (tbl : list (Z * Product.t)) : bool :=
  existsb (fun row => opt_string_eqb (Product.sku (snd row)) (Some s)) tbl.

Definition commit_product (p : Product.t) : M Product.t :=
  fun st =>
    match Product.id p with
    | None =>
        if match Product.sku p with
           | Some s => sku_taken s (products st)
           | None => false
           end
        then (Raise (IntegrityError "products.sku"), st)
        else let (p', tbl) := insert_row Product.with_id p (products st) in
             (Ok p', set_products tbl st)
    | Some k => (Ok p, set_products (update_row Product.with_id k p (products st)) st)
    end.

Definition commit_customer (c : Customer.t) : M Customer.t :=
  fun st =>
    match Customer.id c with
    | None =>
        if email_taken (Customer.email c) (customers st)
        then (Raise (IntegrityError "customers.email"), st)
        else let (c', tbl) := insert_row Customer.with_id c (customers st) in
             (Ok c', set_customers tbl st)
    | Some k => (Ok c, set_customers (update_row Customer.with_id k c (customers st)) st)
    end.

(** No method changes [order_number] of a loaded order, so rewriting a row
    cannot trip the index. *)
Definition commit_order (o : Order.t) : M Order.t :=
  fun st =>
    match Order.id o with
    | None =>
        if order_number_taken (Order.order_number o) (orders st)
        then (Raise (IntegrityError "orders.order_number"), st)
        else let (o', tbl) := insert_row Order.with_id o (orders st) in
             (Ok o', set_orders tbl st)
    | Some k => (Ok o, set_orders (update_row Order.with_id k o (orders st)) st)
    end.

Definition commit_order_item (i : OrderItem.t) : M OrderItem.t :=
  fun st =>
    match OrderItem.id i with
    | None =>
        let (i', tbl) := insert_row OrderItem.with_id i (order_items st) in
        (Ok i', set_order_items tbl st)
    | Some k =>
        (Ok i, set_order_items (update_row OrderItem.with_id k i (order_items st)) st)
    end.

(** An INSERT writes every column; an UPDATE writes the attributes the
    method assigned, so [writes_transaction_id] says whether the unique
    index on [transaction_id] is consulted. *)
Definition commit_payment (writes_transaction_id : bool) (p : Payment.t) : M Payment.t :=
  fun st =>
    let clash :=
      match Payment.transaction_id p with
      | Some txn =>
          writes_transaction_id && transaction_id_taken (Payment.id p) txn (payments st)
      | None => false
      end in
    if clash then (Raise (IntegrityError "payments.transaction_id"), st)
    else
      match Payment.id p with
      | None =>
          let (p', tbl) := insert_row Payment.with_id p (payments st) in
          (Ok p', set_payments tbl st)
      | Some k =>
          (Ok p, set_payments (update_row Payment.with_id k p (payments st)) st)
      end.

(** ** Identifier formats *)

(** [f"ORD-{datetime.utcnow().strftime('%Y%m%d')}-{str(uuid.uuid4())[:8].upper()}"] *)
Definition make_order_number (now : datetime) (uuid : string) : string :=
  "ORD-" ++ strftime_Ymd now ++ "-" ++ upper (prefix_of 8 uuid).

(** [f"PAY-{str(uuid.uuid4()).replace('-', '').upper()[:20]}"] *)
Definition make_payment_id (uuid : string) : string :=
  "PAY-" ++ prefix_of 20 (upper (remove_hyphens uuid)).

(** [f"https://sandbox.paypal.com/checkoutnow?token={payment_id}"] *)
Definition make_payment_url (payment_id : string) : string :=
  "https://sandbox.paypal.com/checkoutnow?token=" ++ payment_id.

(** [f"TXN-{str(uuid.uuid4()).replace('-', '').upper()[:16]}"] *)
Definition make_transaction_id (uuid : string) : string :=
  "TXN-" ++ prefix_of 16 (upper (remove_hyphens uuid)).

(** ** ProductService *)

Module ProductService.
Definition get_all_active_products : M (list Product.t) :=
  gets (fun st => select_all Product.with_id Product.is_active (products st)).

Definition get_product_by_id (product_id : Z) : M (option Product.t) :=
  gets (fun st => session_get Product.with_id product_id (products st)).

(** A [Product] built from every field of [product_data], both timestamps
    set to the clock, then add, commit and refresh. *)
Definition create_product (now : datetime) (product_data : ProductCreate.t) : M Product.t :=
  commit_product
    {| Product.id := None;
       Product.name := ProductCreate.name product_data;
       Product.description := ProductCreate.description product_data;
       Product.price := ProductCreate.price product_data;
       Product.is_active := ProductCreate.is_active product_data;
       Product.stock_quantity := ProductCreate.stock_quantity product_data;
       Product.sku := ProductCreate.sku product_data;
       Product.category := ProductCreate.category product_data;
       Product.image_url := ProductCreate.image_url product_data;
       Product.created_at := now;
       Product.updated_at := now |}.

Definition get_products_by_category (category : string) : M (list Product.t) :=
  gets (fun st =>
          select_all Product.with_id
            (fun p => Product.is_active p
                      && opt_string_eqb (Product.category p) (Some category))
            (products st)).
End ProductService.

(** ** CustomerService *)

Module CustomerService.
(** [select(Customer).where(Customer.email == email)] *)
Definition has_email (email : string) (c : Customer.t) : bool :=
  String.eqb (Customer.email c) email.

Definition get_or_create_customer (now : datetime)
    (email first_name last_name : string) (phone : option string) : M Customer.t :=
  existing_customer <-
    gets (fun st => select_first Customer.with_id (has_email email) (customers st)) ;;
  match existing_customer with
  | Some c => ret c
  | None =>
      commit_customer
        {| Customer.id := None; Customer.email := email;
           Customer.first_name := first_name; Customer.last_name := last_name;
           Customer.phone := phone;
           Customer.created_at := now; Customer.updated_at := now |}
  end.
End CustomerService.

(** ** OrderService *)

Module OrderService.
Definition create_order (now : datetime) (uuid : string)
    (customer : Customer.t) (product : Product.t)
    (shipping_data : ShippingData.t) : M Order.t :=
  let order_number := make_order_number now uuid in
  match Customer.id customer with
  | None => raise (ValueError "Customer must have an ID")
  | Some customer_id =>
      order <-
        commit_order
          {| Order.id := None;
             Order.order_number := order_number;
             Order.customer_id := customer_id;
             Order.status := OrderStatus.CREATED;
             Order.total_amount := Product.price product;
             Order.currency := "USD";
             Order.shipping_first_name := ShippingData.shipping_first_name shipping_data;
             Order.shipping_last_name := ShippingData.shipping_last_name shipping_data;
             Order.shipping_address_line1 :=
               ShippingData.shipping_address_line1 shipping_data;
             Order.shipping_address_line2 :=
               ShippingData.shipping_address_line2 shipping_data;
             Order.shipping_city := ShippingData.shipping_city shipping_data;
             Order.shipping_state := ShippingData.shipping_state shipping_data;
             Order.shipping_postal_code :=
               ShippingData.shipping_postal_code shipping_data;
             Order.shipping_country := ShippingData.shipping_country shipping_data;
             Order.created_at := now;
             Order.updated_at := now |} ;;
      match Order.id order with
      | None => raise (ValueError "Order must have an ID after creation")
      | Some order_id =>
          match Product.id product with
          | None => raise (ValueError "Product must have an ID")
          | Some product_id =>
              commit_order_item
                {| OrderItem.id := None;
                   OrderItem.order_id := order_id;
                   OrderItem.product_id := product_id;
                   OrderItem.quantity := 1;
                   OrderItem.unit_price := Product.price product;
                   OrderItem.total_price := Product.price product |} ;;;
              ret order
          end
      end
  end.

Definition get_order_by_id (order_id : Z) : M (option Order.t) :=
  gets (fun st => session_get Order.with_id order_id (orders st)).

Definition update_order_status (now : datetime) (order_id : Z)
    (status : OrderStatus.t) : M (option Order.t) :=
  order <- gets (fun st => session_get Order.with_id order_id (orders st)) ;;
  match order with
  | None => ret None
  | Some order =>
      order' <- commit_order (Order.set_status status now order) ;;
      ret (Some order')
  end.
End OrderService.

(** ** PaymentService *)

(** What one checkout call reads from the clock and from [uuid.uuid4()]:
    one instant per method body entered, one uuid per identifier built. *)
Record CheckoutDraws := {
  now_customer : datetime;
  now_order : datetime;
  uuid_order : string;
  uuid_payment : string;
  now_payment : datetime;
  now_status : datetime
}.

Module PaymentService.
Definition create_paypal_payment (d : CheckoutDraws) (request : PayPalPaymentRequest.t)
    : M (option PayPalPaymentResponse.t) :=
  try_except
    (product <- ProductService.get_product_by_id
                  (PayPalPaymentRequest.product_id request) ;;
     match product with
     | None => ret None
     | Some product =>
         if negb (Product.is_active product) then ret None
         else if Z.leb (Product.stock_quantity product) 0 then ret None
         else
           customer <-
             CustomerService.get_or_create_customer (now_customer d)
               (PayPalPaymentRequest.customer_email request)
               (PayPalPaymentRequest.customer_first_name request)
               (PayPalPaymentRequest.customer_last_name request)
               (PayPalPaymentRequest.phone request) ;;
           let shipping_data :=
             {| ShippingData.shipping_first_name :=
                  PayPalPaymentRequest.customer_first_name request;
                ShippingData.shipping_last_name :=
                  PayPalPaymentRequest.customer_last_name request;
                ShippingData.shipping_address_line1 :=
                  PayPalPaymentRequest.shipping_address_line1 request;
                ShippingData.shipping_address_line2 :=
                  PayPalPaymentRequest.shipping_address_line2 request;
                ShippingData.shipping_city :=
                  PayPalPaymentRequest.shipping_city request;
                ShippingData.shipping_state :=
                  PayPalPaymentRequest.shipping_state request;
                ShippingData.shipping_postal_code :=
                  PayPalPaymentRequest.shipping_postal_code request;
                ShippingData.shipping_country :=
                  PayPalPaymentRequest.shipping_country request |} in
           order <- OrderService.create_order (now_order d) (uuid_order d)
                      customer product shipping_data ;;
           let payment_id := make_payment_id (uuid_payment d) in
           let payment_url := make_payment_url payment_id in
           match Order.id order with
           | None => raise (ValueError "Order must have an ID")
           | Some order_id =>
               commit_payment true
                 {| Payment.id := None;
                    Payment.order_id := order_id;
                    Payment.payment_method := "paypal";
                    Payment.status := PaymentStatus.PENDING;
                    Payment.amount := Product.price product;
                    Payment.currency := "USD";
                    Payment.paypal_payment_id := Some payment_id;
                    Payment.paypal_payer_id := None;
                    Payment.paypal_payment_token := Some payment_id;
                    Payment.transaction_id := None;
                    Payment.payment_data :=
                      Some [("product_name", Product.name product);
                            ("customer_email",
                             PayPalPaymentRequest.customer_email request);
                            ("created_via", "web_store")];
                    Payment.created_at := now_payment d;
                    Payment.updated_at := now_payment d;
                    Payment.completed_at := None |} ;;;
               OrderService.update_order_status (now_status d) order_id
                 OrderStatus.PAYMENT_PENDING ;;;
               ret (Some {| PayPalPaymentResponse.payment_id := payment_id;
                            PayPalPaymentResponse.payment_url := payment_url;
                            PayPalPaymentResponse.order_id := order_id;
                            PayPalPaymentResponse.status := PaymentStatus.PENDING |})
           end
     end)
    (fun _ => ret None).

(** [select(Payment).where(Payment.paypal_payment_id == payment_id)] *)
Definition has_paypal_payment_id (payment_id : string) (p : Payment.t) : bool :=
  opt_string_eqb (Payment.paypal_payment_id p) (Some payment_id).

Definition get_payment_by_id (payment_id : string) : M (option Payment.t) :=
  gets (fun st => select_first Payment.with_id
                    (has_paypal_payment_id payment_id) (payments st)).

(** [payment.order_id] is a non-nullable column ([order_id: int]), so the
    source's test [payment.order_id is not None] always passes. *)
Definition complete_paypal_payment (now now_status : datetime) (uuid : string)
    (payment_id payer_id : string) : M bool :=
  try_except
    (payment <- get_payment_by_id payment_id ;;
     match payment with
     | None => ret false
     | Some payment =>
         payment <- commit_payment true
                      (Payment.complete payer_id now (make_transaction_id uuid) payment) ;;
         OrderService.update_order_status now_status (Payment.order_id payment)
           OrderStatus.PAID ;;;
         ret true
     end)
    (fun _ => ret false).

Definition cancel_paypal_payment (now now_status : datetime)
    (payment_id : string) : M bool :=
  try_except
    (payment <- get_payment_by_id payment_id ;;
     match payment with
     | None => ret false
     | Some payment =>
         payment <- commit_payment false (Payment.cancel now payment) ;;
         OrderService.update_order_status now_status (Payment.order_id payment)
           OrderStatus.CANCELLED ;;;
         ret true
     end)
    (fun _ => ret false).
End PaymentService.

(** ** DataSeederService *)

Module DataSeederService.
Definition sample_products : list ProductCreate.t :=
  [ {| ProductCreate.name := "Professional Web Development Package";
       ProductCreate.description := "Complete web development solution including responsive design, modern framework integration, and deployment setup. Perfect for small to medium businesses looking to establish their online presence.";
       ProductCreate.price := 129999;
       ProductCreate.stock_quantity := 50;
       ProductCreate.sku := Some "WEB-DEV-PRO";
       ProductCreate.category := Some "Web Development";
       ProductCreate.image_url :=
         Some "https://images.unsplash.com/photo-1460925895917-afdab827c52f?w=400&h=300&fit=crop";
       ProductCreate.is_active := true |};
    {| ProductCreate.name := "Custom Software Development";
       ProductCreate.description := "Tailored software solutions built to your specifications. Includes requirements analysis, development, testing, and documentation. Suitable for automation and business process optimization.";
       ProductCreate.price := 249999;
       ProductCreate.stock_quantity := 25;
       ProductCreate.sku := Some "SOFT-DEV-CUSTOM";
       ProductCreate.category := Some "Software Development";
       ProductCreate.image_url :=
         Some "https://images.unsplash.com/photo-1555066931-4365d14bab8c?w=400&h=300&fit=crop";
       ProductCreate.is_active := true |};
    {| ProductCreate.name := "Database Design & Optimization";
       ProductCreate.description := "Professional database architecture and optimization services. Includes schema design, performance tuning, and migration assistance for PostgreSQL, MySQL, and MongoDB.";
       ProductCreate.price := 89999;
       ProductCreate.stock_quantity := 30;
       ProductCreate.sku := Some "DB-DESIGN-OPT";
       ProductCreate.category := Some "Database Services";
       ProductCreate.image_url :=
         Some "https://images.unsplash.com/photo-1558494949-ef010cbdcc31?w=400&h=300&fit=crop";
       ProductCreate.is_active := true |};
    {| ProductCreate.name := "Mobile App Development (iOS/Android)";
       ProductCreate.description := "Cross-platform mobile application development using modern frameworks. Includes UI/UX design, development, testing, and app store deployment assistance.";
       ProductCreate.price := 319999;
       ProductCreate.stock_quantity := 15;
       ProductCreate.sku := Some "MOBILE-DEV-CROSS";
       ProductCreate.category := Some "Mobile Development";
       ProductCreate.image_url :=
         Some "https://images.unsplash.com/photo-1512941937669-90a1b58e7e9c?w=400&h=300&fit=crop";
       ProductCreate.is_active := true |};
    {| ProductCreate.name := "Cloud Infrastructure Setup";
       ProductCreate.description := "Complete cloud infrastructure design and implementation. Includes server setup, security configuration, monitoring, and backup solutions on AWS, Azure, or Google Cloud.";
       ProductCreate.price := 179999;
       ProductCreate.stock_quantity := 20;
       ProductCreate.sku := Some "CLOUD-INFRA-SETUP";
       ProductCreate.category := Some "Cloud Services";
       ProductCreate.image_url :=
         Some "https://images.unsplash.com/photo-1451187580459-43490279c0fa?w=400&h=300&fit=crop";
       ProductCreate.is_active := true |};
    {| ProductCreate.name := "API Development & Integration";
       ProductCreate.description := "RESTful API development and third-party service integration. Includes authentication, documentation, testing, and deployment. Perfect for connecting systems and enabling automation.";
       ProductCreate.price := 159999;
       ProductCreate.stock_quantity := 35;
       ProductCreate.sku := Some "API-DEV-INTEG";
       ProductCreate.category := Some "Web Development";
       ProductCreate.image_url :=
         Some "https://images.unsplash.com/photo-1558494949-ef010cbdcc31?w=400&h=300&fit=crop";
       ProductCreate.is_active := true |};
    {| ProductCreate.name := "E-commerce Solution";
       ProductCreate.description := "Complete e-commerce platform development with payment processing, inventory management, and admin dashboard. Includes responsive design and mobile optimization.";
       ProductCreate.price := 289999;
       ProductCreate.stock_quantity := 12;
       ProductCreate.sku := Some "ECOM-SOLUTION";
       ProductCreate.category := Some "Web Development";
       ProductCreate.image_url :=
         Some "https://images.unsplash.com/photo-1556742049-0cfed4f6a45d?w=400&h=300&fit=crop";
       ProductCreate.is_active := true |};
    {| ProductCreate.name := "DevOps Automation Package";
       ProductCreate.description := "CI/CD pipeline setup, automated testing, deployment automation, and monitoring configuration. Includes Docker containerization and Kubernetes orchestration setup.";
       ProductCreate.price := 219999;
       ProductCreate.stock_quantity := 18;
       ProductCreate.sku := Some "DEVOPS-AUTO-PKG";
       ProductCreate.category := Some "DevOps";
       ProductCreate.image_url :=
         Some "https://images.unsplash.com/photo-1517077304055-6e89abbf09b0?w=400&h=300&fit=crop";
       ProductCreate.is_active := true |} ].

(** The creation loop: product [i] of the run is created at instant
    [now_at i]; an exception of one creation is logged and the loop goes
    on.  The count only feeds the log line. *)
Fixpoint create_each (now_at : nat -> datetime) (i : nat)
    (product_datas : list ProductCreate.t) (created_count : Z) : M Z :=
  match product_datas with
  | [] => ret created_count
  | product_data :: rest =>
      created_count <-
        try_except
          (ProductService.create_product (now_at i) product_data ;;;
           ret (created_count + 1))
          (fun _ => ret created_count) ;;
      create_each now_at (S i) rest created_count
  end.

Definition seed_sample_products (now_at : nat -> datetime) : M unit :=
  existing_products <- ProductService.get_all_active_products ;;
  if Nat.ltb 0 (List.length existing_products) then ret tt
  else (create_each now_at 0 sample_products 0 ;;; ret tt).
End DataSeederService.

(** ** The store pages that call the payment service (app/store.py)

    What a handler does to the page is a list of events, in order. *)

Module StorePages.
Inductive ui_event :=
| DialogClose
| NavigateTo (path : string)
| Notify (message : string) (kind : string).

(** [s[-n:]]: the last [n] characters, all of [s] when it is shorter. *)
Definition suffix_of (n : nat) (s : string) : string :=
  substring (String.length s - n) n s.

(** [f"PAYER{payment_id[-8:]}"] *)
Definition demo_payer_id (payment_id : string) : string :=
  "PAYER" ++ suffix_of 8 payment_id.

Definition complete_demo_payment (now now_status : datetime) (uuid : string)
    (payment_id : string) : M (list ui_event) :=
  let payer_id := demo_payer_id payment_id in
  success <- PaymentService.complete_paypal_payment now now_status uuid payment_id payer_id ;;
  ret (DialogClose ::
       (if success : bool then [NavigateTo "/payment/success"]
        else [Notify "Payment completion failed" "negative"])).

Definition cancel_demo_payment (now now_status : datetime)
    (payment_id : string) : M (list ui_event) :=
  PaymentService.cancel_paypal_payment now now_status payment_id ;;;
  ret [DialogClose; NavigateTo "/payment/cancelled"].

(** Which page [create_checkout_page] renders. *)
Inductive checkout_page :=
| ProductNotFoundPage
| OutOfStockPage (product : Product.t)
| CheckoutFormPage (product : Product.t).

Definition create_checkout_page (product_id : Z) : M checkout_page :=
  product <- ProductService.get_product_by_id product_id ;;
  match product with
  | None => ret ProductNotFoundPage
  | Some product =>
      if Z.leb (Product.stock_quantity product) 0 then ret (OutOfStockPage product)
      else ret (CheckoutFormPage product)
  end.

(** The description line of [create_product_card]; every element of a
    string stands for one character. *)
Definition card_description (product : Product.t) : string :=
  let description := Product.description product in
  if Nat.ltb 120 (String.length description)
  then prefix_of 117 description ++ "..."
  else description.
End StorePages.

(** ** Vocabulary for the catalog properties *)

(** Whether the unique index on [sku] lets the product in. *)
Definition sku_free (product_data : ProductCreate.t) (st : Store) : bool :=
  match ProductCreate.sku product_data with
  | Some s => negb (sku_taken s (products st))
  | None => true
  end.

(** The product [create_product] stores, before it has a key. *)
Definition product_of (now : datetime) (product_data : ProductCreate.t) : Product.t :=
  {| Product.id := None;
     Product.name := ProductCreate.name product_data;
     Product.description := ProductCreate.description product_data;
     Product.price := ProductCreate.price product_data;
     Product.is_active := ProductCreate.is_active product_data;
     Product.stock_quantity := ProductCreate.stock_quantity product_data;
     Product.sku := ProductCreate.sku product_data;
     Product.category := ProductCreate.category product_data;
     Product.image_url := ProductCreate.image_url product_data;
     Product.created_at := now;
     Product.updated_at := now |}.

(** The rows a seeding run appends when every creation succeeds: product
    [i] of the run gets key [key + i] and the instant [now_at i]. *)
Fixpoint seeded_rows (now_at : nat -> datetime) (key : Z) (i : nat)
    (product_datas : list ProductCreate.t) : list (Z * Product.t) :=
  match product_datas with
  | [] => []
  | product_data :: rest =>
      (key, Product.with_id (Some key) (product_of (now_at i) product_data))
      :: seeded_rows now_at (key + 1) (S i) rest
  end.

(** ** Vocabulary for the checkout properties

    The rows one checkout writes, as the store holds them afterwards. *)

Definition shipping_data_of (request : PayPalPaymentRequest.t) : ShippingData.t :=
  {| ShippingData.shipping_first_name := PayPalPaymentRequest.customer_first_name request;
     ShippingData.shipping_last_name := PayPalPaymentRequest.customer_last_name request;
     ShippingData.shipping_address_line1 :=
       PayPalPaymentRequest.shipping_address_line1 request;
     ShippingData.shipping_address_line2 :=
       PayPalPaymentRequest.shipping_address_line2 request;
     ShippingData.shipping_city := PayPalPaymentRequest.shipping_city request;
     ShippingData.shipping_state := PayPalPaymentRequest.shipping_state request;
     ShippingData.shipping_postal_code :=
       PayPalPaymentRequest.shipping_postal_code request;
     ShippingData.shipping_country := PayPalPaymentRequest.shipping_country request |}.

Definition new_order (now : datetime) (uuid : string) (customer_id : Z)
    (product : Product.t) (shipping_data : ShippingData.t) (key : Z) : Order.t :=
  {| Order.id := Some key;
     Order.order_number := make_order_number now uuid;
     Order.customer_id := customer_id;
     Order.status := OrderStatus.CREATED;
     Order.total_amount := Product.price product;
     Order.currency := "USD";
     Order.shipping_first_name := ShippingData.shipping_first_name shipping_data;
     Order.shipping_last_name := ShippingData.shipping_last_name shipping_data;
     Order.shipping_address_line1 := ShippingData.shipping_address_line1 shipping_data;
     Order.shipping_address_line2 := ShippingData.shipping_address_line2 shipping_data;
     Order.shipping_city := ShippingData.shipping_city shipping_data;
     Order.shipping_state := ShippingData.shipping_state shipping_data;
     Order.shipping_postal_code := ShippingData.shipping_postal_code shipping_data;
     Order.shipping_country := ShippingData.shipping_country shipping_data;
     Order.created_at := now;
     Order.updated_at := now |}.

Definition new_order_item (order_key product_key : Z) (product : Product.t) (key : Z)
    : OrderItem.t :=
  {| OrderItem.id := Some key;
     OrderItem.order_id := order_key;
     OrderItem.product_id := product_key;
     OrderItem.quantity := 1;
     OrderItem.unit_price := Product.price product;
     OrderItem.total_price := Product.price product |}.

Definition new_payment (d : CheckoutDraws) (request : PayPalPaymentRequest.t)
    (product : Product.t) (order_key key : Z) : Payment.t :=
  {| Payment.id := Some key;
     Payment.order_id := order_key;
     Payment.payment_method := "paypal";
     Payment.status := PaymentStatus.PENDING;
     Payment.amount := Product.price product;
     Payment.currency := "USD";
     Payment.paypal_payment_id := Some (make_payment_id (uuid_payment d));
     Payment.paypal_payer_id := None;
     Payment.paypal_payment_token := Some (make_payment_id (uuid_payment d));
     Payment.transaction_id := None;
     Payment.payment_data :=
       Some [("product_name", Product.name product);
             ("customer_email", PayPalPaymentRequest.customer_email request);
             ("created_via", "web_store")];
     Payment.created_at := now_payment d;
     Payment.updated_at := now_payment d;
     Payment.completed_at := None |}.

(** The store a successful checkout leaves, given the store [st1] and the
    customer key its customer step produced. *)
Definition store_after_checkout (d : CheckoutDraws) (request : PayPalPaymentRequest.t)
    (product : Product.t) (customer_key : Z) (st st1 : Store) : Store :=
  let order_key := next_key (orders st) in
  {| products := products st;
     customers := customers st1;
     orders :=
       (orders st ++
        [(order_key,
          Order.set_status OrderStatus.PAYMENT_PENDING (now_status d)
            (new_order (now_order d) (uuid_order d) customer_key product
               (shipping_data_of request) order_key))])%list;
     order_items :=
       (order_items st ++
        [(next_key (order_items st),
          new_order_item order_key (PayPalPaymentRequest.product_id request) product
            (next_key (order_items st)))])%list;
     payments :=
       (payments st ++
        [(next_key (payments st),
          new_payment d request product order_key (next_key (payments st)))])%list |}.

(** The store a payment write followed by the order-status write leaves. *)
Definition store_after_payment_write (payment' : Payment.t) (payment_key : Z)
    (status : OrderStatus.t) (now_status : datetime) (st : Store) : Store :=
  {| products := products st;
     customers := customers st;
     orders :=
       match session_get Order.with_id (Payment.order_id payment') (orders st) with
       | Some order =>
           update_row Order.with_id (Payment.order_id payment')
             (Order.set_status status now_status order) (orders st)
       | None => orders st
       end;
     order_items := order_items st;
     payments := update_row Payment.with_id payment_key payment' (payments st) |}.

(** ** Well-formed stores

    What the schema of app/models.py promises of the tables: primary keys
    and the unique columns do not repeat, and every foreign key names a
    stored row. *)

Definition keys {R} (tbl : list (Z * R)) : list Z := map fst tbl.

(** The values of an optional column, over the rows where it is set. *)
Definition set_values {R} (column : R -> option string) (tbl : list (Z * R))
    : list string :=
  flat_map (fun row => match column (snd row) with Some v => [v] | None => [] end) tbl.

Definition keys_distinct (st : Store) : Prop :=
  NoDup (keys (products st)) /\ NoDup (keys (customers st)) /\ NoDup (keys (orders st))
  /\ NoDup (keys (order_items st)) /\ NoDup (keys (payments st)).

Definition unique_columns_hold (st : Store) : Prop :=
  NoDup (set_values Product.sku (products st))
  /\ NoDup (map (fun row => Customer.email (snd row)) (customers st))
  /\ NoDup (map (fun row => Order.order_number (snd row)) (orders st))
  /\ NoDup (set_values Payment.transaction_id (payments st)).

Definition references_resolve (st : Store) : Prop :=
  Forall (fun row => In (Order.customer_id (snd row)) (keys (customers st))) (orders st)
  /\ Forall (fun row => In (OrderItem.order_id (snd row)) (keys (orders st))
                        /\ In (OrderItem.product_id (snd row)) (keys (products st)))
       (order_items st)
  /\ Forall (fun row => In (Payment.order_id (snd row)) (keys (orders st))) (payments st).

Definition store_ok (st : Store) : Prop :=
  keys_distinct st /\ unique_columns_hold st /\ references_resolve st.

(** ** A sample shop

    The scenario of the spec's end-to-end property: one product priced
    99.99 with stock 5, and one purchase of it. *)

Definition sample_time : datetime :=
  {| year := 2025; month := 1; day := 7;
     hour := 9; minute := 30; second := 0; microsecond := 0 |}.

Definition sample_product : Product.t :=
  {| Product.id := None; Product.name := "Core Test Product";
     Product.description := "A product for core testing";
     Product.price := 9999; Product.is_active := true; Product.stock_quantity := 5;
     Product.sku := Some "CORE-001"; Product.category := Some "Testing";
     Product.image_url := None;
     Product.created_at := sample_time; Product.updated_at := sample_time |}.

Definition sold_out_product : Product.t :=
  {| Product.id := None; Product.name := "Precision Test";
     Product.description := "Testing decimal precision";
     Product.price := 12345; Product.is_active := true; Product.stock_quantity := 0;
     Product.sku := None; Product.category := None; Product.image_url := None;
     Product.created_at := sample_time; Product.updated_at := sample_time |}.

Definition sample_store : Store :=
  {| products := [(1, Product.with_id (Some 1) sample_product);
                  (2, Product.with_id (Some 2) sold_out_product)];
     customers := []; orders := []; order_items := []; payments := [] |}.

Definition sample_request (product_id : Z) : PayPalPaymentRequest.t :=
  {| PayPalPaymentRequest.product_id := product_id;
     PayPalPaymentRequest.customer_email := "test@example.com";
     PayPalPaymentRequest.customer_first_name := "John";
     PayPalPaymentRequest.customer_last_name := "Doe";
     PayPalPaymentRequest.shipping_address_line1 := "1 Main Street";
     PayPalPaymentRequest.shipping_address_line2 := None;
     PayPalPaymentRequest.shipping_city := "New York";
     PayPalPaymentRequest.shipping_state := "NY";
     PayPalPaymentRequest.shipping_postal_code := "10001";
     PayPalPaymentRequest.shipping_country := "United States";
     PayPalPaymentRequest.phone := Some "123-456-7890" |}.

Definition sample_draws : CheckoutDraws :=
  {| now_customer := sample_time; now_order := sample_time;
     uuid_order := "1b9d6bcd-bbfd-4b2d-9b5d-ab8dfbbd4bed";
     uuid_payment := "9c858901-8a57-4791-81fe-4c455b099bc9";
     now_payment := sample_time; now_status := sample_time |}.

(** The store after the sample purchase. *)
Definition purchased_store : Store :=
  snd (PaymentService.create_paypal_payment sample_draws (sample_request 1) sample_store).

Definition sample_payment_id : string := make_payment_id (uuid_payment sample_draws).

Definition sample_txn_uuid : string := "6ec0bd7f-11c0-43da-975e-2a8ad9ebae0b".

(** A later checkout on the same day whose order uuid starts with the
    same eight hex digits as the first one's. *)
Definition colliding_draws : CheckoutDraws :=
  {| now_customer := sample_time; now_order := sample_time;
     uuid_order := "1b9d6bcd-2f0a-4c6e-8d11-5a7e03c4b9f2";
     uuid_payment := "0e4fd3a8-6b1c-4f5e-9a70-c2d81b56e3a4";
     now_payment := sample_time; now_status := sample_time |}.

(** A second purchase with unrelated uuids, then the first payment
    completed. *)
Definition second_draws : CheckoutDraws :=
  {| now_customer := sample_time; now_order := sample_time;
     uuid_order := "7d44a1c0-93be-4e2f-b1a5-08c6f2d97e31";
     uuid_payment := "0e4fd3a8-6b1c-4f5e-9a70-c2d81b56e3a4";
     now_payment := sample_time; now_status := sample_time |}.

Definition second_payment_id : string := make_payment_id (uuid_payment second_draws).

Definition two_purchases_store : Store :=
  snd (PaymentService.create_paypal_payment second_draws (sample_request 1) purchased_store).

Definition first_completed_store : Store :=
  snd (PaymentService.complete_paypal_payment sample_time sample_time sample_txn_uuid
         sample_payment_id "PAYER5B099BC9" two_purchases_store).

(** A uuid with the same first sixteen hex digits as [sample_txn_uuid]. *)
Definition colliding_txn_uuid : string := "6ec0bd7f-11c0-43da-b3c9-71f4e05a2d68".

(** The sample purchase by somebody else. *)
Definition other_request (product_id : Z) : PayPalPaymentRequest.t :=
  {| PayPalPaymentRequest.product_id := product_id;
     PayPalPaymentRequest.customer_email := "existing@example.com";
     PayPalPaymentRequest.customer_first_name := "Jane";
     PayPalPaymentRequest.customer_last_name := "Smith";
     PayPalPaymentRequest.shipping_address_line1 := "2 High Street";
     PayPalPaymentRequest.shipping_address_line2 := Some "Flat 3";
     PayPalPaymentRequest.shipping_city := "Boston";
     PayPalPaymentRequest.shipping_state := "MA";
     PayPalPaymentRequest.shipping_postal_code := "02108";
     PayPalPaymentRequest.shipping_country := "United States";
     PayPalPaymentRequest.phone := None |}.

Definition sample_customer : Customer.t :=
  {| Customer.id := Some 1; Customer.email := "test@example.com";
     Customer.first_name := "John"; Customer.last_name := "Doe";
     Customer.phone := Some "123-456-7890";
     Customer.created_at := sample_time; Customer.updated_at := sample_time |}.

Definition sample_shipping_data : ShippingData.t :=
  {| ShippingData.shipping_first_name := "John";
     ShippingData.shipping_last_name := "Doe";
     ShippingData.shipping_address_line1 := "1 Main Street";
     ShippingData.shipping_address_line2 := None;
     ShippingData.shipping_city := "New York";
     ShippingData.shipping_state := "NY";
     ShippingData.shipping_postal_code := "10001";
     ShippingData.shipping_country := "United States" |}.

(** ** Frame conditions

    A computation preserves a table when no run of it changes that table,
    whether it returns or raises. *)
Definition preserves {A T} (proj : Store -> T) (c : M A) : Prop :=
  forall st, proj (snd (c st)) = proj st.

(** * Properties *)

Local Open Scope list_scope.

(** ** The embedding on concrete inputs *)

Example order_number_format :
  make_order_number sample_time (uuid_order sample_draws) = "ORD-20250107-1B9D6BCD".
Proof. reflexivity. Qed.

Example payment_id_format :
  make_payment_id (uuid_payment sample_draws) = "PAY-9C8589018A57479181FE".
Proof. reflexivity. Qed.

Example transaction_id_format :
  make_transaction_id sample_txn_uuid = "TXN-6EC0BD7F11C043DA".
Proof. reflexivity. Qed.

(** tests/test_services_core.py, [test_get_nonexistent_product]. *)
Example get_nonexistent_product :
  ProductService.get_product_by_id 99999 empty_store = (Ok None, empty_store).
Proof. reflexivity. Qed.

(** tests/test_services_core.py, [test_get_existing_customer]. *)
Example get_existing_customer :
  let (r1, st1) := CustomerService.get_or_create_customer sample_time
                     "existing@example.com" "Jane" "Smith" None empty_store in
  let (r2, _) := CustomerService.get_or_create_customer sample_time
                   "existing@example.com" "Different Name" "Different Last" None st1 in
  match r1, r2 with
  | Ok customer1, Ok customer2 =>
      Customer.id customer1 = Some 1
      /\ Customer.id customer1 = Customer.id customer2
      /\ Customer.email customer1 = Customer.email customer2
      /\ Customer.first_name customer2 = "Jane"
  | _, _ => False
  end.
Proof. vm_compute. repeat split. Qed.

(** The spec's end-to-end scenario: the purchase leaves order 1 in
    PAYMENT_PENDING with one item priced 99.99 and a PENDING payment. *)
Example purchase_scenario :
  map (fun row => (fst row, Order.status (snd row))) (orders purchased_store)
    = [(1, OrderStatus.PAYMENT_PENDING)]
  /\ map (fun row => (OrderItem.order_id (snd row), OrderItem.quantity (snd row),
                      OrderItem.total_price (snd row))) (order_items purchased_store)
     = [(1, 1, 9999)]
  /\ map (fun row => (Payment.order_id (snd row), Payment.status (snd row),
                      Payment.paypal_payment_id (snd row))) (payments purchased_store)
     = [(1, PaymentStatus.PENDING, Some sample_payment_id)].
Proof. vm_compute. repeat split. Qed.

(** ** Tables *)

Section TableFacts.
Variable R : Type.
Variable with_id : option Z -> R -> R.
Hypothesis with_id_twice : forall a b r, with_id a (with_id b r) = with_id a r.

Implicit Types (tbl : list (Z * R)) (row : Z * R) (k : Z).

Lemma max_key_upper tbl row : In row tbl -> fst row <= max_key tbl.
Proof.
  induction tbl as [|r0 tbl IH]; simpl; [tauto|].
  intros [->|Hin]; [lia|]. specialize (IH Hin). lia.
Qed.

Lemma next_key_unused tbl row : In row tbl -> Z.eqb (fst row) (next_key tbl) = false.
Proof.
  intros Hin. apply max_key_upper in Hin. unfold next_key.
  apply Z.eqb_neq. lia.
Qed.

Lemma find_key_none tbl k :
  (forall row, In row tbl -> Z.eqb (fst row) k = false) ->
  find (fun row => Z.eqb (fst row) k) tbl = None.
Proof.
  induction tbl as [|r0 tbl IH]; simpl; intros Hk; [reflexivity|].
  rewrite (Hk r0 (or_introl eq_refl)). apply IH. intros row Hin. apply Hk. now right.
Qed.

(** The key given to a new row is not in use. *)
Lemma session_get_next_key tbl : session_get with_id (next_key tbl) tbl = None.
Proof.
  unfold session_get. rewrite find_key_none; [reflexivity|].
  intros row Hin. now apply next_key_unused.
Qed.

Lemma update_row_unused tbl k r :
  (forall row, In row tbl -> Z.eqb (fst row) k = false) -> update_row with_id k r tbl = tbl.
Proof.
  induction tbl as [|r0 tbl IH]; simpl; intros Hk; [reflexivity|].
  rewrite (Hk r0 (or_introl eq_refl)). f_equal. apply IH.
  intros row Hin. apply Hk. now right.
Qed.

(** Rewriting the row that was just appended touches nothing else. *)
Lemma update_row_appended tbl r0 r :
  update_row with_id (next_key tbl) r (tbl ++ [(next_key tbl, r0)])
  = tbl ++ [(next_key tbl, with_id (Some (next_key tbl)) r)].
Proof.
  unfold update_row at 1. rewrite map_app. simpl. rewrite Z.eqb_refl. f_equal.
  apply update_row_unused. intros row Hin. now apply next_key_unused.
Qed.

Lemma find_app_none (f : Z * R -> bool) tbl row :
  find f tbl = None -> find f (tbl ++ [row]) = if f row then Some row else None.
Proof.
  induction tbl as [|r0 tbl IH]; simpl; [reflexivity|].
  destruct (f r0); [discriminate|exact IH].
Qed.

Lemma session_get_appended tbl r :
  session_get with_id (next_key tbl) (tbl ++ [(next_key tbl, r)])
  = Some (with_id (Some (next_key tbl)) r).
Proof.
  unfold session_get. rewrite find_app_none.
  - simpl. rewrite Z.eqb_refl. reflexivity.
  - apply find_key_none. intros row Hin. now apply next_key_unused.
Qed.

Lemma session_get_key tbl k r : session_get with_id k tbl = Some r ->
  exists r0, r = with_id (Some k) r0.
Proof.
  unfold session_get. destruct (find _ tbl) as [row|] eqn:Hf; [|discriminate].
  apply find_some in Hf as [_ Hk]. apply Z.eqb_eq in Hk.
  intros [= <-]. exists (snd row). unfold load. now rewrite Hk.
Qed.

Lemma select_first_key p tbl r : select_first with_id p tbl = Some r ->
  exists k r0, r = with_id (Some k) r0 /\ In (k, r0) tbl /\ p r = true.
Proof.
  unfold select_first. destruct (find _ tbl) as [row|] eqn:Hf; [|discriminate].
  apply find_some in Hf as [Hin Hp]. intros [= <-].
  exists (fst row), (snd row). repeat split; auto. now destruct row.
Qed.

(** Reading back a rewritten row. *)
Lemma session_get_update_row tbl k r r0 :
  session_get with_id k tbl = Some r0 ->
  session_get with_id k (update_row with_id k r tbl) = Some (with_id (Some k) r).
Proof.
  unfold session_get, update_row.
  induction tbl as [|row tbl IH]; simpl; [discriminate|].
  destruct (Z.eqb (fst row) k) eqn:Hk; simpl.
  - intros _. rewrite Z.eqb_refl. simpl. unfold load. simpl. now rewrite with_id_twice.
  - rewrite Hk. apply IH.
Qed.

Lemma session_get_update_row_other tbl k k' r :
  k' <> k ->
  session_get with_id k' (update_row with_id k r tbl) = session_get with_id k' tbl.
Proof.
  intros Hne. unfold session_get, update_row.
  induction tbl as [|row tbl IH]; simpl; [reflexivity|].
  destruct (Z.eqb (fst row) k) eqn:Hk; simpl.
  - apply Z.eqb_eq in Hk. rewrite Hk.
    destruct (Z.eqb k k') eqn:Hkk; [apply Z.eqb_eq in Hkk; congruence|]. apply IH.
  - destruct (Z.eqb (fst row) k'); [reflexivity|apply IH].
Qed.

(** A query that found a row finds the rewritten row when the new
    contents still match (the predicate does not look at [id]). *)
Lemma select_first_update_row p tbl row r :
  (forall a x, p (with_id a x) = p x) ->
  find (fun row => p (load with_id row)) tbl = Some row ->
  p r = true ->
  select_first with_id p (update_row with_id (fst row) r tbl)
  = Some (with_id (Some (fst row)) r).
Proof.
  intros Hp Hfind Hr. unfold select_first, update_row.
  induction tbl as [|row0 tbl IH]; cbn [find map] in *; [discriminate|].
  destruct (Z.eqb (fst row0) (fst row)) eqn:Hk.
  - change (load with_id (fst row, with_id (Some (fst row)) r))
      with (with_id (Some (fst row)) (with_id (Some (fst row)) r)).
    rewrite Hp, Hp, Hr. cbn [option_map]. unfold load. cbn [fst snd].
    now rewrite with_id_twice.
  - destruct (p (load with_id row0)) eqn:Hrow.
    + injection Hfind as <-. rewrite Z.eqb_refl in Hk. discriminate.
    + now apply IH.
Qed.

Lemma select_first_found p tbl r : select_first with_id p tbl = Some r ->
  exists row, find (fun row => p (load with_id row)) tbl = Some row
              /\ r = with_id (Some (fst row)) (snd row).
Proof.
  unfold select_first. destruct (find _ tbl) as [row|]; [|discriminate].
  intros [= <-]. now exists row.
Qed.
End TableFacts.

(** ** Records *)

Lemma Product_with_id_twice a b p : Product.with_id a (Product.with_id b p) = Product.with_id a p.
Proof. reflexivity. Qed.

Lemma Customer_with_id_twice a b c :
  Customer.with_id a (Customer.with_id b c) = Customer.with_id a c.
Proof. reflexivity. Qed.

Lemma Order_with_id_twice a b o : Order.with_id a (Order.with_id b o) = Order.with_id a o.
Proof. reflexivity. Qed.

Lemma Payment_with_id_twice a b p : Payment.with_id a (Payment.with_id b p) = Payment.with_id a p.
Proof. reflexivity. Qed.

Lemma Order_with_id_same o : Order.with_id (Order.id o) o = o.
Proof. now destruct o. Qed.

Lemma Payment_with_id_same p : Payment.with_id (Payment.id p) p = p.
Proof. now destruct p. Qed.

Lemma Customer_with_id_same c : Customer.with_id (Customer.id c) c = c.
Proof. now destruct c. Qed.

(** ** Frame conditions: which tables a computation leaves alone *)

Lemma preserves_ret {A T} (proj : Store -> T) (a : A) : preserves proj (ret a).
Proof. intros st. reflexivity. Qed.

Lemma preserves_raise {A T} (proj : Store -> T) e : preserves proj (@raise A e).
Proof. intros st. reflexivity. Qed.

Lemma preserves_gets {A T} (proj : Store -> T) (f : Store -> A) : preserves proj (gets f).
Proof. intros st. reflexivity. Qed.

Lemma preserves_bind {A B T} (proj : Store -> T) (c : M A) (k : A -> M B) :
  preserves proj c -> (forall a, preserves proj (k a)) -> preserves proj (bind c k).
Proof.
  intros Hc Hk st. unfold bind. specialize (Hc st).
  destruct (c st) as [[a|e] st']; simpl in *.
  - now rewrite Hk.
  - exact Hc.
Qed.

Lemma preserves_try_except {A T} (proj : Store -> T) (c : M A) (h : exn -> M A) :
  preserves proj c -> (forall e, preserves proj (h e)) -> preserves proj (try_except c h).
Proof.
  intros Hc Hh st. unfold try_except. specialize (Hc st).
  destruct (c st) as [[a|e] st']; simpl in *.
  - exact Hc.
  - now rewrite Hh.
Qed.

Ltac frame_commit :=
  let st := fresh "st" in
  intros st; cbv beta delta [commit_customer commit_order commit_order_item commit_payment
                              insert_row];
  cbv zeta;
  repeat match goal with
         | |- context [match ?x with _ => _ end] => destruct x
         | |- context [if ?b then _ else _] => destruct b
         end; reflexivity.

Lemma commit_customer_products c : preserves products (commit_customer c).
Proof. frame_commit. Qed.
Lemma commit_customer_orders c : preserves orders (commit_customer c).
Proof. frame_commit. Qed.
Lemma commit_customer_order_items c : preserves order_items (commit_customer c).
Proof. frame_commit. Qed.
Lemma commit_customer_payments c : preserves payments (commit_customer c).
Proof. frame_commit. Qed.

Lemma commit_order_products o : preserves products (commit_order o).
Proof. frame_commit. Qed.
Lemma commit_order_customers o : preserves customers (commit_order o).
Proof. frame_commit. Qed.
Lemma commit_order_order_items o : preserves order_items (commit_order o).
Proof. frame_commit. Qed.
Lemma commit_order_payments o : preserves payments (commit_order o).
Proof. frame_commit. Qed.

Lemma commit_order_item_products i : preserves products (commit_order_item i).
Proof. frame_commit. Qed.
Lemma commit_order_item_customers i : preserves customers (commit_order_item i).
Proof. frame_commit. Qed.
Lemma commit_order_item_orders i : preserves orders (commit_order_item i).
Proof. frame_commit. Qed.
Lemma commit_order_item_payments i : preserves payments (commit_order_item i).
Proof. frame_commit. Qed.

Lemma commit_payment_products w p : preserves products (commit_payment w p).
Proof. frame_commit. Qed.
Lemma commit_payment_customers w p : preserves customers (commit_payment w p).
Proof. frame_commit. Qed.
Lemma commit_payment_orders w p : preserves orders (commit_payment w p).
Proof. frame_commit. Qed.
Lemma commit_payment_order_items w p : preserves order_items (commit_payment w p).
Proof. frame_commit. Qed.

Create HintDb frame.
#[local] Hint Resolve preserves_ret preserves_raise preserves_gets : frame.
#[local] Hint Resolve
  commit_customer_products commit_customer_orders commit_customer_order_items
  commit_customer_payments commit_order_products commit_order_customers
  commit_order_order_items commit_order_payments commit_order_item_products
  commit_order_item_customers commit_order_item_orders commit_order_item_payments
  commit_payment_products commit_payment_customers commit_payment_orders
  commit_payment_order_items : frame.

(** Walks a service method: every bind, handler and branch, closing the
    leaves with the frame lemmas of the writes. *)
Ltac frame :=
  repeat first
    [ apply preserves_bind; [|intros ?]
    | apply preserves_try_except; [|intros ?]
    | progress auto with frame
    | match goal with
      | |- preserves _ (match ?x with _ => _ end) => destruct x
      | |- preserves _ (if ?b then _ else _) => destruct b
      end ].

Lemma get_or_create_customer_products now e f l ph :
  preserves products (CustomerService.get_or_create_customer now e f l ph).
Proof. unfold CustomerService.get_or_create_customer. frame. Qed.

Lemma get_or_create_customer_orders now e f l ph :
  preserves orders (CustomerService.get_or_create_customer now e f l ph).
Proof. unfold CustomerService.get_or_create_customer. frame. Qed.

Lemma get_or_create_customer_order_items now e f l ph :
  preserves order_items (CustomerService.get_or_create_customer now e f l ph).
Proof. unfold CustomerService.get_or_create_customer. frame. Qed.

Lemma get_or_create_customer_payments now e f l ph :
  preserves payments (CustomerService.get_or_create_customer now e f l ph).
Proof. unfold CustomerService.get_or_create_customer. frame. Qed.

Lemma create_order_products now u c p sd :
  preserves products (OrderService.create_order now u c p sd).
Proof. unfold OrderService.create_order. frame. Qed.

Lemma update_order_status_products now k s :
  preserves products (OrderService.update_order_status now k s).
Proof. unfold OrderService.update_order_status. frame. Qed.

Lemma update_order_status_payments now k s :
  preserves payments (OrderService.update_order_status now k s).
Proof. unfold OrderService.update_order_status. frame. Qed.

Lemma update_order_status_order_items now k s :
  preserves order_items (OrderService.update_order_status now k s).
Proof. unfold OrderService.update_order_status. frame. Qed.

#[local] Hint Resolve get_or_create_customer_products create_order_products
  update_order_status_products update_order_status_payments
  update_order_status_order_items : frame.

Lemma create_paypal_payment_products d request :
  preserves products (PaymentService.create_paypal_payment d request).
Proof.
  unfold PaymentService.create_paypal_payment, ProductService.get_product_by_id. frame.
Qed.

Lemma complete_paypal_payment_products now now' u pid payer :
  preserves products (PaymentService.complete_paypal_payment now now' u pid payer).
Proof.
  unfold PaymentService.complete_paypal_payment, PaymentService.get_payment_by_id. frame.
Qed.

Lemma cancel_paypal_payment_products now now' pid :
  preserves products (PaymentService.cancel_paypal_payment now now' pid).
Proof.
  unfold PaymentService.cancel_paypal_payment, PaymentService.get_payment_by_id. frame.
Qed.

(** ** Running the monad *)

Lemma bind_ok {A B} (c : M A) (k : A -> M B) st a st' :
  c st = (Ok a, st') -> bind c k st = k a st'.
Proof. intros H. unfold bind. now rewrite H. Qed.

Lemma bind_raise {A B} (c : M A) (k : A -> M B) st e st' :
  c st = (Raise e, st') -> bind c k st = (Raise e, st').
Proof. intros H. unfold bind. now rewrite H. Qed.

(** The read-only service methods, as plain lookups. *)
Lemma get_product_by_id_run k st x :
  ProductService.get_product_by_id k st = (Ok x, st)
  <-> session_get Product.with_id k (products st) = x.
Proof.
  unfold ProductService.get_product_by_id, gets. split; [now intros [= ->]|now intros ->].
Qed.

Lemma get_order_by_id_run k st x :
  OrderService.get_order_by_id k st = (Ok x, st)
  <-> session_get Order.with_id k (orders st) = x.
Proof.
  unfold OrderService.get_order_by_id, gets. split; [now intros [= ->]|now intros ->].
Qed.

Lemma get_payment_by_id_run pid st x :
  PaymentService.get_payment_by_id pid st = (Ok x, st)
  <-> select_first Payment.with_id (PaymentService.has_paypal_payment_id pid) (payments st) = x.
Proof.
  unfold PaymentService.get_payment_by_id, gets. split; [now intros [= ->]|now intros ->].
Qed.

(** ** CustomerService.get_or_create_customer *)

Lemma email_free e tbl :
  select_first Customer.with_id (CustomerService.has_email e) tbl = None -> email_taken e tbl = false.
Proof.
  unfold select_first, email_taken. intros Hnone.
  destruct (find _ tbl) eqn:Hf; [discriminate|].
  induction tbl as [|row tbl IH]; simpl in *; [reflexivity|].
  destruct (CustomerService.has_email e (load Customer.with_id row)) eqn:Hrow; [discriminate|].
  unfold CustomerService.has_email, load in Hrow. simpl in Hrow. rewrite Hrow. simpl. now apply IH.
Qed.

(** The call returns a stored customer with an id, and from then on the
    lookup by that email finds exactly this record. *)
Lemma get_or_create_customer_run now e f l ph st :
  exists c k st',
    CustomerService.get_or_create_customer now e f l ph st = (Ok c, st')
    /\ Customer.id c = Some k
    /\ select_first Customer.with_id (CustomerService.has_email e) (customers st') = Some c.
Proof.
  unfold CustomerService.get_or_create_customer, bind, gets.
  destruct (select_first Customer.with_id (CustomerService.has_email e) (customers st)) as [c|] eqn:Hsel.
  - destruct (select_first_key _ _ _ Hsel) as (k & r0 & -> & _ & _).
    exists (Customer.with_id (Some k) r0), k, st. now repeat split.
  - unfold commit_customer. cbn [Customer.id Customer.email].
    rewrite (email_free _ _ Hsel). cbn [insert_row].
    eexists _, (next_key (customers st)), _. repeat split.
    cbn [customers set_customers]. unfold select_first in *.
    destruct (find _ (customers st)) eqn:Hf; [discriminate|].
    rewrite find_app_none by exact Hf.
    unfold CustomerService.has_email, load. cbn. now rewrite String.eqb_refl.
Qed.

(** ** OrderService *)

(** With both ids present and an unused order number, [create_order]
    appends one order (status CREATED) and one item for it. *)
Lemma create_order_run now u c p sd st cid pid :
  Customer.id c = Some cid ->
  Product.id p = Some pid ->
  order_number_taken (make_order_number now u) (orders st) = false ->
  exists o item item_key st',
    OrderService.create_order now u c p sd st = (Ok o, st')
    /\ Order.id o = Some (next_key (orders st))
    /\ Order.status o = OrderStatus.CREATED
    /\ Order.total_amount o = Product.price p
    /\ orders st' = orders st ++ [(next_key (orders st), o)]
    /\ order_items st' = order_items st ++ [(item_key, item)]
    /\ OrderItem.order_id item = next_key (orders st)
    /\ OrderItem.product_id item = pid
    /\ OrderItem.quantity item = 1
    /\ OrderItem.unit_price item = Product.price p
    /\ OrderItem.total_price item = Product.price p
    /\ products st' = products st /\ customers st' = customers st
    /\ payments st' = payments st.
Proof.
  intros Hc Hp Hfree.
  unfold OrderService.create_order. rewrite Hc.
  unfold bind at 1. unfold commit_order at 1. cbn [Order.id Order.order_number].
  rewrite Hfree. cbn [insert_row Order.with_id Order.id]. rewrite Hp.
  unfold bind, commit_order_item, ret. cbn.
  do 4 eexists. split; [reflexivity|]. cbn. repeat split.
Qed.

(** The product-id test comes after the order is committed. *)
Lemma create_order_without_product_id now u c p sd st cid :
  Customer.id c = Some cid ->
  Product.id p = None ->
  order_number_taken (make_order_number now u) (orders st) = false ->
  exists o st',
    OrderService.create_order now u c p sd st
      = (Raise (ValueError "Product must have an ID"), st')
    /\ orders st' = orders st ++ [(next_key (orders st), o)]
    /\ Order.id o = Some (next_key (orders st))
    /\ Order.status o = OrderStatus.CREATED
    /\ order_items st' = order_items st
    /\ products st' = products st /\ customers st' = customers st
    /\ payments st' = payments st.
Proof.
  intros Hc Hp Hfree.
  unfold OrderService.create_order. rewrite Hc.
  unfold bind at 1. unfold commit_order at 1. cbn [Order.id Order.order_number].
  rewrite Hfree. cbn [insert_row Order.with_id Order.id]. rewrite Hp.
  unfold raise. do 2 eexists. split; [reflexivity|]. cbn. repeat split.
Qed.

(** A colliding order number makes the insert fail; nothing is written. *)
Lemma create_order_number_taken now u c p sd st cid :
  Customer.id c = Some cid ->
  order_number_taken (make_order_number now u) (orders st) = true ->
  OrderService.create_order now u c p sd st
    = (Raise (IntegrityError "orders.order_number"), st).
Proof.
  intros Hc Htaken. unfold OrderService.create_order. rewrite Hc.
  unfold bind at 1. unfold commit_order at 1. cbn [Order.id Order.order_number].
  now rewrite Htaken.
Qed.

Lemma update_order_status_run now k s st o :
  session_get Order.with_id k (orders st) = Some o ->
  OrderService.update_order_status now k s st
    = (Ok (Some (Order.set_status s now o)),
       set_orders (update_row Order.with_id k (Order.set_status s now o) (orders st)) st).
Proof.
  intros Hget. unfold OrderService.update_order_status, bind, gets. rewrite Hget.
  destruct (session_get_key _ _ _ Hget) as [r0 ->].
  unfold commit_order, ret. reflexivity.
Qed.

Lemma update_order_status_absent now k s st :
  session_get Order.with_id k (orders st) = None ->
  OrderService.update_order_status now k s st = (Ok None, st).
Proof.
  intros Hget. unfold OrderService.update_order_status, bind, gets. now rewrite Hget.
Qed.

(** ** PaymentService.create_paypal_payment *)

Lemma loaded_product_has_id k st product :
  session_get Product.with_id k (products st) = Some product -> Product.id product = Some k.
Proof. intros H. now destruct (session_get_key _ _ _ H) as [r0 ->]. Qed.

(** Past the three product tests, with an unused order number: the whole
    run of the checkout. *)
Lemma checkout_run d request st product :
  session_get Product.with_id (PayPalPaymentRequest.product_id request) (products st)
    = Some product ->
  Product.is_active product = true ->
  0 < Product.stock_quantity product ->
  order_number_taken (make_order_number (now_order d) (uuid_order d)) (orders st) = false ->
  exists st' order item item_key payment payment_key,
    PaymentService.create_paypal_payment d request st
      = (Ok (Some {| PayPalPaymentResponse.payment_id := make_payment_id (uuid_payment d);
                     PayPalPaymentResponse.payment_url :=
                       make_payment_url (make_payment_id (uuid_payment d));
                     PayPalPaymentResponse.order_id := next_key (orders st);
                     PayPalPaymentResponse.status := PaymentStatus.PENDING |}), st')
    /\ orders st' = orders st ++ [(next_key (orders st), order)]
    /\ Order.id order = Some (next_key (orders st))
    /\ Order.status order = OrderStatus.PAYMENT_PENDING
    /\ Order.total_amount order = Product.price product
    /\ order_items st' = order_items st ++ [(item_key, item)]
    /\ OrderItem.order_id item = next_key (orders st)
    /\ OrderItem.product_id item = PayPalPaymentRequest.product_id request
    /\ OrderItem.quantity item = 1
    /\ OrderItem.unit_price item = Product.price product
    /\ OrderItem.total_price item = Product.price product
    /\ payments st' = payments st ++ [(payment_key, payment)]
    /\ Payment.order_id payment = next_key (orders st)
    /\ Payment.status payment = PaymentStatus.PENDING
    /\ Payment.amount payment = Product.price product
    /\ Payment.paypal_payment_id payment = Some (make_payment_id (uuid_payment d)).
Proof.
  intros Hprod Hactive Hstock Hfree.
  destruct (get_or_create_customer_run (now_customer d)
              (PayPalPaymentRequest.customer_email request)
              (PayPalPaymentRequest.customer_first_name request)
              (PayPalPaymentRequest.customer_last_name request)
              (PayPalPaymentRequest.phone request) st)
    as (customer & cid & st1 & Hcust & Hcid & _).
  pose proof (get_or_create_customer_orders (now_customer d)
                (PayPalPaymentRequest.customer_email request)
                (PayPalPaymentRequest.customer_first_name request)
                (PayPalPaymentRequest.customer_last_name request)
                (PayPalPaymentRequest.phone request) st) as Ho1.
  pose proof (get_or_create_customer_order_items (now_customer d)
                (PayPalPaymentRequest.customer_email request)
                (PayPalPaymentRequest.customer_first_name request)
                (PayPalPaymentRequest.customer_last_name request)
                (PayPalPaymentRequest.phone request) st) as Hi1.
  pose proof (get_or_create_customer_payments (now_customer d)
                (PayPalPaymentRequest.customer_email request)
                (PayPalPaymentRequest.customer_first_name request)
                (PayPalPaymentRequest.customer_last_name request)
                (PayPalPaymentRequest.phone request) st) as Hp1.
  rewrite Hcust in Ho1, Hi1, Hp1. cbn [snd] in Ho1, Hi1, Hp1.
  pose proof (loaded_product_has_id _ _ Hprod) as Hpid.
  rewrite <- Ho1 in Hfree.
  destruct (create_order_run (now_order d) (uuid_order d) customer product
              {| ShippingData.shipping_first_name :=
                   PayPalPaymentRequest.customer_first_name request;
                 ShippingData.shipping_last_name :=
                   PayPalPaymentRequest.customer_last_name request;
                 ShippingData.shipping_address_line1 :=
                   PayPalPaymentRequest.shipping_address_line1 request;
                 ShippingData.shipping_address_line2 :=
                   PayPalPaymentRequest.shipping_address_line2 request;
                 ShippingData.shipping_city := PayPalPaymentRequest.shipping_city request;
                 ShippingData.shipping_state := PayPalPaymentRequest.shipping_state request;
                 ShippingData.shipping_postal_code :=
                   PayPalPaymentRequest.shipping_postal_code request;
                 ShippingData.shipping_country :=
                   PayPalPaymentRequest.shipping_country request |}
              st1 Hcid Hpid Hfree)
    as (o & item & item_key & st2 & Horder & Hoid & Hcreated & Htotal & Horders2 & Hitems2
        & Hi_order & Hi_prod & Hi_qty & Hi_unit & Hi_total & _ & _ & Hpay2).
  rewrite Ho1 in *. rewrite Hi1 in Hitems2. rewrite Hp1 in Hpay2.
  eexists _, (Order.set_status OrderStatus.PAYMENT_PENDING (now_status d) o),
    item, item_key, _, _. split.
  { unfold PaymentService.create_paypal_payment, try_except.
    rewrite (bind_ok _ _ _ (proj2 (get_product_by_id_run _ _ _) Hprod)).
    rewrite Hactive. cbn [negb].
    replace (Z.leb (Product.stock_quantity product) 0) with false
      by (symmetry; apply Z.leb_gt; lia).
    rewrite (bind_ok _ _ _ Hcust).
    rewrite (bind_ok _ _ _ Horder).
    rewrite Hoid.
    unfold bind at 1. unfold commit_payment at 1.
    cbn [Payment.transaction_id Payment.id insert_row].
    unfold bind at 1.
    erewrite update_order_status_run.
    2:{ cbn [orders set_payments]. rewrite Horders2.
        rewrite (session_get_appended Order.with_id).
        rewrite <- Hoid. rewrite Order_with_id_same. reflexivity. }
    unfold ret. reflexivity. }
  cbn [orders order_items payments set_orders set_payments].
  rewrite Horders2, Hitems2, Hpay2.
  rewrite (update_row_appended Order.with_id).
  replace (Order.with_id (Some (next_key (orders st)))
             (Order.set_status OrderStatus.PAYMENT_PENDING (now_status d) o))
    with (Order.set_status OrderStatus.PAYMENT_PENDING (now_status d) o)
    by (rewrite <- Hoid; now destruct o).
  cbn. repeat split; assumption.
Qed.

(** Each of the three product tests ends the call with [None] before
    anything is written. *)
Lemma checkout_rejected d request st :
  match session_get Product.with_id (PayPalPaymentRequest.product_id request) (products st) with
  | None => True
  | Some product =>
      Product.is_active product = false \/ Product.stock_quantity product <= 0
  end ->
  PaymentService.create_paypal_payment d request st = (Ok None, st).
Proof.
  intros Hrej. unfold PaymentService.create_paypal_payment, try_except, bind.
  unfold ProductService.get_product_by_id, gets.
  destruct (session_get Product.with_id _ (products st)) as [product|]; [|reflexivity].
  destruct (Product.is_active product); cbn [negb]; [|reflexivity].
  destruct Hrej as [Hrej|Hrej]; [discriminate|].
  apply Z.leb_le in Hrej. now rewrite Hrej.
Qed.

(** Past the product tests, a colliding order number is the one thing that
    makes the call fail; no order, item or payment is written then. *)
Lemma checkout_order_number_taken d request st product :
  session_get Product.with_id (PayPalPaymentRequest.product_id request) (products st)
    = Some product ->
  Product.is_active product = true ->
  0 < Product.stock_quantity product ->
  order_number_taken (make_order_number (now_order d) (uuid_order d)) (orders st) = true ->
  exists st',
    PaymentService.create_paypal_payment d request st = (Ok None, st')
    /\ orders st' = orders st /\ order_items st' = order_items st
    /\ payments st' = payments st.
Proof.
  intros Hprod Hactive Hstock Htaken.
  destruct (get_or_create_customer_run (now_customer d)
              (PayPalPaymentRequest.customer_email request)
              (PayPalPaymentRequest.customer_first_name request)
              (PayPalPaymentRequest.customer_last_name request)
              (PayPalPaymentRequest.phone request) st)
    as (customer & cid & st1 & Hcust & Hcid & _).
  pose proof (get_or_create_customer_orders (now_customer d)
                (PayPalPaymentRequest.customer_email request)
                (PayPalPaymentRequest.customer_first_name request)
                (PayPalPaymentRequest.customer_last_name request)
                (PayPalPaymentRequest.phone request) st) as Ho1.
  pose proof (get_or_create_customer_order_items (now_customer d)
                (PayPalPaymentRequest.customer_email request)
                (PayPalPaymentRequest.customer_first_name request)
                (PayPalPaymentRequest.customer_last_name request)
                (PayPalPaymentRequest.phone request) st) as Hi1.
  pose proof (get_or_create_customer_payments (now_customer d)
                (PayPalPaymentRequest.customer_email request)
                (PayPalPaymentRequest.customer_first_name request)
                (PayPalPaymentRequest.customer_last_name request)
                (PayPalPaymentRequest.phone request) st) as Hp1.
  rewrite Hcust in Ho1, Hi1, Hp1. cbn [snd] in Ho1, Hi1, Hp1.
  rewrite <- Ho1 in Htaken.
  exists st1. split; [|now repeat split].
  unfold PaymentService.create_paypal_payment, try_except.
  rewrite (bind_ok _ _ _ (proj2 (get_product_by_id_run _ _ _) Hprod)).
  rewrite Hactive. cbn [negb].
  replace (Z.leb (Product.stock_quantity product) 0) with false
    by (symmetry; apply Z.leb_gt; lia).
  rewrite (bind_ok _ _ _ Hcust).
  erewrite bind_raise; [reflexivity|].
  now apply create_order_number_taken with (cid := cid).
Qed.

(** ** PaymentService.complete_paypal_payment and cancel_paypal_payment *)

Lemma has_paypal_payment_id_with_id pid a p :
  PaymentService.has_paypal_payment_id pid (Payment.with_id a p)
  = PaymentService.has_paypal_payment_id pid p.
Proof. reflexivity. Qed.

(** Rewriting row [k] does not change which transaction ids the other
    rows hold. *)
Lemma transaction_id_taken_update_row k txn r tbl :
  transaction_id_taken (Some k) txn (update_row Payment.with_id k r tbl)
  = transaction_id_taken (Some k) txn tbl.
Proof.
  unfold transaction_id_taken, update_row.
  induction tbl as [|row tbl IH]; cbn [map existsb]; [reflexivity|].
  rewrite IH. f_equal.
  destruct (Z.eqb (fst row) k) eqn:Hk; cbn [fst snd].
  - now rewrite Z.eqb_refl.
  - now rewrite Hk.
Qed.

Lemma order_after_status_update now k s st :
  (forall o, session_get Order.with_id k (orders st) = Some o ->
     session_get Order.with_id k (orders (snd (OrderService.update_order_status now k s st)))
     = Some (Order.set_status s now o)).
Proof.
  intros o Hget. rewrite (@update_order_status_run now k s st o Hget). cbn [snd orders set_orders].
  erewrite session_get_update_row; [|exact Order_with_id_twice|exact Hget].
  destruct (session_get_key _ _ _ Hget) as [r0 ->]. reflexivity.
Qed.

Lemma update_order_status_returns now k s st :
  exists r, OrderService.update_order_status now k s st
            = (Ok r, snd (OrderService.update_order_status now k s st)).
Proof.
  destruct (session_get Order.with_id k (orders st)) as [o|] eqn:Hget.
  - rewrite (@update_order_status_run now k s st o Hget). eauto.
  - rewrite (@update_order_status_absent now k s st Hget). eauto.
Qed.

(** What a payment write followed by the order-status write leaves behind. *)
Lemma payment_write_then_status now' s pid st row p' :
  find (fun row => PaymentService.has_paypal_payment_id pid (load Payment.with_id row))
       (payments st) = Some row ->
  PaymentService.has_paypal_payment_id pid p' = true ->
  Payment.id p' = Some (fst row) ->
  let st1 := set_payments (update_row Payment.with_id (fst row) p' (payments st)) st in
  let st' := snd (OrderService.update_order_status now' (Payment.order_id p') s st1) in
  select_first Payment.with_id (PaymentService.has_paypal_payment_id pid) (payments st')
    = Some p'
  /\ (forall o, session_get Order.with_id (Payment.order_id p') (orders st) = Some o ->
        session_get Order.with_id (Payment.order_id p') (orders st')
        = Some (Order.set_status s now' o))
  /\ (forall txn, transaction_id_taken (Some (fst row)) txn (payments st')
                  = transaction_id_taken (Some (fst row)) txn (payments st))
  /\ products st' = products st.
Proof.
  intros Hfind Hmatch Hid st1 st'.
  assert (Hpay : payments st' = payments st1) by apply update_order_status_payments.
  assert (Hprod : products st' = products st1) by apply update_order_status_products.
  split; [|split; [|split]].
  - rewrite Hpay. unfold st1. cbn [payments set_payments].
    erewrite select_first_update_row;
      [|exact Payment_with_id_twice|exact (has_paypal_payment_id_with_id pid)
       |exact Hfind|exact Hmatch].
    rewrite <- Hid. now rewrite Payment_with_id_same.
  - intros o Hget. unfold st'. now apply order_after_status_update.
  - intros txn. rewrite Hpay. unfold st1. cbn [payments set_payments].
    apply transaction_id_taken_update_row.
  - rewrite Hprod. reflexivity.
Qed.

Lemma complete_paypal_payment_run now now' uuid pid payer st p :
  select_first Payment.with_id (PaymentService.has_paypal_payment_id pid) (payments st)
    = Some p ->
  transaction_id_taken (Payment.id p) (make_transaction_id uuid) (payments st) = false ->
  exists st',
    PaymentService.complete_paypal_payment now now' uuid pid payer st = (Ok true, st')
    /\ select_first Payment.with_id (PaymentService.has_paypal_payment_id pid) (payments st')
       = Some (Payment.complete payer now (make_transaction_id uuid) p)
    /\ (forall o, session_get Order.with_id (Payment.order_id p) (orders st) = Some o ->
          session_get Order.with_id (Payment.order_id p) (orders st')
          = Some (Order.set_status OrderStatus.PAID now' o))
    /\ (forall txn, transaction_id_taken (Payment.id p) txn (payments st')
                    = transaction_id_taken (Payment.id p) txn (payments st)).
Proof.
  intros Hsel Hfree.
  destruct (select_first_found _ _ _ Hsel) as (row & Hfind & Hp).
  pose proof (select_first_key _ _ _ Hsel) as (_ & _ & _ & _ & Hmatch).
  assert (Hid : Payment.id p = Some (fst row)) by now subst p.
  set (p' := Payment.complete payer now (make_transaction_id uuid) p).
  destruct (@payment_write_then_status now' OrderStatus.PAID pid st row p' Hfind)
    as (Hsel' & Horder & Htxn & _); [exact Hmatch|exact Hid|].
  eexists. split; [|split; [exact Hsel'|split; [exact Horder|]]].
  - unfold PaymentService.complete_paypal_payment, try_except.
    rewrite (bind_ok _ _ _ (proj2 (get_payment_by_id_run _ _ _) Hsel)).
    unfold bind at 1. unfold commit_payment.
    cbn [Payment.transaction_id Payment.complete Payment.id]. rewrite Hfree, Hid.
    cbn [andb]. fold p'.
    destruct (update_order_status_returns now' (Payment.order_id p') OrderStatus.PAID
                (set_payments (update_row Payment.with_id (fst row) p' (payments st)) st))
      as [r Hrun].
    rewrite (bind_ok _ _ _ Hrun). reflexivity.
  - rewrite Hid. exact Htxn.
Qed.

(** A colliding transaction id: the write is refused and the call reports
    failure, leaving the store as it was. *)
Lemma complete_paypal_payment_clash now now' uuid pid payer st p :
  select_first Payment.with_id (PaymentService.has_paypal_payment_id pid) (payments st)
    = Some p ->
  transaction_id_taken (Payment.id p) (make_transaction_id uuid) (payments st) = true ->
  PaymentService.complete_paypal_payment now now' uuid pid payer st = (Ok false, st).
Proof.
  intros Hsel Htaken.
  unfold PaymentService.complete_paypal_payment, try_except.
  rewrite (bind_ok _ _ _ (proj2 (get_payment_by_id_run _ _ _) Hsel)).
  unfold bind at 1. unfold commit_payment.
  cbn [Payment.transaction_id Payment.complete Payment.id]. now rewrite Htaken.
Qed.

Lemma cancel_paypal_payment_run now now' pid st p :
  select_first Payment.with_id (PaymentService.has_paypal_payment_id pid) (payments st)
    = Some p ->
  exists st',
    PaymentService.cancel_paypal_payment now now' pid st = (Ok true, st')
    /\ select_first Payment.with_id (PaymentService.has_paypal_payment_id pid) (payments st')
       = Some (Payment.cancel now p)
    /\ (forall o, session_get Order.with_id (Payment.order_id p) (orders st) = Some o ->
          session_get Order.with_id (Payment.order_id p) (orders st')
          = Some (Order.set_status OrderStatus.CANCELLED now' o))
    /\ (forall txn, transaction_id_taken (Payment.id p) txn (payments st')
                    = transaction_id_taken (Payment.id p) txn (payments st)).
Proof.
  intros Hsel.
  destruct (select_first_found _ _ _ Hsel) as (row & Hfind & Hp).
  pose proof (select_first_key _ _ _ Hsel) as (_ & _ & _ & _ & Hmatch).
  assert (Hid : Payment.id p = Some (fst row)) by now subst p.
  set (p' := Payment.cancel now p).
  destruct (@payment_write_then_status now' OrderStatus.CANCELLED pid st row p' Hfind)
    as (Hsel' & Horder & Htxn & _); [exact Hmatch|exact Hid|].
  eexists. split; [|split; [exact Hsel'|split; [exact Horder|]]].
  - unfold PaymentService.cancel_paypal_payment, try_except.
    rewrite (bind_ok _ _ _ (proj2 (get_payment_by_id_run _ _ _) Hsel)).
    unfold bind at 1. unfold commit_payment.
    cbn [Payment.transaction_id Payment.cancel Payment.id]. rewrite Hid.
    assert (Hclash : match Payment.transaction_id p with
                     | Some txn => false && transaction_id_taken (Some (fst row)) txn
                                              (payments st)
                     | None => false
                     end = false) by now destruct (Payment.transaction_id p).
    rewrite Hclash. fold p'.
    destruct (update_order_status_returns now' (Payment.order_id p') OrderStatus.CANCELLED
                (set_payments (update_row Payment.with_id (fst row) p' (payments st)) st))
      as [r Hrun].
    rewrite (bind_ok _ _ _ Hrun). reflexivity.
  - rewrite Hid. exact Htxn.
Qed.

(** ** Lifecycle properties *)

Unset Implicit Arguments.

(** C1.  For an active product with [stock_quantity >= 1], a checkout whose
    freshly generated order number is not already in use succeeds, and
    afterwards the store holds exactly one new Order, in status
    PAYMENT_PENDING, and exactly one new OrderItem, which belongs to that
    order, has quantity 1 and has [total_price] equal to the product's
    price at the time of the call. *)
Theorem checkout_creates_one_pending_order_with_one_item d request st product :
  ProductService.get_product_by_id (PayPalPaymentRequest.product_id request) st
    = (Ok (Some product), st) ->
  Product.is_active product = true ->
  1 <= Product.stock_quantity product ->
  order_number_taken (make_order_number (now_order d) (uuid_order d)) (orders st) = false ->
  exists response st' order item item_key,
    PaymentService.create_paypal_payment d request st = (Ok (Some response), st')
    /\ OrderService.get_order_by_id (PayPalPaymentResponse.order_id response) st
       = (Ok None, st)
    /\ orders st' = orders st ++ [(PayPalPaymentResponse.order_id response, order)]
    /\ OrderService.get_order_by_id (PayPalPaymentResponse.order_id response) st'
       = (Ok (Some order), st')
    /\ Order.status order = OrderStatus.PAYMENT_PENDING
    /\ order_items st' = order_items st ++ [(item_key, item)]
    /\ OrderItem.order_id item = PayPalPaymentResponse.order_id response
    /\ OrderItem.quantity item = 1
    /\ OrderItem.total_price item = Product.price product.
Proof.
  intros Hprod Hactive Hstock Hfree.
  apply get_product_by_id_run in Hprod.
  destruct (checkout_run d request st Hprod Hactive ltac:(lia) Hfree)
    as (st' & order & item & item_key & payment & payment_key & Hrun & Horders & Hoid
        & Hstatus & _ & Hitems & Hi_order & _ & Hi_qty & _ & Hi_total & _).
  exists {| PayPalPaymentResponse.payment_id := make_payment_id (uuid_payment d);
            PayPalPaymentResponse.payment_url :=
              make_payment_url (make_payment_id (uuid_payment d));
            PayPalPaymentResponse.order_id := next_key (orders st);
            PayPalPaymentResponse.status := PaymentStatus.PENDING |},
    st', order, item, item_key.
  cbn [PayPalPaymentResponse.order_id].
  repeat split; try assumption.
  - apply get_order_by_id_run. apply session_get_next_key.
  - apply get_order_by_id_run. rewrite Horders.
    rewrite (session_get_appended Order.with_id). rewrite <- Hoid.
    now rewrite Order_with_id_same.
Qed.

Lemma checkout_creates_one_pending_order_with_one_item_sample :
  exists response st' order item item_key,
    PaymentService.create_paypal_payment sample_draws (sample_request 1) sample_store
      = (Ok (Some response), st')
    /\ OrderService.get_order_by_id (PayPalPaymentResponse.order_id response) sample_store
       = (Ok None, sample_store)
    /\ orders st'
       = orders sample_store ++ [(PayPalPaymentResponse.order_id response, order)]
    /\ OrderService.get_order_by_id (PayPalPaymentResponse.order_id response) st'
       = (Ok (Some order), st')
    /\ Order.status order = OrderStatus.PAYMENT_PENDING
    /\ order_items st' = order_items sample_store ++ [(item_key, item)]
    /\ OrderItem.order_id item = PayPalPaymentResponse.order_id response
    /\ OrderItem.quantity item = 1
    /\ OrderItem.total_price item = 9999.
Proof.
  apply (checkout_creates_one_pending_order_with_one_item sample_draws (sample_request 1)
           sample_store (Product.with_id (Some 1) sample_product)).
  - reflexivity.
  - reflexivity.
  - cbn. lia.
  - reflexivity.
Defined.

(** C3.  The checkout returns [None], and does not raise, when the product
    is absent, when it is inactive and when its stock is [<= 0]; for a
    present, active product with positive stock the call still returns
    without raising, and it returns [None] only when the generated order
    number collides, so none of the three tests makes it fail. *)
Theorem product_checks_return_none d request st :
  (ProductService.get_product_by_id (PayPalPaymentRequest.product_id request) st
     = (Ok None, st) ->
   PaymentService.create_paypal_payment d request st = (Ok None, st))
  /\ (forall product,
        ProductService.get_product_by_id (PayPalPaymentRequest.product_id request) st
          = (Ok (Some product), st) ->
        (Product.is_active product = false ->
         PaymentService.create_paypal_payment d request st = (Ok None, st))
        /\ (Product.stock_quantity product <= 0 ->
            PaymentService.create_paypal_payment d request st = (Ok None, st))
        /\ (Product.is_active product = true ->
            0 < Product.stock_quantity product ->
            (exists outcome st',
               PaymentService.create_paypal_payment d request st = (Ok outcome, st'))
            /\ (fst (PaymentService.create_paypal_payment d request st) = Ok None
                <-> order_number_taken
                      (make_order_number (now_order d) (uuid_order d)) (orders st) = true))).
Proof.
  split.
  - intros Habsent. apply get_product_by_id_run in Habsent.
    apply checkout_rejected. now rewrite Habsent.
  - intros product Hprod. apply get_product_by_id_run in Hprod. split; [|split].
    + intros Hinactive. apply checkout_rejected. rewrite Hprod. now left.
    + intros Hstock. apply checkout_rejected. rewrite Hprod. now right.
    + intros Hactive Hstock.
      destruct (order_number_taken (make_order_number (now_order d) (uuid_order d))
                  (orders st)) eqn:Htaken.
      * destruct (checkout_order_number_taken d request st Hprod Hactive Hstock Htaken)
          as (st' & Hrun & _).
        rewrite Hrun. split; [eauto|]. now split.
      * destruct (checkout_run d request st Hprod Hactive Hstock Htaken)
          as (st' & ? & ? & ? & ? & ? & Hrun & _).
        rewrite Hrun. split; [eauto|]. split; discriminate.
Qed.

Lemma product_checks_return_none_sample :
  PaymentService.create_paypal_payment sample_draws (sample_request 99999) sample_store
    = (Ok None, sample_store)
  /\ PaymentService.create_paypal_payment sample_draws (sample_request 2) sample_store
     = (Ok None, sample_store)
  /\ exists outcome st',
       PaymentService.create_paypal_payment sample_draws (sample_request 1) sample_store
         = (Ok outcome, st').
Proof.
  split; [|split].
  - apply (proj1 (product_checks_return_none sample_draws (sample_request 99999) sample_store)).
    reflexivity.
  - apply (proj2 (product_checks_return_none sample_draws (sample_request 2) sample_store)
             (Product.with_id (Some 2) sold_out_product) eq_refl).
    cbn. lia.
  - apply (proj2 (product_checks_return_none sample_draws (sample_request 1) sample_store)
             (Product.with_id (Some 1) sample_product) eq_refl).
    + reflexivity.
    + cbn. lia.
Defined.

(** C4.  A purchase against a product whose [stock_quantity] is 0 returns
    the failure signal and leaves the whole store as it was: in particular
    no Order is created. *)
Theorem checkout_of_sold_out_product_writes_nothing d request st product :
  ProductService.get_product_by_id (PayPalPaymentRequest.product_id request) st
    = (Ok (Some product), st) ->
  Product.stock_quantity product = 0 ->
  PaymentService.create_paypal_payment d request st = (Ok None, st)
  /\ orders (snd (PaymentService.create_paypal_payment d request st)) = orders st.
Proof.
  intros Hprod Hstock. apply get_product_by_id_run in Hprod.
  assert (Hrun : PaymentService.create_paypal_payment d request st = (Ok None, st)).
  { apply checkout_rejected. rewrite Hprod. right. lia. }
  split; [exact Hrun|now rewrite Hrun].
Qed.

Lemma checkout_of_sold_out_product_writes_nothing_sample :
  PaymentService.create_paypal_payment sample_draws (sample_request 2) sample_store
    = (Ok None, sample_store)
  /\ orders (snd (PaymentService.create_paypal_payment sample_draws (sample_request 2)
                    sample_store)) = orders sample_store.
Proof.
  apply (checkout_of_sold_out_product_writes_nothing sample_draws (sample_request 2)
           sample_store (Product.with_id (Some 2) sold_out_product)).
  - reflexivity.
  - reflexivity.
Defined.

(** C6.  [update_order_status] enforces no transition rule: whatever the
    stored order's current status, the call succeeds for every status [s]
    and the stored order then has status [s]; for an id that is not stored
    it returns [None] and writes nothing. *)
Theorem update_order_status_accepts_any_transition now order_id status st :
  (forall order,
     OrderService.get_order_by_id order_id st = (Ok (Some order), st) ->
     exists updated st',
       OrderService.update_order_status now order_id status st = (Ok (Some updated), st')
       /\ OrderService.get_order_by_id order_id st' = (Ok (Some updated), st')
       /\ Order.status updated = status
       /\ Order.id updated = Some order_id)
  /\ (OrderService.get_order_by_id order_id st = (Ok None, st) ->
      OrderService.update_order_status now order_id status st = (Ok None, st)).
Proof.
  split.
  - intros order Hget. apply get_order_by_id_run in Hget.
    exists (Order.set_status status now order). eexists.
    split; [apply (@update_order_status_run now order_id status st order Hget)|].
    split; [|split].
    + apply get_order_by_id_run. cbn [orders set_orders].
      erewrite session_get_update_row; [|exact Order_with_id_twice|exact Hget].
      destruct (session_get_key _ _ _ Hget) as [r0 ->]. reflexivity.
    + reflexivity.
    + destruct (session_get_key _ _ _ Hget) as [r0 ->]. reflexivity.
  - intros Hget. apply get_order_by_id_run in Hget.
    now apply update_order_status_absent.
Qed.

Lemma update_order_status_accepts_any_transition_sample :
  (exists updated st',
     OrderService.update_order_status sample_time 1 OrderStatus.CREATED purchased_store
       = (Ok (Some updated), st')
     /\ OrderService.get_order_by_id 1 st' = (Ok (Some updated), st')
     /\ Order.status updated = OrderStatus.CREATED
     /\ Order.id updated = Some 1)
  /\ OrderService.update_order_status sample_time 7 OrderStatus.SHIPPED purchased_store
     = (Ok None, purchased_store).
Proof.
  split.
  - eapply (proj1 (update_order_status_accepts_any_transition sample_time 1
                     OrderStatus.CREATED purchased_store)).
    reflexivity.
  - apply (proj2 (update_order_status_accepts_any_transition sample_time 7
                    OrderStatus.SHIPPED purchased_store)).
    reflexivity.
Defined.


(** C8.  The checkout, whether it succeeds or fails, and the completion
    and the cancellation of a payment leave the products table exactly as
    it was: stock is tested and never decremented, and no other product
    field is written. *)
Theorem payment_operations_never_modify_products d request now now' uuid payment_id payer_id st :
  products (snd (PaymentService.create_paypal_payment d request st)) = products st
  /\ products (snd (PaymentService.complete_paypal_payment now now' uuid payment_id payer_id st))
     = products st
  /\ products (snd (PaymentService.cancel_paypal_payment now now' payment_id st))
     = products st.
Proof.
  split; [|split].
  - apply create_paypal_payment_products.
  - apply complete_paypal_payment_products.
  - apply cancel_paypal_payment_products.
Qed.

(** C9.  Completing a payment id that no stored payment carries returns
    [False] and leaves the entire store unchanged. *)
Theorem complete_unknown_payment_writes_nothing now now' uuid payment_id payer_id st :
  PaymentService.get_payment_by_id payment_id st = (Ok None, st) ->
  PaymentService.complete_paypal_payment now now' uuid payment_id payer_id st
    = (Ok false, st).
Proof.
  intros Hget.
  unfold PaymentService.complete_paypal_payment, try_except.
  now rewrite (bind_ok _ _ _ Hget).
Qed.

Lemma complete_unknown_payment_writes_nothing_sample :
  PaymentService.complete_paypal_payment sample_time sample_time sample_txn_uuid
    "PAY-00000000000000000000" "PAYER00000000" purchased_store
    = (Ok false, purchased_store).
Proof.
  apply (complete_unknown_payment_writes_nothing sample_time sample_time sample_txn_uuid
           "PAY-00000000000000000000" "PAYER00000000" purchased_store).
  reflexivity.
Defined.

(** C10.  [create_order] tests [product.id] only after the Order has been
    committed: called with a customer that has an id and a product that has
    none (the generated order number being unused), it raises the
    "Product must have an ID" error, yet one new Order row, in status
    CREATED, stays in the store and no OrderItem has been written. *)
Theorem create_order_fails_after_persisting_order now uuid customer product shipping_data st customer_id :
  Customer.id customer = Some customer_id ->
  Product.id product = None ->
  order_number_taken (make_order_number now uuid) (orders st) = false ->
  exists order order_id st',
    OrderService.create_order now uuid customer product shipping_data st
      = (Raise (ValueError "Product must have an ID"), st')
    /\ OrderService.get_order_by_id order_id st = (Ok None, st)
    /\ orders st' = orders st ++ [(order_id, order)]
    /\ OrderService.get_order_by_id order_id st' = (Ok (Some order), st')
    /\ Order.status order = OrderStatus.CREATED
    /\ order_items st' = order_items st.
Proof.
  intros Hcust Hprod Hfree.
  destruct (create_order_without_product_id now uuid customer product shipping_data st
              Hcust Hprod Hfree)
    as (order & st' & Hrun & Horders & Hoid & Hstatus & Hitems & _).
  exists order, (next_key (orders st)), st'. repeat split; try assumption.
  - apply get_order_by_id_run. apply session_get_next_key.
  - apply get_order_by_id_run. rewrite Horders.
    rewrite (session_get_appended Order.with_id). rewrite <- Hoid.
    now rewrite Order_with_id_same.
Qed.

Lemma create_order_fails_after_persisting_order_sample :
  exists order order_id st',
    OrderService.create_order sample_time (uuid_order sample_draws) sample_customer
      sample_product sample_shipping_data sample_store
      = (Raise (ValueError "Product must have an ID"), st')
    /\ OrderService.get_order_by_id order_id sample_store = (Ok None, sample_store)
    /\ orders st' = orders sample_store ++ [(order_id, order)]
    /\ OrderService.get_order_by_id order_id st' = (Ok (Some order), st')
    /\ Order.status order = OrderStatus.CREATED
    /\ order_items st' = order_items sample_store.
Proof.
  apply (create_order_fails_after_persisting_order sample_time (uuid_order sample_draws)
           sample_customer sample_product sample_shipping_data sample_store 1).
  - reflexivity.
  - reflexivity.
  - reflexivity.
Defined.

(** C5.  For a stored payment whose order is stored, a completion whose
    freshly synthesized transaction id is not held by another payment
    returns [True]; afterwards the payment is COMPLETED, carries the given
    payer id, has [completed_at] set and a non-empty transaction id, and
    its order is PAID. *)
Theorem complete_marks_payment_completed_and_order_paid
    now now' uuid payment_id payer_id st payment order :
  PaymentService.get_payment_by_id payment_id st = (Ok (Some payment), st) ->
  OrderService.get_order_by_id (Payment.order_id payment) st = (Ok (Some order), st) ->
  transaction_id_taken (Payment.id payment) (make_transaction_id uuid) (payments st)
    = false ->
  exists st' payment' order' txn,
    PaymentService.complete_paypal_payment now now' uuid payment_id payer_id st
      = (Ok true, st')
    /\ PaymentService.get_payment_by_id payment_id st' = (Ok (Some payment'), st')
    /\ Payment.id payment' = Payment.id payment
    /\ Payment.order_id payment' = Payment.order_id payment
    /\ Payment.status payment' = PaymentStatus.COMPLETED
    /\ Payment.paypal_payer_id payment' = Some payer_id
    /\ Payment.completed_at payment' = Some now
    /\ Payment.transaction_id payment' = Some txn
    /\ txn <> ""%string
    /\ OrderService.get_order_by_id (Payment.order_id payment) st' = (Ok (Some order'), st')
    /\ Order.status order' = OrderStatus.PAID.
Proof.
  intros Hpay Horder Hfree.
  apply get_payment_by_id_run in Hpay. apply get_order_by_id_run in Horder.
  destruct (@complete_paypal_payment_run now now' uuid payment_id payer_id st payment Hpay Hfree)
    as (st' & Hrun & Hpay' & Horder' & _).
  exists st', (Payment.complete payer_id now (make_transaction_id uuid) payment),
    (Order.set_status OrderStatus.PAID now' order), (make_transaction_id uuid).
  repeat split; try reflexivity; try assumption.
  - now apply get_payment_by_id_run.
  - discriminate.
  - apply get_order_by_id_run. now apply Horder'.
Qed.

Lemma complete_marks_payment_completed_and_order_paid_sample :
  exists st' payment' order' txn,
    PaymentService.complete_paypal_payment sample_time sample_time sample_txn_uuid
      sample_payment_id "PAYER5B099BC9" purchased_store
      = (Ok true, st')
    /\ PaymentService.get_payment_by_id sample_payment_id st' = (Ok (Some payment'), st')
    /\ Payment.id payment' = Some 1
    /\ Payment.order_id payment' = 1
    /\ Payment.status payment' = PaymentStatus.COMPLETED
    /\ Payment.paypal_payer_id payment' = Some "PAYER5B099BC9"%string
    /\ Payment.completed_at payment' = Some sample_time
    /\ Payment.transaction_id payment' = Some txn
    /\ txn <> ""%string
    /\ OrderService.get_order_by_id 1 st' = (Ok (Some order'), st')
    /\ Order.status order' = OrderStatus.PAID.
Proof.
  epose proof (complete_marks_payment_completed_and_order_paid sample_time sample_time
                 sample_txn_uuid sample_payment_id "PAYER5B099BC9" purchased_store _ _
                 eq_refl eq_refl eq_refl) as Hsample.
  exact Hsample.
Defined.

(** C2.  For a stored payment whose order is stored, completing and then
    cancelling leaves the order CANCELLED (and the payment CANCELLED);
    cancelling and then completing leaves the order PAID (and the payment
    COMPLETED), the completion's transaction id not being held by another
    payment.  Neither call looks at the status it overwrites. *)
Theorem last_of_complete_and_cancel_wins
    now1 now1' now2 now2' uuid payment_id payer_id st payment order :
  PaymentService.get_payment_by_id payment_id st = (Ok (Some payment), st) ->
  OrderService.get_order_by_id (Payment.order_id payment) st = (Ok (Some order), st) ->
  (let st1 := snd (PaymentService.complete_paypal_payment now1 now1' uuid
                     payment_id payer_id st) in
   let st2 := snd (PaymentService.cancel_paypal_payment now2 now2' payment_id st1) in
   exists payment2 order2,
     PaymentService.get_payment_by_id payment_id st2 = (Ok (Some payment2), st2)
     /\ Payment.status payment2 = PaymentStatus.CANCELLED
     /\ OrderService.get_order_by_id (Payment.order_id payment) st2
        = (Ok (Some order2), st2)
     /\ Order.status order2 = OrderStatus.CANCELLED)
  /\ (transaction_id_taken (Payment.id payment) (make_transaction_id uuid) (payments st)
        = false ->
      let st1 := snd (PaymentService.cancel_paypal_payment now1 now1' payment_id st) in
      let st2 := snd (PaymentService.complete_paypal_payment now2 now2' uuid
                        payment_id payer_id st1) in
      exists payment2 order2,
        PaymentService.get_payment_by_id payment_id st2 = (Ok (Some payment2), st2)
        /\ Payment.status payment2 = PaymentStatus.COMPLETED
        /\ OrderService.get_order_by_id (Payment.order_id payment) st2
           = (Ok (Some order2), st2)
        /\ Order.status order2 = OrderStatus.PAID).
Proof.
  intros Hpay Horder.
  apply get_payment_by_id_run in Hpay. apply get_order_by_id_run in Horder.
  split.
  - destruct (transaction_id_taken (Payment.id payment) (make_transaction_id uuid)
                (payments st)) eqn:Htaken.
    + rewrite (@complete_paypal_payment_clash now1 now1' uuid payment_id payer_id st payment Hpay Htaken).
      cbn [snd].
      destruct (@cancel_paypal_payment_run now2 now2' payment_id st payment Hpay)
        as (st2 & Hrun & Hpay2 & Horder2 & _).
      rewrite Hrun. cbn [snd]. do 2 eexists. split; [|split; [|split]].
      * apply get_payment_by_id_run. exact Hpay2.
      * reflexivity.
      * apply get_order_by_id_run. apply Horder2. exact Horder.
      * reflexivity.
    + destruct (@complete_paypal_payment_run now1 now1' uuid payment_id payer_id st payment Hpay Htaken)
        as (st1 & Hrun1 & Hpay1 & Horder1 & _).
      rewrite Hrun1. cbn [snd].
      destruct (@cancel_paypal_payment_run now2 now2' payment_id st1 _ Hpay1)
        as (st2 & Hrun2 & Hpay2 & Horder2 & _).
      rewrite Hrun2. cbn [snd]. do 2 eexists. split; [|split; [|split]].
      * apply get_payment_by_id_run. exact Hpay2.
      * reflexivity.
      * apply get_order_by_id_run.
        apply (Horder2 (Order.set_status OrderStatus.PAID now1' order)).
        apply Horder1. exact Horder.
      * reflexivity.
  - intros Hfree.
    destruct (@cancel_paypal_payment_run now1 now1' payment_id st payment Hpay)
      as (st1 & Hrun1 & Hpay1 & Horder1 & Htxn1).
    rewrite Hrun1. cbn [snd].
    assert (Hfree1 : transaction_id_taken (Payment.id (Payment.cancel now1 payment))
                       (make_transaction_id uuid) (payments st1) = false).
    { cbn [Payment.id Payment.cancel]. now rewrite Htxn1. }
    destruct (@complete_paypal_payment_run now2 now2' uuid payment_id payer_id st1 _ Hpay1 Hfree1)
      as (st2 & Hrun2 & Hpay2 & Horder2 & _).
    rewrite Hrun2. cbn [snd]. do 2 eexists. split; [|split; [|split]].
    + apply get_payment_by_id_run. exact Hpay2.
    + reflexivity.
    + apply get_order_by_id_run.
      apply (Horder2 (Order.set_status OrderStatus.CANCELLED now1' order)).
      apply Horder1. exact Horder.
    + reflexivity.
Qed.

Lemma last_of_complete_and_cancel_wins_sample :
  (let st1 := snd (PaymentService.complete_paypal_payment sample_time sample_time
                     sample_txn_uuid sample_payment_id "PAYER5B099BC9" purchased_store) in
   let st2 := snd (PaymentService.cancel_paypal_payment sample_time sample_time
                     sample_payment_id st1) in
   exists payment2 order2,
     PaymentService.get_payment_by_id sample_payment_id st2 = (Ok (Some payment2), st2)
     /\ Payment.status payment2 = PaymentStatus.CANCELLED
     /\ OrderService.get_order_by_id 1 st2 = (Ok (Some order2), st2)
     /\ Order.status order2 = OrderStatus.CANCELLED)
  /\ (let st1 := snd (PaymentService.cancel_paypal_payment sample_time sample_time
                        sample_payment_id purchased_store) in
      let st2 := snd (PaymentService.complete_paypal_payment sample_time sample_time
                        sample_txn_uuid sample_payment_id "PAYER5B099BC9" st1) in
      exists payment2 order2,
        PaymentService.get_payment_by_id sample_payment_id st2 = (Ok (Some payment2), st2)
        /\ Payment.status payment2 = PaymentStatus.COMPLETED
        /\ OrderService.get_order_by_id 1 st2 = (Ok (Some order2), st2)
        /\ Order.status order2 = OrderStatus.PAID).
Proof.
  epose proof (last_of_complete_and_cancel_wins sample_time sample_time sample_time
                 sample_time sample_txn_uuid sample_payment_id "PAYER5B099BC9"
                 purchased_store _ _ eq_refl eq_refl) as [Hfirst Hsecond].
  split; [exact Hfirst|exact (Hsecond eq_refl)].
Defined.

(** ** Colliding identifiers

    The order number keeps eight hex digits of a uuid and the transaction
    id sixteen, and neither write is retried: a draw that repeats a stored
    identifier is refused by the unique index, and the call fails. *)

(** C1, as stated, fails: after one purchase, a second checkout of the
    same active, in-stock product whose order uuid begins with the same
    eight hex digits returns [None] and creates nothing. *)
Lemma checkout_fails_when_order_number_collides :
  ProductService.get_product_by_id 1 purchased_store
    = (Ok (Some (Product.with_id (Some 1) sample_product)), purchased_store)
  /\ Product.is_active (Product.with_id (Some 1) sample_product) = true
  /\ 1 <= Product.stock_quantity (Product.with_id (Some 1) sample_product)
  /\ PaymentService.create_paypal_payment colliding_draws (sample_request 1) purchased_store
     = (Ok None, purchased_store).
Proof.
  vm_compute. repeat split; discriminate.
Qed.

(** C10, as stated, fails: with a colliding order number the call raises
    the integrity error of the insert, not the precondition error, and no
    Order row is left behind. *)
Lemma create_order_without_product_id_fails_cleanly_on_collision :
  Customer.id sample_customer = Some 1
  /\ Product.id sample_product = None
  /\ OrderService.create_order sample_time (uuid_order colliding_draws) sample_customer
       sample_product sample_shipping_data purchased_store
     = (Raise (IntegrityError "orders.order_number"), purchased_store).
Proof. vm_compute. repeat split. Qed.

(** C5, as stated, fails: the second payment is stored and pending, but a
    completion that synthesizes the transaction id already held by the
    first payment returns [False] and changes nothing. *)
Lemma complete_fails_when_transaction_id_collides :
  (exists payment order,
     PaymentService.get_payment_by_id second_payment_id first_completed_store
       = (Ok (Some payment), first_completed_store)
     /\ Payment.status payment = PaymentStatus.PENDING
     /\ OrderService.get_order_by_id (Payment.order_id payment) first_completed_store
        = (Ok (Some order), first_completed_store))
  /\ PaymentService.complete_paypal_payment sample_time sample_time colliding_txn_uuid
       second_payment_id "PAYER6E3A4000" first_completed_store
     = (Ok false, first_completed_store).
Proof.
  vm_compute. split; [|reflexivity]. do 2 eexists. split; [reflexivity|]. split; reflexivity.
Qed.

(** C2, as stated, fails: cancel then complete, the completion colliding
    on its transaction id, leaves the order CANCELLED, not PAID. *)
Lemma cancel_then_colliding_complete_leaves_order_cancelled :
  let st1 := snd (PaymentService.cancel_paypal_payment sample_time sample_time
                    second_payment_id first_completed_store) in
  let st2 := snd (PaymentService.complete_paypal_payment sample_time sample_time
                    colliding_txn_uuid second_payment_id "PAYER6E3A4000" st1) in
  (exists payment,
     PaymentService.get_payment_by_id second_payment_id first_completed_store
       = (Ok (Some payment), first_completed_store)
     /\ Payment.order_id payment = 2)
  /\ exists order2,
       OrderService.get_order_by_id 2 st2 = (Ok (Some order2), st2)
       /\ Order.status order2 = OrderStatus.CANCELLED.
Proof.
  vm_compute. split.
  - eexists. split; reflexivity.
  - eexists. split; reflexivity.
Qed.

(** * Further properties of the service layer *)

(** ** The catalog: create_product and the two listings *)

Lemma commit_product_customers p : preserves customers (commit_product p).
Proof. intros st. unfold commit_product. destruct (Product.id p), (Product.sku p); cbn;
  try destruct (sku_taken _ _); reflexivity. Qed.
Lemma commit_product_orders p : preserves orders (commit_product p).
Proof. intros st. unfold commit_product. destruct (Product.id p), (Product.sku p); cbn;
  try destruct (sku_taken _ _); reflexivity. Qed.
Lemma commit_product_order_items p : preserves order_items (commit_product p).
Proof. intros st. unfold commit_product. destruct (Product.id p), (Product.sku p); cbn;
  try destruct (sku_taken _ _); reflexivity. Qed.
Lemma commit_product_payments p : preserves payments (commit_product p).
Proof. intros st. unfold commit_product. destruct (Product.id p), (Product.sku p); cbn;
  try destruct (sku_taken _ _); reflexivity. Qed.

Lemma create_product_run now product_data st :
  ProductService.create_product now product_data st
  = if sku_free product_data st
    then (Ok (Product.with_id (Some (next_key (products st))) (product_of now product_data)),
          set_products
            (products st ++ [(next_key (products st),
                              Product.with_id (Some (next_key (products st)))
                                (product_of now product_data))]) st)
    else (Raise (IntegrityError "products.sku"), st).
Proof.
  unfold ProductService.create_product, commit_product, sku_free. cbn [Product.id Product.sku].
  fold (product_of now product_data). unfold insert_row.
  destruct (ProductCreate.sku product_data) as [s|]; [|reflexivity].
  destruct (sku_taken s (products st)); reflexivity.
Qed.

(** X1.  [create_product] succeeds exactly when the product's SKU is not
    held by a stored product (a product without SKU always gets in).  On
    success the product is stored under a key that was not in use, reading
    it back by that key returns the record the call returned, and this
    record carries every field of the input; the rows stored before are
    still in place.  On a taken SKU the call raises the integrity error and
    the store is unchanged. *)
Theorem create_product_then_get_by_id now product_data st :
  (sku_free product_data st = true ->
   exists product key st',
     ProductService.create_product now product_data st = (Ok product, st')
     /\ Product.id product = Some key
     /\ ProductService.get_product_by_id key st = (Ok None, st)
     /\ ProductService.get_product_by_id key st' = (Ok (Some product), st')
     /\ products st' = products st ++ [(key, product)]
     /\ Product.name product = ProductCreate.name product_data
     /\ Product.description product = ProductCreate.description product_data
     /\ Product.price product = ProductCreate.price product_data
     /\ Product.stock_quantity product = ProductCreate.stock_quantity product_data
     /\ Product.is_active product = ProductCreate.is_active product_data
     /\ Product.sku product = ProductCreate.sku product_data
     /\ Product.category product = ProductCreate.category product_data
     /\ Product.image_url product = ProductCreate.image_url product_data)
  /\ (sku_free product_data st = false ->
      ProductService.create_product now product_data st
      = (Raise (IntegrityError "products.sku"), st)).
Proof.
  rewrite create_product_run. split; intros Hfree; rewrite Hfree; [|reflexivity].
  eexists _, (next_key (products st)), _. split; [reflexivity|].
  split; [reflexivity|]. split; [|split].
  - apply get_product_by_id_run. apply session_get_next_key.
  - apply get_product_by_id_run. cbn [products set_products].
    rewrite (session_get_appended Product.with_id). reflexivity.
  - cbn. repeat split.
Qed.

Lemma create_product_then_get_by_id_sample :
  let fresh :=
    {| ProductCreate.name := "Active Product"; ProductCreate.description := "This is active";
       ProductCreate.price := 5000; ProductCreate.stock_quantity := 0;
       ProductCreate.sku := Some "CORE-002"%string; ProductCreate.category := None;
       ProductCreate.image_url := None; ProductCreate.is_active := true |} in
  let clashing :=
    {| ProductCreate.name := "Duplicate"; ProductCreate.description := "Same SKU";
       ProductCreate.price := 5000; ProductCreate.stock_quantity := 0;
       ProductCreate.sku := Some "CORE-001"%string; ProductCreate.category := None;
       ProductCreate.image_url := None; ProductCreate.is_active := true |} in
  (exists product st',
     ProductService.create_product sample_time fresh sample_store = (Ok product, st')
     /\ Product.id product = Some 3
     /\ ProductService.get_product_by_id 3 st' = (Ok (Some product), st'))
  /\ ProductService.create_product sample_time clashing sample_store
     = (Raise (IntegrityError "products.sku"), sample_store).
Proof.
  intros fresh clashing. split.
  - destruct (proj1 (create_product_then_get_by_id sample_time fresh sample_store) eq_refl)
      as (product & key & st' & Hrun & Hid & _ & Hget & Hrows & _).
    exists product, st'. split; [exact Hrun|].
    assert (Hkey : key = 3).
    { vm_compute in Hrun. injection Hrun as <- _. vm_compute in Hid. congruence. }
    rewrite Hkey in Hid, Hget. now split.
  - exact (proj2 (create_product_then_get_by_id sample_time clashing sample_store) eq_refl).
Defined.

(** ** More about tables: keys *)

Section KeyFacts.
Variable R : Type.
Variable with_id : option Z -> R -> R.

Implicit Types (tbl : list (Z * R)) (row : Z * R) (k : Z).

Lemma keys_app tbl1 tbl2 : keys (tbl1 ++ tbl2) = keys tbl1 ++ keys tbl2.
Proof. apply map_app. Qed.

Lemma keys_update_row tbl k r : keys (update_row with_id k r tbl) = keys tbl.
Proof.
  unfold keys, update_row. rewrite map_map. apply map_ext_in.
  intros row _. destruct (Z.eqb (fst row) k) eqn:Hk; [|reflexivity].
  apply Z.eqb_eq in Hk. now rewrite Hk.
Qed.

Lemma next_key_not_stored tbl : ~ In (next_key tbl) (keys tbl).
Proof.
  unfold keys. intros Hin. apply in_map_iff in Hin as (row & Hk & Hin).
  pose proof (next_key_unused tbl row Hin) as Hne.
  rewrite Hk, Z.eqb_refl in Hne. discriminate.
Qed.

Lemma keys_distinct_after_insert tbl r :
  NoDup (keys tbl) -> NoDup (keys (tbl ++ [(next_key tbl, r)])).
Proof.
  intros Hnd. rewrite keys_app. cbn.
  apply NoDup_app; [exact Hnd|repeat constructor; intros []|].
  intros k Hin [<-|[]]. now apply (next_key_not_stored tbl).
Qed.

Lemma find_key_in tbl k row :
  find (fun row => Z.eqb (fst row) k) tbl = Some row -> In row tbl /\ fst row = k.
Proof. intros Hf. apply find_some in Hf as [Hin Hk]. now apply Z.eqb_eq in Hk. Qed.

(** With distinct keys, the row stored under a key is the row [get] finds. *)
Lemma find_stored_row tbl row :
  NoDup (keys tbl) -> In row tbl ->
  find (fun row' => Z.eqb (fst row') (fst row)) tbl = Some row.
Proof.
  induction tbl as [|row0 tbl IH]; cbn; intros Hnd Hin; [contradiction|].
  inversion Hnd as [|? ? Hnot Hnd']; subst.
  destruct Hin as [->|Hin]; [now rewrite Z.eqb_refl|].
  destruct (Z.eqb (fst row0) (fst row)) eqn:Hk; [|now apply IH].
  apply Z.eqb_eq in Hk. exfalso. apply Hnot. rewrite Hk. now apply in_map.
Qed.

Lemma session_get_stored tbl k r :
  session_get with_id k tbl = Some r -> In k (keys tbl).
Proof.
  unfold session_get. destruct (find _ tbl) as [row|] eqn:Hf; [|discriminate].
  intros _. apply find_key_in in Hf as [Hin <-]. now apply in_map.
Qed.

Lemma select_all_app p tbl1 tbl2 :
  select_all with_id p (tbl1 ++ tbl2)
  = select_all with_id p tbl1 ++ select_all with_id p tbl2.
Proof. unfold select_all. now rewrite map_app, filter_app. Qed.

Lemma select_all_in p tbl r :
  In r (select_all with_id p tbl) <->
  exists row, In row tbl /\ r = load with_id row /\ p r = true.
Proof.
  unfold select_all. rewrite filter_In, in_map_iff. split.
  - intros [(row & <- & Hin) Hp]. now exists row.
  - intros (row & Hin & -> & Hp). split; [now exists row|exact Hp].
Qed.
End KeyFacts.

Lemma opt_string_eqb_some a c : opt_string_eqb a (Some c) = true <-> a = Some c.
Proof.
  destruct a as [x|]; cbn; split; try discriminate.
  - intros H. apply String.eqb_eq in H. now subst.
  - intros [= ->]. apply String.eqb_refl.
Qed.

Lemma filter_andb {A} (f g : A -> bool) l :
  filter (fun x => f x && g x) l = filter g (filter f l).
Proof.
  induction l as [|x l IH]; cbn; [reflexivity|].
  destruct (f x); cbn; [destruct (g x); now rewrite IH|exact IH].
Qed.

(** X2.  When [create_product] succeeds, the active listing afterwards is
    the listing before followed by the new product if the product is
    active, and the listing before, unchanged, if it is not. *)
Theorem create_product_extends_active_listing now product_data st :
  sku_free product_data st = true ->
  exists product st' listed,
    ProductService.create_product now product_data st = (Ok product, st')
    /\ ProductService.get_all_active_products st = (Ok listed, st)
    /\ ProductService.get_all_active_products st'
       = (Ok (if ProductCreate.is_active product_data then listed ++ [product] else listed),
          st').
Proof.
  intros Hfree. rewrite create_product_run, Hfree.
  eexists _, _, _. split; [reflexivity|]. split; [reflexivity|].
  unfold ProductService.get_all_active_products, gets. cbn [products set_products].
  rewrite select_all_app. f_equal. f_equal.
  unfold select_all at 2. cbn.
  destruct (ProductCreate.is_active product_data); [reflexivity|apply app_nil_r].
Qed.

Lemma create_product_extends_active_listing_sample :
  exists product st' listed,
    ProductService.create_product sample_time
      {| ProductCreate.name := "Active Product"; ProductCreate.description := "This is active";
         ProductCreate.price := 5000; ProductCreate.stock_quantity := 0;
         ProductCreate.sku := None; ProductCreate.category := None;
         ProductCreate.image_url := None; ProductCreate.is_active := true |}
      sample_store = (Ok product, st')
    /\ ProductService.get_all_active_products sample_store = (Ok listed, sample_store)
    /\ ProductService.get_all_active_products st' = (Ok (listed ++ [product]), st').
Proof.
  apply (create_product_extends_active_listing sample_time
           {| ProductCreate.name := "Active Product";
              ProductCreate.description := "This is active";
              ProductCreate.price := 5000; ProductCreate.stock_quantity := 0;
              ProductCreate.sku := None; ProductCreate.category := None;
              ProductCreate.image_url := None; ProductCreate.is_active := true |}
           sample_store).
  reflexivity.
Defined.

(** X3.  The category listing is the active listing filtered by exact
    equality of the category: it lists, in the same order, the active
    products whose category is the given string, and never a product
    without category. *)
Theorem category_listing_filters_active_listing category st :
  exists active,
    ProductService.get_all_active_products st = (Ok active, st)
    /\ ProductService.get_products_by_category category st
       = (Ok (filter (fun p => opt_string_eqb (Product.category p) (Some category)) active),
          st)
    /\ forall p by_category,
         ProductService.get_products_by_category category st = (Ok by_category, st) ->
         (In p by_category <-> In p active /\ Product.category p = Some category).
Proof.
  eexists. split; [reflexivity|].
  assert (Heq : ProductService.get_products_by_category category st
                = (Ok (filter (fun p => opt_string_eqb (Product.category p) (Some category))
                         (select_all Product.with_id Product.is_active (products st))), st)).
  { unfold ProductService.get_products_by_category, gets, select_all.
    now rewrite filter_andb. }
  split; [exact Heq|].
  intros p by_category Hrun. rewrite Heq in Hrun. injection Hrun as <-.
  rewrite filter_In. now rewrite opt_string_eqb_some.
Qed.

(** X4.  Every product of the active listing is active and carries an id;
    when the product keys are distinct, fetching that id returns the
    listed record itself. *)
Theorem listed_products_are_active_and_retrievable st listed product :
  NoDup (keys (products st)) ->
  ProductService.get_all_active_products st = (Ok listed, st) ->
  In product listed ->
  Product.is_active product = true
  /\ exists key, Product.id product = Some key
                 /\ ProductService.get_product_by_id key st = (Ok (Some product), st).
Proof.
  intros Hnd Hrun Hin. unfold ProductService.get_all_active_products, gets in Hrun.
  injection Hrun as <-. apply select_all_in in Hin as (row & Hin & -> & Hactive).
  split; [exact Hactive|]. exists (fst row). split; [reflexivity|].
  apply get_product_by_id_run. unfold session_get.
  now rewrite (find_stored_row _ _ _ Hnd Hin).
Qed.

Lemma listed_products_are_active_and_retrievable_sample :
  Product.is_active (Product.with_id (Some 1) sample_product) = true
  /\ exists key, Product.id (Product.with_id (Some 1) sample_product) = Some key
                 /\ ProductService.get_product_by_id key sample_store
                    = (Ok (Some (Product.with_id (Some 1) sample_product)), sample_store).
Proof.
  eapply (listed_products_are_active_and_retrievable sample_store).
  - repeat constructor; cbn; intuition discriminate.
  - reflexivity.
  - cbn. left. reflexivity.
Defined.

(** ** Customers *)

Lemma get_or_create_customer_cases now email first_name last_name phone st :
  match select_first Customer.with_id (CustomerService.has_email email) (customers st) with
  | Some stored =>
      CustomerService.get_or_create_customer now email first_name last_name phone st
      = (Ok stored, st)
  | None =>
      CustomerService.get_or_create_customer now email first_name last_name phone st
      = (Ok {| Customer.id := Some (next_key (customers st)); Customer.email := email;
               Customer.first_name := first_name; Customer.last_name := last_name;
               Customer.phone := phone;
               Customer.created_at := now; Customer.updated_at := now |},
         set_customers
           (customers st ++
            [(next_key (customers st),
              {| Customer.id := Some (next_key (customers st)); Customer.email := email;
                 Customer.first_name := first_name; Customer.last_name := last_name;
                 Customer.phone := phone;
                 Customer.created_at := now; Customer.updated_at := now |})]) st)
  end.
Proof.
  unfold CustomerService.get_or_create_customer, bind, gets.
  destruct (select_first _ _ (customers st)) as [stored|] eqn:Hsel; [reflexivity|].
  unfold commit_customer. cbn [Customer.id Customer.email].
  now rewrite (email_free _ _ Hsel).
Qed.



(** ** Cancelling and completing again *)

(** X6.  [cancel_paypal_payment] never raises.  For a payment id no stored
    payment carries it returns [False] and writes nothing.  For a stored
    payment it returns [True] whatever the payment's status was; the
    payment becomes CANCELLED while its payer id, transaction id,
    completion time, amount and order stay as they were, and its order,
    when stored, becomes CANCELLED with its amount, number and customer
    unchanged. *)
Theorem cancel_paypal_payment_outcome now now' payment_id st :
  (PaymentService.get_payment_by_id payment_id st = (Ok None, st) ->
   PaymentService.cancel_paypal_payment now now' payment_id st = (Ok false, st))
  /\ (forall payment,
        PaymentService.get_payment_by_id payment_id st = (Ok (Some payment), st) ->
        exists st' payment',
          PaymentService.cancel_paypal_payment now now' payment_id st = (Ok true, st')
          /\ PaymentService.get_payment_by_id payment_id st' = (Ok (Some payment'), st')
          /\ Payment.status payment' = PaymentStatus.CANCELLED
          /\ Payment.paypal_payer_id payment' = Payment.paypal_payer_id payment
          /\ Payment.transaction_id payment' = Payment.transaction_id payment
          /\ Payment.completed_at payment' = Payment.completed_at payment
          /\ Payment.amount payment' = Payment.amount payment
          /\ Payment.order_id payment' = Payment.order_id payment
          /\ forall order,
               OrderService.get_order_by_id (Payment.order_id payment) st
                 = (Ok (Some order), st) ->
               exists order',
                 OrderService.get_order_by_id (Payment.order_id payment) st'
                   = (Ok (Some order'), st')
                 /\ Order.status order' = OrderStatus.CANCELLED
                 /\ Order.total_amount order' = Order.total_amount order
                 /\ Order.order_number order' = Order.order_number order
                 /\ Order.customer_id order' = Order.customer_id order).
Proof.
  split.
  - intros Hget. unfold PaymentService.cancel_paypal_payment, try_except.
    now rewrite (bind_ok _ _ _ Hget).
  - intros payment Hget. apply get_payment_by_id_run in Hget.
    destruct (@cancel_paypal_payment_run now now' payment_id st payment Hget)
      as (st' & Hrun & Hpay & Horder & _).
    exists st', (Payment.cancel now payment).
    split; [exact Hrun|]. split; [now apply get_payment_by_id_run|].
    repeat split.
    intros order Hord. apply get_order_by_id_run in Hord.
    exists (Order.set_status OrderStatus.CANCELLED now' order).
    split; [apply get_order_by_id_run; now apply Horder|]. repeat split.
Qed.

Lemma cancel_paypal_payment_outcome_sample :
  PaymentService.cancel_paypal_payment sample_time sample_time "PAY-00000000000000000000"
    purchased_store = (Ok false, purchased_store)
  /\ exists st' payment',
       PaymentService.cancel_paypal_payment sample_time sample_time sample_payment_id
         purchased_store = (Ok true, st')
       /\ PaymentService.get_payment_by_id sample_payment_id st' = (Ok (Some payment'), st')
       /\ Payment.status payment' = PaymentStatus.CANCELLED.
Proof.
  split.
  - apply (proj1 (cancel_paypal_payment_outcome sample_time sample_time
                    "PAY-00000000000000000000"%string purchased_store)).
    vm_compute. reflexivity.
  - assert (Hget : exists payment,
               PaymentService.get_payment_by_id sample_payment_id purchased_store
               = (Ok (Some payment), purchased_store))
      by (eexists; vm_compute; reflexivity).
    destruct Hget as (payment & Hget).
    destruct (proj2 (cancel_paypal_payment_outcome sample_time sample_time
                       sample_payment_id purchased_store) payment Hget)
      as (st' & payment' & Hrun & Hread & Hstatus & _).
    now exists st', payment'.
Defined.

(** X7.  Completing a stored payment twice succeeds both times (each
    transaction id being held by no other payment), and the second
    completion overwrites what the first recorded: afterwards the payment
    carries the second payer id, the second transaction id and the second
    completion time. *)
Theorem complete_twice_restamps_payment
    now1 now1' uuid1 payer1 now2 now2' uuid2 payer2 payment_id st payment :
  PaymentService.get_payment_by_id payment_id st = (Ok (Some payment), st) ->
  transaction_id_taken (Payment.id payment) (make_transaction_id uuid1) (payments st)
    = false ->
  transaction_id_taken (Payment.id payment) (make_transaction_id uuid2) (payments st)
    = false ->
  exists st1 st2 payment2,
    PaymentService.complete_paypal_payment now1 now1' uuid1 payment_id payer1 st
      = (Ok true, st1)
    /\ PaymentService.complete_paypal_payment now2 now2' uuid2 payment_id payer2 st1
       = (Ok true, st2)
    /\ PaymentService.get_payment_by_id payment_id st2 = (Ok (Some payment2), st2)
    /\ Payment.status payment2 = PaymentStatus.COMPLETED
    /\ Payment.paypal_payer_id payment2 = Some payer2
    /\ Payment.transaction_id payment2 = Some (make_transaction_id uuid2)
    /\ Payment.completed_at payment2 = Some now2
    /\ Payment.id payment2 = Payment.id payment.
Proof.
  intros Hget Hfree1 Hfree2. apply get_payment_by_id_run in Hget.
  destruct (@complete_paypal_payment_run now1 now1' uuid1 payment_id payer1 st payment
              Hget Hfree1) as (st1 & Hrun1 & Hpay1 & _ & Htxn1).
  assert (Hfree2' : transaction_id_taken
                      (Payment.id (Payment.complete payer1 now1 (make_transaction_id uuid1)
                                     payment))
                      (make_transaction_id uuid2) (payments st1) = false).
  { cbn [Payment.id Payment.complete]. now rewrite Htxn1. }
  destruct (@complete_paypal_payment_run now2 now2' uuid2 payment_id payer2 st1 _
              Hpay1 Hfree2') as (st2 & Hrun2 & Hpay2 & _).
  exists st1, st2. eexists. split; [exact Hrun1|]. split; [exact Hrun2|].
  split; [apply get_payment_by_id_run; exact Hpay2|]. repeat split.
Qed.

Lemma complete_twice_restamps_payment_sample :
  exists st1 st2 payment2,
    PaymentService.complete_paypal_payment sample_time sample_time sample_txn_uuid
      sample_payment_id "PAYER5B099BC9" purchased_store = (Ok true, st1)
    /\ PaymentService.complete_paypal_payment sample_time sample_time
         (uuid_order second_draws) sample_payment_id "PAYERAGAIN" st1 = (Ok true, st2)
    /\ PaymentService.get_payment_by_id sample_payment_id st2 = (Ok (Some payment2), st2)
    /\ Payment.status payment2 = PaymentStatus.COMPLETED
    /\ Payment.paypal_payer_id payment2 = Some "PAYERAGAIN"%string
    /\ Payment.transaction_id payment2 = Some (make_transaction_id (uuid_order second_draws))
    /\ Payment.completed_at payment2 = Some sample_time
    /\ Payment.id payment2 = Some 1.
Proof.
  epose proof (complete_twice_restamps_payment sample_time sample_time sample_txn_uuid
                 "PAYER5B099BC9" sample_time sample_time (uuid_order second_draws)
                 "PAYERAGAIN" sample_payment_id purchased_store _
                 eq_refl eq_refl eq_refl) as Hsample.
  exact Hsample.
Defined.

(** ** The stores the payment methods leave *)

Lemma store_eta st :
  {| products := products st; customers := customers st; orders := orders st;
     order_items := order_items st; payments := payments st |} = st.
Proof. now destruct st. Qed.

Lemma create_order_store now uuid customer product shipping_data st cid pid :
  Customer.id customer = Some cid ->
  Product.id product = Some pid ->
  order_number_taken (make_order_number now uuid) (orders st) = false ->
  OrderService.create_order now uuid customer product shipping_data st
  = (Ok (new_order now uuid cid product shipping_data (next_key (orders st))),
     set_order_items
       (order_items st ++
        [(next_key (order_items st),
          new_order_item (next_key (orders st)) pid product (next_key (order_items st)))])
       (set_orders
          (orders st ++
           [(next_key (orders st),
             new_order now uuid cid product shipping_data (next_key (orders st)))]) st)).
Proof.
  intros Hc Hp Hfree.
  unfold OrderService.create_order. rewrite Hc.
  unfold bind at 1. unfold commit_order at 1. cbn [Order.id Order.order_number].
  rewrite Hfree. cbn [insert_row Order.with_id Order.id]. rewrite Hp.
  unfold bind, commit_order_item, ret. reflexivity.
Qed.

Lemma checkout_store d request st product customer cid st1 :
  session_get Product.with_id (PayPalPaymentRequest.product_id request) (products st)
    = Some product ->
  Product.is_active product = true ->
  0 < Product.stock_quantity product ->
  CustomerService.get_or_create_customer (now_customer d)
    (PayPalPaymentRequest.customer_email request)
    (PayPalPaymentRequest.customer_first_name request)
    (PayPalPaymentRequest.customer_last_name request)
    (PayPalPaymentRequest.phone request) st = (Ok customer, st1) ->
  Customer.id customer = Some cid ->
  order_number_taken (make_order_number (now_order d) (uuid_order d)) (orders st) = false ->
  PaymentService.create_paypal_payment d request st
  = (Ok (Some {| PayPalPaymentResponse.payment_id := make_payment_id (uuid_payment d);
                 PayPalPaymentResponse.payment_url :=
                   make_payment_url (make_payment_id (uuid_payment d));
                 PayPalPaymentResponse.order_id := next_key (orders st);
                 PayPalPaymentResponse.status := PaymentStatus.PENDING |}),
     store_after_checkout d request product cid st st1).
Proof.
  intros Hprod Hactive Hstock Hcust Hcid Hfree.
  pose proof (get_or_create_customer_products (now_customer d)
                (PayPalPaymentRequest.customer_email request)
                (PayPalPaymentRequest.customer_first_name request)
                (PayPalPaymentRequest.customer_last_name request)
                (PayPalPaymentRequest.phone request) st) as Hpr1.
  pose proof (get_or_create_customer_orders (now_customer d)
                (PayPalPaymentRequest.customer_email request)
                (PayPalPaymentRequest.customer_first_name request)
                (PayPalPaymentRequest.customer_last_name request)
                (PayPalPaymentRequest.phone request) st) as Ho1.
  pose proof (get_or_create_customer_order_items (now_customer d)
                (PayPalPaymentRequest.customer_email request)
                (PayPalPaymentRequest.customer_first_name request)
                (PayPalPaymentRequest.customer_last_name request)
                (PayPalPaymentRequest.phone request) st) as Hi1.
  pose proof (get_or_create_customer_payments (now_customer d)
                (PayPalPaymentRequest.customer_email request)
                (PayPalPaymentRequest.customer_first_name request)
                (PayPalPaymentRequest.customer_last_name request)
                (PayPalPaymentRequest.phone request) st) as Hp1.
  rewrite Hcust in Hpr1, Ho1, Hi1, Hp1. cbn [snd] in Hpr1, Ho1, Hi1, Hp1.
  pose proof (loaded_product_has_id _ _ Hprod) as Hpid.
  rewrite <- Ho1 in Hfree.
  unfold PaymentService.create_paypal_payment, try_except.
  rewrite (bind_ok _ _ _ (proj2 (get_product_by_id_run _ _ _) Hprod)).
  rewrite Hactive. cbn [negb].
  replace (Z.leb (Product.stock_quantity product) 0) with false
    by (symmetry; apply Z.leb_gt; lia).
  rewrite (bind_ok _ _ _ Hcust).
  fold (shipping_data_of request).
  rewrite (bind_ok _ _ _ (create_order_store (now_order d) (uuid_order d) customer product
                            (shipping_data_of request) st1 cid _ Hcid Hpid Hfree)).
  cbn [Order.id new_order].
  unfold bind at 1. unfold commit_payment at 1.
  cbn [Payment.transaction_id Payment.id insert_row].
  unfold bind at 1.
  erewrite update_order_status_run.
  2:{ cbn [orders set_payments set_order_items set_orders].
      rewrite (session_get_appended Order.with_id). reflexivity. }
  unfold ret. f_equal; [now rewrite Ho1|].
  unfold store_after_checkout.
  cbn [orders order_items payments products customers
       set_orders set_payments set_order_items].
  rewrite (update_row_appended Order.with_id).
  unfold set_orders, set_payments, set_order_items.
  cbn [orders order_items payments products customers].
  rewrite Ho1, Hi1, Hp1, Hpr1. reflexivity.
Qed.

Lemma update_order_status_store now k s st :
  snd (OrderService.update_order_status now k s st)
  = match session_get Order.with_id k (orders st) with
    | Some order =>
        set_orders (update_row Order.with_id k (Order.set_status s now order) (orders st)) st
    | None => st
    end.
Proof.
  destruct (session_get Order.with_id k (orders st)) as [order|] eqn:Hget.
  - now rewrite (@update_order_status_run now k s st order Hget).
  - now rewrite (@update_order_status_absent now k s st Hget).
Qed.

Lemma payment_write_store now' s payment' key st :
  snd (OrderService.update_order_status now' (Payment.order_id payment') s
         (set_payments (update_row Payment.with_id key payment' (payments st)) st))
  = store_after_payment_write payment' key s now' st.
Proof.
  rewrite update_order_status_store. unfold store_after_payment_write.
  cbn [orders set_payments].
  destruct (session_get Order.with_id (Payment.order_id payment') (orders st)); reflexivity.
Qed.


Lemma complete_paypal_payment_store now now' uuid pid payer st payment key :
  select_first Payment.with_id (PaymentService.has_paypal_payment_id pid) (payments st)
    = Some payment ->
  Payment.id payment = Some key ->
  transaction_id_taken (Some key) (make_transaction_id uuid) (payments st) = false ->
  PaymentService.complete_paypal_payment now now' uuid pid payer st
  = (Ok true,
     store_after_payment_write
       (Payment.complete payer now (make_transaction_id uuid) payment) key
       OrderStatus.PAID now' st).
Proof.
  intros Hsel Hid Hfree.
  unfold PaymentService.complete_paypal_payment, try_except.
  rewrite (bind_ok _ _ _ (proj2 (get_payment_by_id_run _ _ _) Hsel)).
  unfold bind at 1. unfold commit_payment.
  cbn [Payment.transaction_id Payment.complete Payment.id]. rewrite Hid, Hfree.
  cbn [andb].
  set (p' := Payment.complete payer now (make_transaction_id uuid) payment).
  destruct (update_order_status_returns now' (Payment.order_id p') OrderStatus.PAID
              (set_payments (update_row Payment.with_id key p' (payments st)) st))
    as [r Hrun].
  rewrite (bind_ok _ _ _ Hrun). unfold ret. f_equal. apply payment_write_store.
Qed.

Lemma cancel_paypal_payment_store now now' pid st payment key :
  select_first Payment.with_id (PaymentService.has_paypal_payment_id pid) (payments st)
    = Some payment ->
  Payment.id payment = Some key ->
  PaymentService.cancel_paypal_payment now now' pid st
  = (Ok true,
     store_after_payment_write (Payment.cancel now payment) key
       OrderStatus.CANCELLED now' st).
Proof.
  intros Hsel Hid.
  unfold PaymentService.cancel_paypal_payment, try_except.
  rewrite (bind_ok _ _ _ (proj2 (get_payment_by_id_run _ _ _) Hsel)).
  unfold bind at 1. unfold commit_payment.
  cbn [Payment.transaction_id Payment.cancel Payment.id]. rewrite Hid.
  assert (Hclash : match Payment.transaction_id payment with
                   | Some txn => false && transaction_id_taken (Some key) txn (payments st)
                   | None => false
                   end = false) by now destruct (Payment.transaction_id payment).
  rewrite Hclash.
  set (p' := Payment.cancel now payment).
  destruct (update_order_status_returns now' (Payment.order_id p') OrderStatus.CANCELLED
              (set_payments (update_row Payment.with_id key p' (payments st)) st))
    as [r Hrun].
  rewrite (bind_ok _ _ _ Hrun). unfold ret. f_equal. apply payment_write_store.
Qed.

(** ** Checkout, seen from the store it leaves *)

Lemma checkout_succeeds d request st product :
  session_get Product.with_id (PayPalPaymentRequest.product_id request) (products st)
    = Some product ->
  Product.is_active product = true ->
  0 < Product.stock_quantity product ->
  order_number_taken (make_order_number (now_order d) (uuid_order d)) (orders st) = false ->
  exists customer cid st1,
    CustomerService.get_or_create_customer (now_customer d)
      (PayPalPaymentRequest.customer_email request)
      (PayPalPaymentRequest.customer_first_name request)
      (PayPalPaymentRequest.customer_last_name request)
      (PayPalPaymentRequest.phone request) st = (Ok customer, st1)
    /\ Customer.id customer = Some cid
    /\ select_first Customer.with_id
         (CustomerService.has_email (PayPalPaymentRequest.customer_email request))
         (customers st1) = Some customer
    /\ PaymentService.create_paypal_payment d request st
       = (Ok (Some {| PayPalPaymentResponse.payment_id := make_payment_id (uuid_payment d);
                      PayPalPaymentResponse.payment_url :=
                        make_payment_url (make_payment_id (uuid_payment d));
                      PayPalPaymentResponse.order_id := next_key (orders st);
                      PayPalPaymentResponse.status := PaymentStatus.PENDING |}),
          store_after_checkout d request product cid st st1).
Proof.
  intros Hprod Hactive Hstock Hfree.
  destruct (get_or_create_customer_run (now_customer d)
              (PayPalPaymentRequest.customer_email request)
              (PayPalPaymentRequest.customer_first_name request)
              (PayPalPaymentRequest.customer_last_name request)
              (PayPalPaymentRequest.phone request) st)
    as (customer & cid & st1 & Hcust & Hcid & Hsel).
  exists customer, cid, st1. repeat split; try assumption.
  now apply checkout_store with (customer := customer).
Qed.

Lemma select_first_appended_payment pid tbl key payment :
  select_first Payment.with_id (PaymentService.has_paypal_payment_id pid) tbl = None ->
  Payment.paypal_payment_id payment = Some pid ->
  select_first Payment.with_id (PaymentService.has_paypal_payment_id pid)
    (tbl ++ [(key, payment)]) = Some (Payment.with_id (Some key) payment).
Proof.
  unfold select_first. intros Hnone Hpid.
  destruct (find _ tbl) eqn:Hf; [discriminate|].
  rewrite find_app_none by exact Hf.
  unfold load, PaymentService.has_paypal_payment_id. cbn. rewrite Hpid. cbn.
  now rewrite String.eqb_refl.
Qed.

(** X8.  A successful checkout can be resumed from its response: when no
    stored payment already carries the generated payment id, looking the
    response's [payment_id] up returns the payment just written, which is
    PENDING, has no payer and no transaction id yet, belongs to the
    response's order and has the product's price as amount, the same as
    the order's total; the redirect URL is the sandbox checkout link for
    that payment id. *)
Theorem checkout_response_identifies_new_payment d request st product :
  ProductService.get_product_by_id (PayPalPaymentRequest.product_id request) st
    = (Ok (Some product), st) ->
  Product.is_active product = true ->
  0 < Product.stock_quantity product ->
  order_number_taken (make_order_number (now_order d) (uuid_order d)) (orders st) = false ->
  PaymentService.get_payment_by_id (make_payment_id (uuid_payment d)) st = (Ok None, st) ->
  exists response st' payment order,
    PaymentService.create_paypal_payment d request st = (Ok (Some response), st')
    /\ PayPalPaymentResponse.status response = PaymentStatus.PENDING
    /\ PayPalPaymentResponse.payment_url response
       = ("https://sandbox.paypal.com/checkoutnow?token="
          ++ PayPalPaymentResponse.payment_id response)%string
    /\ PaymentService.get_payment_by_id (PayPalPaymentResponse.payment_id response) st'
       = (Ok (Some payment), st')
    /\ Payment.status payment = PaymentStatus.PENDING
    /\ Payment.paypal_payer_id payment = None
    /\ Payment.transaction_id payment = None
    /\ Payment.order_id payment = PayPalPaymentResponse.order_id response
    /\ Payment.amount payment = Product.price product
    /\ OrderService.get_order_by_id (PayPalPaymentResponse.order_id response) st'
       = (Ok (Some order), st')
    /\ Order.total_amount order = Payment.amount payment.
Proof.
  intros Hprod Hactive Hstock Hfree Hunused.
  apply get_product_by_id_run in Hprod. apply get_payment_by_id_run in Hunused.
  destruct (checkout_succeeds d request st product Hprod Hactive Hstock Hfree)
    as (customer & cid & st1 & _ & _ & _ & Hrun).
  eexists _, _,
    (new_payment d request product (next_key (orders st)) (next_key (payments st))),
    (Order.set_status OrderStatus.PAYMENT_PENDING (now_status d)
       (new_order (now_order d) (uuid_order d) cid product (shipping_data_of request)
          (next_key (orders st)))).
  split; [exact Hrun|].
  cbn [PayPalPaymentResponse.status PayPalPaymentResponse.payment_url
       PayPalPaymentResponse.payment_id PayPalPaymentResponse.order_id].
  split; [reflexivity|]. split; [reflexivity|]. split.
  { apply get_payment_by_id_run. unfold store_after_checkout. cbn [payments].
    erewrite select_first_appended_payment; [reflexivity|exact Hunused|reflexivity]. }
  do 5 (split; [reflexivity|]). split; [|reflexivity].
  apply get_order_by_id_run. unfold store_after_checkout. cbn [orders].
  rewrite (session_get_appended Order.with_id). reflexivity.
Qed.

Lemma checkout_response_identifies_new_payment_sample :
  exists response st' payment order,
    PaymentService.create_paypal_payment sample_draws (sample_request 1) sample_store
      = (Ok (Some response), st')
    /\ PayPalPaymentResponse.status response = PaymentStatus.PENDING
    /\ PayPalPaymentResponse.payment_url response
       = ("https://sandbox.paypal.com/checkoutnow?token="
          ++ PayPalPaymentResponse.payment_id response)%string
    /\ PaymentService.get_payment_by_id (PayPalPaymentResponse.payment_id response) st'
       = (Ok (Some payment), st')
    /\ Payment.status payment = PaymentStatus.PENDING
    /\ Payment.paypal_payer_id payment = None
    /\ Payment.transaction_id payment = None
    /\ Payment.order_id payment = PayPalPaymentResponse.order_id response
    /\ Payment.amount payment = 9999
    /\ OrderService.get_order_by_id (PayPalPaymentResponse.order_id response) st'
       = (Ok (Some order), st')
    /\ Order.total_amount order = Payment.amount payment.
Proof.
  apply (checkout_response_identifies_new_payment sample_draws (sample_request 1)
           sample_store (Product.with_id (Some 1) sample_product)).
  - reflexivity.
  - reflexivity.
  - cbn. lia.
  - reflexivity.
  - reflexivity.
Defined.

Lemma transaction_id_unused_for_any_key k txn tbl :
  transaction_id_taken None txn tbl = false -> transaction_id_taken k txn tbl = false.
Proof.
  unfold transaction_id_taken. induction tbl as [|row tbl IH]; cbn; [reflexivity|].
  intros H. apply orb_false_iff in H as [Hrow Htbl]. rewrite (IH Htbl).
  cbn in Hrow. rewrite Hrow. now rewrite andb_false_r.
Qed.

Lemma transaction_id_taken_appended key txn tbl payment :
  transaction_id_taken (Some key) txn (tbl ++ [(key, payment)])
  = transaction_id_taken (Some key) txn tbl.
Proof.
  unfold transaction_id_taken. rewrite existsb_app. cbn. rewrite Z.eqb_refl. cbn.
  now rewrite orb_false_r.
Qed.

(** X9.  The purchase scenario end to end: a successful checkout followed
    by a completion under the payment id of its response (the transaction
    id being held by no stored payment) returns [True] and leaves the
    order of the response PAID, at the product's price, and its payment
    COMPLETED with the given payer id and the new transaction id. *)
Theorem checkout_then_complete_pays_the_order d request st product now now' uuid payer_id :
  ProductService.get_product_by_id (PayPalPaymentRequest.product_id request) st
    = (Ok (Some product), st) ->
  Product.is_active product = true ->
  0 < Product.stock_quantity product ->
  order_number_taken (make_order_number (now_order d) (uuid_order d)) (orders st) = false ->
  PaymentService.get_payment_by_id (make_payment_id (uuid_payment d)) st = (Ok None, st) ->
  transaction_id_taken None (make_transaction_id uuid) (payments st) = false ->
  exists response st1 st2 payment order,
    PaymentService.create_paypal_payment d request st = (Ok (Some response), st1)
    /\ PaymentService.complete_paypal_payment now now' uuid
         (PayPalPaymentResponse.payment_id response) payer_id st1 = (Ok true, st2)
    /\ PaymentService.get_payment_by_id (PayPalPaymentResponse.payment_id response) st2
       = (Ok (Some payment), st2)
    /\ Payment.status payment = PaymentStatus.COMPLETED
    /\ Payment.paypal_payer_id payment = Some payer_id
    /\ Payment.transaction_id payment = Some (make_transaction_id uuid)
    /\ Payment.order_id payment = PayPalPaymentResponse.order_id response
    /\ OrderService.get_order_by_id (PayPalPaymentResponse.order_id response) st2
       = (Ok (Some order), st2)
    /\ Order.status order = OrderStatus.PAID
    /\ Order.total_amount order = Product.price product.
Proof.
  intros Hprod Hactive Hstock Hfree Hunused Htxn.
  apply get_product_by_id_run in Hprod. apply get_payment_by_id_run in Hunused.
  destruct (checkout_succeeds d request st product Hprod Hactive Hstock Hfree)
    as (customer & cid & st0 & _ & _ & _ & Hrun).
  set (st1 := store_after_checkout d request product cid st st0) in *.
  set (payment1 := new_payment d request product (next_key (orders st))
                     (next_key (payments st))).
  assert (Hsel1 : select_first Payment.with_id
                    (PaymentService.has_paypal_payment_id (make_payment_id (uuid_payment d)))
                    (payments st1) = Some payment1).
  { unfold st1, store_after_checkout. cbn [payments].
    erewrite select_first_appended_payment; [reflexivity|exact Hunused|reflexivity]. }
  assert (Hfree1 : transaction_id_taken (Payment.id payment1) (make_transaction_id uuid)
                     (payments st1) = false).
  { unfold st1, store_after_checkout. cbn [payments Payment.id payment1 new_payment].
    rewrite transaction_id_taken_appended.
    now apply transaction_id_unused_for_any_key. }
  destruct (@complete_paypal_payment_run now now' uuid (make_payment_id (uuid_payment d))
              payer_id st1 payment1 Hsel1 Hfree1) as (st2 & Hrun2 & Hpay2 & Horder2 & _).
  eexists _, st1, st2, _, _. split; [exact Hrun|].
  cbn [PayPalPaymentResponse.payment_id PayPalPaymentResponse.order_id].
  split; [exact Hrun2|]. split; [apply get_payment_by_id_run; exact Hpay2|].
  do 4 (split; [reflexivity|]). split.
  - apply get_order_by_id_run.
    apply (Horder2 (Order.set_status OrderStatus.PAYMENT_PENDING (now_status d)
                      (new_order (now_order d) (uuid_order d) cid product
                         (shipping_data_of request) (next_key (orders st))))).
    unfold st1, store_after_checkout. cbn [orders Payment.order_id payment1 new_payment].
    rewrite (session_get_appended Order.with_id). reflexivity.
  - split; reflexivity.
Qed.

Lemma checkout_then_complete_pays_the_order_sample :
  exists response st1 st2 payment order,
    PaymentService.create_paypal_payment sample_draws (sample_request 1) sample_store
      = (Ok (Some response), st1)
    /\ PaymentService.complete_paypal_payment sample_time sample_time sample_txn_uuid
         (PayPalPaymentResponse.payment_id response) "PAYER5B099BC9" st1 = (Ok true, st2)
    /\ PaymentService.get_payment_by_id (PayPalPaymentResponse.payment_id response) st2
       = (Ok (Some payment), st2)
    /\ Payment.status payment = PaymentStatus.COMPLETED
    /\ Payment.paypal_payer_id payment = Some "PAYER5B099BC9"%string
    /\ Payment.transaction_id payment = Some (make_transaction_id sample_txn_uuid)
    /\ Payment.order_id payment = PayPalPaymentResponse.order_id response
    /\ OrderService.get_order_by_id (PayPalPaymentResponse.order_id response) st2
       = (Ok (Some order), st2)
    /\ Order.status order = OrderStatus.PAID
    /\ Order.total_amount order = 9999.
Proof.
  apply (checkout_then_complete_pays_the_order sample_draws (sample_request 1) sample_store
           (Product.with_id (Some 1) sample_product) sample_time sample_time
           sample_txn_uuid "PAYER5B099BC9").
  - reflexivity.
  - reflexivity.
  - cbn. lia.
  - reflexivity.
  - reflexivity.
  - reflexivity.
Defined.

(** X10.  The order of a successful checkout belongs to the customer the
    email resolves to: looking the request's email up afterwards finds a
    customer whose id is the order's [customer_id].  If the email was
    already stored, the customers table is unchanged and the stored names
    stay as they were; either way the order's shipping name and address
    are the ones of the request. *)
Theorem checkout_order_belongs_to_email_customer d request st product :
  ProductService.get_product_by_id (PayPalPaymentRequest.product_id request) st
    = (Ok (Some product), st) ->
  Product.is_active product = true ->
  0 < Product.stock_quantity product ->
  order_number_taken (make_order_number (now_order d) (uuid_order d)) (orders st) = false ->
  exists response st' order customer,
    PaymentService.create_paypal_payment d request st = (Ok (Some response), st')
    /\ OrderService.get_order_by_id (PayPalPaymentResponse.order_id response) st'
       = (Ok (Some order), st')
    /\ select_first Customer.with_id
         (CustomerService.has_email (PayPalPaymentRequest.customer_email request))
         (customers st') = Some customer
    /\ Customer.id customer = Some (Order.customer_id order)
    /\ (forall stored,
          select_first Customer.with_id
            (CustomerService.has_email (PayPalPaymentRequest.customer_email request))
            (customers st) = Some stored ->
          customers st' = customers st /\ customer = stored)
    /\ Order.shipping_first_name order = PayPalPaymentRequest.customer_first_name request
    /\ Order.shipping_last_name order = PayPalPaymentRequest.customer_last_name request
    /\ Order.shipping_address_line1 order
       = PayPalPaymentRequest.shipping_address_line1 request
    /\ Order.shipping_address_line2 order
       = PayPalPaymentRequest.shipping_address_line2 request
    /\ Order.shipping_city order = PayPalPaymentRequest.shipping_city request
    /\ Order.shipping_state order = PayPalPaymentRequest.shipping_state request
    /\ Order.shipping_postal_code order = PayPalPaymentRequest.shipping_postal_code request
    /\ Order.shipping_country order = PayPalPaymentRequest.shipping_country request.
Proof.
  intros Hprod Hactive Hstock Hfree. apply get_product_by_id_run in Hprod.
  destruct (checkout_succeeds d request st product Hprod Hactive Hstock Hfree)
    as (customer & cid & st1 & Hcust & Hcid & Hsel & Hrun).
  eexists _, _,
    (Order.set_status OrderStatus.PAYMENT_PENDING (now_status d)
       (new_order (now_order d) (uuid_order d) cid product (shipping_data_of request)
          (next_key (orders st)))), customer.
  split; [exact Hrun|]. cbn [PayPalPaymentResponse.order_id]. split.
  { apply get_order_by_id_run. unfold store_after_checkout. cbn [orders].
    rewrite (session_get_appended Order.with_id). reflexivity. }
  split; [exact Hsel|]. split; [exact Hcid|]. split; [|repeat split].
  intros stored Hstored.
  pose proof (get_or_create_customer_cases (now_customer d)
                (PayPalPaymentRequest.customer_email request)
                (PayPalPaymentRequest.customer_first_name request)
                (PayPalPaymentRequest.customer_last_name request)
                (PayPalPaymentRequest.phone request) st) as Hcases.
  rewrite Hstored, Hcust in Hcases. injection Hcases as -> ->. now split.
Qed.

Lemma checkout_order_belongs_to_email_customer_sample :
  exists response st' order customer,
    PaymentService.create_paypal_payment second_draws (sample_request 1) purchased_store
      = (Ok (Some response), st')
    /\ OrderService.get_order_by_id (PayPalPaymentResponse.order_id response) st'
       = (Ok (Some order), st')
    /\ select_first Customer.with_id (CustomerService.has_email "test@example.com")
         (customers st') = Some customer
    /\ Customer.id customer = Some (Order.customer_id order)
    /\ (forall stored,
          select_first Customer.with_id (CustomerService.has_email "test@example.com")
            (customers purchased_store) = Some stored ->
          customers st' = customers purchased_store /\ customer = stored)
    /\ Order.shipping_first_name order = "John"%string
    /\ Order.shipping_last_name order = "Doe"%string
    /\ Order.shipping_address_line1 order = "1 Main Street"%string
    /\ Order.shipping_address_line2 order = None
    /\ Order.shipping_city order = "New York"%string
    /\ Order.shipping_state order = "NY"%string
    /\ Order.shipping_postal_code order = "10001"%string
    /\ Order.shipping_country order = "United States"%string.
Proof.
  apply (checkout_order_belongs_to_email_customer second_draws (sample_request 1)
           purchased_store (Product.with_id (Some 1) sample_product)).
  - reflexivity.
  - reflexivity.
  - cbn. lia.
  - vm_compute. reflexivity.
Defined.

(** X11.  A checkout that fails on a colliding order number is not undone:
    when the request's email was not stored before, the customer row
    created for it stays in the store although the call returns [None] and
    no order, item or payment has been written. *)
Theorem failed_checkout_keeps_new_customer d request st product :
  ProductService.get_product_by_id (PayPalPaymentRequest.product_id request) st
    = (Ok (Some product), st) ->
  Product.is_active product = true ->
  0 < Product.stock_quantity product ->
  order_number_taken (make_order_number (now_order d) (uuid_order d)) (orders st) = true ->
  select_first Customer.with_id
    (CustomerService.has_email (PayPalPaymentRequest.customer_email request))
    (customers st) = None ->
  exists st' customer key,
    PaymentService.create_paypal_payment d request st = (Ok None, st')
    /\ customers st' = customers st ++ [(key, customer)]
    /\ Customer.email customer = PayPalPaymentRequest.customer_email request
    /\ Customer.first_name customer = PayPalPaymentRequest.customer_first_name request
    /\ products st' = products st /\ orders st' = orders st
    /\ order_items st' = order_items st /\ payments st' = payments st.
Proof.
  intros Hprod Hactive Hstock Htaken Hnew. apply get_product_by_id_run in Hprod.
  pose proof (get_or_create_customer_cases (now_customer d)
                (PayPalPaymentRequest.customer_email request)
                (PayPalPaymentRequest.customer_first_name request)
                (PayPalPaymentRequest.customer_last_name request)
                (PayPalPaymentRequest.phone request) st) as Hcust.
  rewrite Hnew in Hcust.
  eexists _, _, (next_key (customers st)). split.
  - unfold PaymentService.create_paypal_payment, try_except.
    rewrite (bind_ok _ _ _ (proj2 (get_product_by_id_run _ _ _) Hprod)).
    rewrite Hactive. cbn [negb].
    replace (Z.leb (Product.stock_quantity product) 0) with false
      by (symmetry; apply Z.leb_gt; lia).
    rewrite (bind_ok _ _ _ Hcust).
    erewrite bind_raise; [reflexivity|].
    now apply create_order_number_taken with (cid := next_key (customers st)).
  - cbn. repeat split.
Qed.

Lemma failed_checkout_keeps_new_customer_sample :
  exists st' customer key,
    PaymentService.create_paypal_payment colliding_draws (other_request 1) purchased_store
      = (Ok None, st')
    /\ customers st' = customers purchased_store ++ [(key, customer)]
    /\ Customer.email customer = "existing@example.com"%string
    /\ Customer.first_name customer = "Jane"%string
    /\ products st' = products purchased_store /\ orders st' = orders purchased_store
    /\ order_items st' = order_items purchased_store
    /\ payments st' = payments purchased_store.
Proof.
  apply (failed_checkout_keeps_new_customer colliding_draws (other_request 1)
           purchased_store (Product.with_id (Some 1) sample_product)).
  - reflexivity.
  - reflexivity.
  - cbn. lia.
  - vm_compute. reflexivity.
  - vm_compute. reflexivity.
Defined.

(** ** Seeding *)

Lemma set_products_same st : set_products (products st) st = st.
Proof. now destruct st. Qed.

Lemma set_products_twice t1 t2 st : set_products t2 (set_products t1 st) = set_products t2 st.
Proof. reflexivity. Qed.

Lemma create_each_step now_at i product_data rest created_count st :
  DataSeederService.create_each now_at i (product_data :: rest) created_count st
  = if sku_free product_data st
    then DataSeederService.create_each now_at (S i) rest (created_count + 1)
           (set_products
              (products st ++
               [(next_key (products st),
                 Product.with_id (Some (next_key (products st)))
                   (product_of (now_at i) product_data))]) st)
    else DataSeederService.create_each now_at (S i) rest created_count st.
Proof.
  cbn [DataSeederService.create_each]. unfold bind at 1. unfold try_except, bind at 1.
  rewrite create_product_run. destruct (sku_free product_data st); reflexivity.
Qed.

(** A run of the loop never raises; it appends rows to the products table
    and changes nothing else; the appended products are as active as their
    inputs; and a run that appended nothing would append nothing at any
    other time either. *)
Lemma create_each_appends now_at product_datas :
  forall i created_count st,
  exists n rows,
    DataSeederService.create_each now_at i product_datas created_count st
    = (Ok n, set_products (products st ++ rows) st)
    /\ Forall (fun row => exists product_data,
                 In product_data product_datas
                 /\ Product.is_active (snd row) = ProductCreate.is_active product_data)
         rows
    /\ (rows = [] ->
        forall now_at' i' created_count',
        exists n',
          DataSeederService.create_each now_at' i' product_datas created_count' st
          = (Ok n', st)).
Proof.
  induction product_datas as [|product_data rest IH]; intros i created_count st.
  - exists created_count, []. repeat split.
    + cbn. unfold ret. now rewrite app_nil_r, set_products_same.
    + constructor.
    + intros _ now_at' i' created_count'. now exists created_count'.
  - rewrite create_each_step. destruct (sku_free product_data st) eqn:Hfree.
    + destruct (IH (S i) (created_count + 1)
                  (set_products
                     (products st ++
                      [(next_key (products st),
                        Product.with_id (Some (next_key (products st)))
                          (product_of (now_at i) product_data))]) st))
        as (n & rows & Hrun & Hrows & _).
      exists n. eexists (_ :: rows). split; [|split].
      * rewrite Hrun. cbn [products set_products]. rewrite set_products_twice.
        now rewrite <- app_assoc.
      * constructor.
        -- exists product_data. split; [now left|reflexivity].
        -- eapply Forall_impl; [|exact Hrows].
           intros row (pd & Hin & Hact). exists pd. split; [now right|exact Hact].
      * discriminate.
    + destruct (IH (S i) created_count st) as (n & rows & Hrun & Hrows & Hnone).
      exists n, rows. split; [exact Hrun|]. split.
      * eapply Forall_impl; [|exact Hrows].
        intros row (pd & Hin & Hact). exists pd. split; [now right|exact Hact].
      * intros Hnil now_at' i' created_count'. rewrite create_each_step, Hfree.
        now apply Hnone.
Qed.

Lemma seed_sample_products_run now_at st :
  DataSeederService.seed_sample_products now_at st
  = if Nat.ltb 0 (List.length (select_all Product.with_id Product.is_active (products st)))
    then (Ok tt, st)
    else (Ok tt, snd (DataSeederService.create_each now_at 0
                        DataSeederService.sample_products 0 st)).
Proof.
  unfold DataSeederService.seed_sample_products, bind at 1.
  unfold ProductService.get_all_active_products, gets.
  destruct (Nat.ltb 0 _); [reflexivity|].
  destruct (create_each_appends now_at DataSeederService.sample_products 0 0 st)
    as (n & rows & Hrun & _).
  unfold bind. now rewrite Hrun.
Qed.

(** X12.  Seeding skips a catalog that already lists an active product:
    the call returns and the store is unchanged. *)
Theorem seeding_skips_when_an_active_product_exists now_at st listed :
  ProductService.get_all_active_products st = (Ok listed, st) ->
  listed <> [] ->
  DataSeederService.seed_sample_products now_at st = (Ok tt, st).
Proof.
  intros Hrun Hne. unfold ProductService.get_all_active_products, gets in Hrun.
  injection Hrun as <-. rewrite seed_sample_products_run.
  destruct (select_all Product.with_id Product.is_active (products st)); [contradiction|].
  reflexivity.
Qed.

Lemma seeding_skips_when_an_active_product_exists_sample :
  DataSeederService.seed_sample_products (fun _ => sample_time) sample_store
  = (Ok tt, sample_store).
Proof.
  apply (seeding_skips_when_an_active_product_exists (fun _ => sample_time) sample_store
           [Product.with_id (Some 1) sample_product;
            Product.with_id (Some 2) sold_out_product]).
  - reflexivity.
  - discriminate.
Defined.

(** X13.  Seeding never raises and only ever appends products: the rows
    stored before stay in place at the front of the products table, every
    appended product is active, and customers, orders, order items and
    payments are untouched. *)
Theorem seeding_only_appends_active_products now_at st :
  exists st' appended,
    DataSeederService.seed_sample_products now_at st = (Ok tt, st')
    /\ products st' = products st ++ appended
    /\ Forall (fun row => Product.is_active (snd row) = true) appended
    /\ customers st' = customers st /\ orders st' = orders st
    /\ order_items st' = order_items st /\ payments st' = payments st.
Proof.
  rewrite seed_sample_products_run. destruct (Nat.ltb 0 _).
  - exists st, []. rewrite app_nil_r. repeat split. constructor.
  - destruct (create_each_appends now_at DataSeederService.sample_products 0 0 st)
      as (n & rows & Hrun & Hrows & _).
    rewrite Hrun. eexists _, rows. split; [reflexivity|]. cbn. repeat split.
    eapply Forall_impl; [|exact Hrows].
    intros row (pd & Hin & Hact). rewrite Hact.
    cbn in Hin. repeat (destruct Hin as [<-|Hin]; [reflexivity|]). contradiction.
Qed.

(** X14.  Seeding is idempotent on every store: a second run, at whatever
    time, leaves the store exactly as the first run left it. *)
Theorem seeding_twice_is_seeding_once now_at now_at' st :
  snd (DataSeederService.seed_sample_products now_at'
         (snd (DataSeederService.seed_sample_products now_at st)))
  = snd (DataSeederService.seed_sample_products now_at st).
Proof.
  rewrite (seed_sample_products_run now_at st).
  destruct (Nat.ltb 0 (List.length (select_all Product.with_id Product.is_active
                                      (products st)))) eqn:Hlisted.
  - cbn [snd]. rewrite seed_sample_products_run, Hlisted. reflexivity.
  - cbn [snd].
    destruct (create_each_appends now_at DataSeederService.sample_products 0 0 st)
      as (n & rows & Hrun & Hrows & Hnone).
    rewrite Hrun. cbn [snd]. rewrite seed_sample_products_run. cbn [products set_products].
    destruct rows as [|row rows].
    + rewrite app_nil_r, set_products_same, Hlisted.
      destruct (Hnone eq_refl now_at' 0%nat 0) as (n' & Hrun'). now rewrite Hrun'.
    + rewrite select_all_app.
      assert (Hactive : Product.is_active (snd row) = true).
      { inversion Hrows as [|? ? (pd & Hin & Hact) _]; subst. rewrite Hact.
        cbn in Hin. repeat (destruct Hin as [<-|Hin]; [reflexivity|]). contradiction. }
      unfold select_all at 2. cbn [map filter]. unfold load at 1. cbn [snd fst].
      replace (Product.is_active (Product.with_id (Some (fst row)) (snd row))) with true
        by (symmetry; exact Hactive).
      rewrite length_app. cbn [List.length].
      replace (Nat.ltb 0 _) with true; [reflexivity|].
      symmetry. apply Nat.ltb_lt. lia.
Qed.

Lemma next_key_appended {R} (tbl : list (Z * R)) r :
  next_key (tbl ++ [(next_key tbl, r)]) = next_key tbl + 1.
Proof.
  unfold next_key. f_equal.
  assert (Hcons : forall row (t : list (Z * R)),
             max_key (row :: t) = Z.max (fst row) (max_key t)) by reflexivity.
  assert (Hnonneg : forall t : list (Z * R), 0 <= max_key t).
  { induction t as [|row t IH]; [cbn; lia|]. rewrite Hcons. lia. }
  assert (Happ : forall (t : list (Z * R)) k, max_key t < k -> max_key (t ++ [(k, r)]) = k).
  { induction t as [|row t IH]; intros k Hk.
    - cbn in *. lia.
    - rewrite Hcons in Hk. cbn [app]. rewrite Hcons.
      specialize (Hnonneg t). rewrite IH by lia. lia. }
  apply Happ. lia.
Qed.

Lemma sku_taken_appended s tbl key product :
  sku_taken s (tbl ++ [(key, product)])
  = sku_taken s tbl || opt_string_eqb (Product.sku product) (Some s).
Proof. unfold sku_taken. rewrite existsb_app. cbn. now rewrite orb_false_r. Qed.

(** With pairwise different SKUs, none of them stored, every creation of
    the loop succeeds. *)
Lemma create_each_all_created now_at product_datas :
  forall i created_count st,
    NoDup (flat_map (fun pd => match ProductCreate.sku pd with
                               | Some s => [s]
                               | None => []
                               end) product_datas) ->
    Forall (fun pd => sku_free pd st = true) product_datas ->
    DataSeederService.create_each now_at i product_datas created_count st
    = (Ok (created_count + Z.of_nat (List.length product_datas)),
       set_products
         (products st ++ seeded_rows now_at (next_key (products st)) i product_datas) st).
Proof.
  induction product_datas as [|pd rest IH]; intros i created_count st Hnd Hfree.
  - cbn. unfold ret. rewrite app_nil_r, set_products_same. f_equal. f_equal. lia.
  - rewrite create_each_step.
    inversion Hfree as [|? ? Hpd Hrest]; subst. rewrite Hpd.
    rewrite IH.
    + cbn [products set_products seeded_rows]. rewrite set_products_twice.
      rewrite next_key_appended, <- app_assoc. cbn [app List.length].
      f_equal. f_equal. lia.
    + cbn [flat_map] in Hnd. apply NoDup_app_remove_l in Hnd. exact Hnd.
    + apply Forall_forall. intros pd' Hin.
      rewrite Forall_forall in Hrest. specialize (Hrest pd' Hin).
      unfold sku_free in *. cbn [products set_products].
      destruct (ProductCreate.sku pd') as [s'|] eqn:Hsku'; [|reflexivity].
      rewrite sku_taken_appended. apply negb_true_iff in Hrest. rewrite Hrest.
      cbn [orb Product.sku Product.with_id product_of].
      destruct (ProductCreate.sku pd) as [s|] eqn:Hsku; [|reflexivity].
      cbn. apply negb_true_iff. apply String.eqb_neq. intros ->.
      cbn [flat_map] in Hnd. rewrite Hsku in Hnd. cbn in Hnd.
      inversion Hnd as [|? ? Hnot _]; subst. apply Hnot.
      apply in_flat_map. exists pd'. split; [exact Hin|]. rewrite Hsku'. now left.
Qed.

Lemma seeded_rows_listing now_at product_datas :
  forall key i,
    Forall (fun pd => ProductCreate.is_active pd = true) product_datas ->
    select_all Product.with_id Product.is_active (seeded_rows now_at key i product_datas)
    = map snd (seeded_rows now_at key i product_datas)
    /\ map (fun row => Product.name (snd row)) (seeded_rows now_at key i product_datas)
       = map ProductCreate.name product_datas.
Proof.
  induction product_datas as [|pd rest IH]; intros key i Hactive; [now split|].
  inversion Hactive as [|? ? Hpd Hrest]; subst.
  destruct (IH (key + 1) (S i) Hrest) as [Hlist Hnames].
  cbn [seeded_rows map]. split; [|now rewrite Hnames].
  unfold select_all in *. cbn [map filter]. unfold load at 1. cbn. rewrite Hpd.
  now rewrite Hlist.
Qed.

(** X15.  Seeding a catalog that lists no active product and holds none of
    the sample SKUs creates all eight sample products, in the order of the
    sample list, under consecutive new keys; the active listing afterwards
    is exactly these eight, with the sample names. *)
Theorem seeding_an_unseeded_catalog_creates_all_samples now_at st :
  ProductService.get_all_active_products st = (Ok [], st) ->
  forallb (fun pd => sku_free pd st) DataSeederService.sample_products = true ->
  exists st' listed,
    DataSeederService.seed_sample_products now_at st = (Ok tt, st')
    /\ products st'
       = products st
         ++ seeded_rows now_at (next_key (products st)) 0 DataSeederService.sample_products
    /\ ProductService.get_all_active_products st' = (Ok listed, st')
    /\ listed = map snd (seeded_rows now_at (next_key (products st)) 0
                           DataSeederService.sample_products)
    /\ List.length listed = 8%nat
    /\ map Product.name listed
       = map ProductCreate.name DataSeederService.sample_products.
Proof.
  intros Hnone Hfree.
  unfold ProductService.get_all_active_products, gets in Hnone.
  assert (Hlisted : select_all Product.with_id Product.is_active (products st) = [])
    by congruence.
  rewrite seed_sample_products_run, Hlisted. cbn [List.length Nat.ltb Nat.leb].
  rewrite create_each_all_created.
  - assert (Hactive : Forall (fun pd => ProductCreate.is_active pd = true)
                        DataSeederService.sample_products)
      by (repeat constructor).
    destruct (seeded_rows_listing now_at DataSeederService.sample_products
                (next_key (products st)) 0 Hactive) as [Hlist Hnames].
    eexists _, _. split; [reflexivity|]. cbn [snd products set_products].
    split; [reflexivity|].
    unfold ProductService.get_all_active_products, gets. cbn [products set_products].
    rewrite select_all_app, Hlisted, Hlist. cbn [app].
    split; [reflexivity|]. split; [reflexivity|]. split.
    + now rewrite length_map.
    + rewrite map_map. exact Hnames.
  - cbn. repeat constructor; cbn; intuition discriminate.
  - apply Forall_forall. intros pd Hin.
    rewrite forallb_forall in Hfree. now apply Hfree.
Qed.

Lemma seeding_an_unseeded_catalog_creates_all_samples_sample :
  exists st' listed,
    DataSeederService.seed_sample_products (fun _ => sample_time) empty_store = (Ok tt, st')
    /\ products st'
       = products empty_store
         ++ seeded_rows (fun _ => sample_time) (next_key (products empty_store)) 0
              DataSeederService.sample_products
    /\ ProductService.get_all_active_products st' = (Ok listed, st')
    /\ listed = map snd (seeded_rows (fun _ => sample_time)
                           (next_key (products empty_store)) 0
                           DataSeederService.sample_products)
    /\ List.length listed = 8%nat
    /\ map Product.name listed
       = map ProductCreate.name DataSeederService.sample_products.
Proof.
  apply (seeding_an_unseeded_catalog_creates_all_samples (fun _ => sample_time) empty_store).
  - reflexivity.
  - reflexivity.
Defined.

(** ** Well-formed stores stay well-formed *)

Section RowFacts.
Variable R : Type.
Variable with_id : option Z -> R -> R.

Implicit Types (tbl : list (Z * R)) (row : Z * R) (k : Z).

(** With distinct keys, every row stored under [k] is the row [get] finds. *)
Lemma row_of_key tbl k row0 row :
  NoDup (keys tbl) ->
  find (fun row => Z.eqb (fst row) k) tbl = Some row0 ->
  In row tbl -> fst row = k -> row = row0.
Proof.
  intros Hnd Hfind Hin Hk.
  pose proof (find_stored_row R tbl row Hnd Hin) as Hrow.
  rewrite Hk in Hrow. congruence.
Qed.

Lemma update_row_in tbl k r row :
  In row (update_row with_id k r tbl) ->
  In row tbl \/ (row = (k, with_id (Some k) r) /\ In k (keys tbl)).
Proof.
  unfold update_row. rewrite in_map_iff. intros (row' & Heq & Hin).
  destruct (Z.eqb (fst row') k) eqn:Hk.
  - right. split; [now symmetry|]. apply Z.eqb_eq in Hk. rewrite <- Hk. now apply in_map.
  - left. now subst.
Qed.

Lemma Forall_update_row (P : Z * R -> Prop) tbl k r :
  Forall P tbl -> (In k (keys tbl) -> P (k, with_id (Some k) r)) ->
  Forall P (update_row with_id k r tbl).
Proof.
  intros Hall Hnew. apply Forall_forall. intros row Hin.
  apply update_row_in in Hin as [Hin|[-> Hk]].
  - rewrite Forall_forall in Hall. now apply Hall.
  - now apply Hnew.
Qed.

(** A column the rewrite does not change keeps its list of values. *)
Lemma column_after_update_row {B} (column : Z * R -> B) tbl k r row0 :
  NoDup (keys tbl) ->
  find (fun row => Z.eqb (fst row) k) tbl = Some row0 ->
  column (k, with_id (Some k) r) = column row0 ->
  map column (update_row with_id k r tbl) = map column tbl.
Proof.
  intros Hnd Hfind Hsame. unfold update_row. rewrite map_map. apply map_ext_in.
  intros row Hin. destruct (Z.eqb (fst row) k) eqn:Hk; [|reflexivity].
  apply Z.eqb_eq in Hk. rewrite Hsame. f_equal. symmetry.
  now apply (row_of_key tbl k).
Qed.

Lemma flat_column_after_update_row {B} (column : Z * R -> list B) tbl k r row0 :
  NoDup (keys tbl) ->
  find (fun row => Z.eqb (fst row) k) tbl = Some row0 ->
  column (k, with_id (Some k) r) = column row0 ->
  flat_map column (update_row with_id k r tbl) = flat_map column tbl.
Proof.
  intros Hnd Hfind Hsame. rewrite !flat_map_concat_map. f_equal.
  now apply column_after_update_row with (row0 := row0).
Qed.

(** With distinct keys, the table splits around the row stored under [k],
    and the rewrite replaces just that row. *)
Lemma update_row_split tbl k r row0 :
  NoDup (keys tbl) ->
  find (fun row => Z.eqb (fst row) k) tbl = Some row0 ->
  exists before after,
    tbl = before ++ row0 :: after
    /\ update_row with_id k r tbl = before ++ (k, with_id (Some k) r) :: after
    /\ (forall row, In row (before ++ after) -> fst row <> k).
Proof.
  intros Hnd Hfind.
  destruct (find_key_in R tbl k row0 Hfind) as [Hin Hk0].
  apply in_split in Hin as (before & after & ->).
  exists before, after. split; [reflexivity|].
  assert (Hother : forall row, In row (before ++ after) -> fst row <> k).
  { intros row Hin Hk.
    assert (Hin' : In row (before ++ row0 :: after)).
    { apply in_app_iff in Hin as [H|H]; apply in_app_iff; [now left|right; now right]. }
    pose proof (row_of_key _ k row0 row Hnd Hfind Hin' Hk) as ->.
    unfold keys in Hnd. rewrite map_app in Hnd. cbn in Hnd.
    apply NoDup_remove_2 in Hnd. apply Hnd. rewrite <- map_app. now apply in_map. }
  split; [|exact Hother].
  unfold update_row. rewrite map_app. cbn [map]. rewrite Hk0, Z.eqb_refl.
  f_equal; [|f_equal]; rewrite <- (map_id before) at 2 || rewrite <- (map_id after) at 2;
    apply map_ext_in; intros row Hin;
    (destruct (Z.eqb (fst row) k) eqn:Hk; [|reflexivity]);
    apply Z.eqb_eq in Hk; exfalso; apply (Hother row); try exact Hk;
    apply in_app_iff; [now left|now right].
Qed.
End RowFacts.

Lemma NoDup_snoc {A} (l : list A) x : NoDup l -> ~ In x l -> NoDup (l ++ [x]).
Proof.
  intros Hnd Hnot. apply NoDup_app; [exact Hnd|repeat constructor; intros []|].
  intros a Hin [<-|[]]. now apply Hnot.
Qed.

Lemma set_values_app {R} (column : R -> option string) (tbl1 tbl2 : list (Z * R)) :
  set_values column (tbl1 ++ tbl2) = set_values column tbl1 ++ set_values column tbl2.
Proof. apply flat_map_app. Qed.

Lemma order_number_free n tbl :
  order_number_taken n tbl = false ->
  ~ In n (map (fun row => Order.order_number (snd row)) tbl).
Proof.
  unfold order_number_taken. intros Hfree Hin.
  apply in_map_iff in Hin as (row & <- & Hin).
  assert (Htaken : existsb (fun row' => String.eqb (Order.order_number (snd row'))
                                          (Order.order_number (snd row))) tbl = true).
  { apply existsb_exists. exists row. split; [exact Hin|apply String.eqb_refl]. }
  congruence.
Qed.

Lemma email_not_stored e tbl :
  select_first Customer.with_id (CustomerService.has_email e) tbl = None ->
  ~ In e (map (fun row => Customer.email (snd row)) tbl).
Proof.
  intros Hnone Hin. apply email_free in Hnone. unfold email_taken in Hnone.
  apply in_map_iff in Hin as (row & <- & Hin).
  assert (Htaken : existsb (fun row' => String.eqb (Customer.email (snd row'))
                                          (Customer.email (snd row))) tbl = true).
  { apply existsb_exists. exists row. split; [exact Hin|apply String.eqb_refl]. }
  congruence.
Qed.

Lemma sku_not_stored s tbl :
  sku_taken s tbl = false -> ~ In s (set_values Product.sku tbl).
Proof.
  unfold sku_taken, set_values. intros Hfree Hin.
  apply in_flat_map in Hin as (row & Hin & Hs).
  destruct (Product.sku (snd row)) as [s'|] eqn:Hsku; [|contradiction].
  destruct Hs as [->|[]].
  assert (Htaken : existsb (fun row' => opt_string_eqb (Product.sku (snd row')) (Some s))
                     tbl = true).
  { apply existsb_exists. exists row. split; [exact Hin|]. rewrite Hsku.
    now apply opt_string_eqb_some. }
  congruence.
Qed.

Lemma keys_grow {R} (tbl : list (Z * R)) row k : In k (keys tbl) -> In k (keys (tbl ++ [row])).
Proof. intros Hin. rewrite keys_app. apply in_or_app. now left. Qed.

Lemma key_of_appended {R} (tbl : list (Z * R)) k r : In k (keys (tbl ++ [(k, r)])).
Proof. rewrite keys_app. apply in_or_app. right. now left. Qed.

(** The customer step keeps the store well-formed, keeps every customer
    key, and returns a stored customer. *)
Lemma customer_step_keeps_store_ok now email first_name last_name phone st customer st1 :
  store_ok st ->
  CustomerService.get_or_create_customer now email first_name last_name phone st
    = (Ok customer, st1) ->
  store_ok st1
  /\ (forall k, In k (keys (customers st)) -> In k (keys (customers st1)))
  /\ (exists cid, Customer.id customer = Some cid /\ In cid (keys (customers st1)))
  /\ products st1 = products st /\ orders st1 = orders st
  /\ order_items st1 = order_items st /\ payments st1 = payments st.
Proof.
  intros ((Kp & Kc & Ko & Ki & Kpay) & (Us & Ue & Un & Ut) & (Ro & Ri & Rp)) Hrun.
  pose proof (get_or_create_customer_cases now email first_name last_name phone st) as Hcases.
  destruct (select_first Customer.with_id (CustomerService.has_email email) (customers st))
    as [stored|] eqn:Hsel.
  - rewrite Hrun in Hcases. injection Hcases as -> ->.
    split; [repeat split; assumption|]. split; [auto|]. split; [|repeat split].
    destruct (select_first_key _ _ _ Hsel) as (k & r0 & -> & Hin & _).
    exists k. split; [reflexivity|]. apply in_map_iff. now exists (k, r0).
  - rewrite Hrun in Hcases. injection Hcases as -> ->.
    unfold store_ok, keys_distinct, unique_columns_hold, references_resolve.
    cbn [customers products orders order_items payments set_customers].
    split; [|split; [|split; [|repeat split]]].
    + split; [|split].
      * repeat split; try assumption.
        now apply (keys_distinct_after_insert Customer.t).
      * repeat split; try assumption.
        rewrite map_app. cbn. apply NoDup_snoc; [exact Ue|].
        now apply email_not_stored.
      * repeat split; try assumption.
        eapply Forall_impl; [|exact Ro]. intros row Hin. now apply keys_grow.
    + intros k Hin. now apply keys_grow.
    + eexists. split; [reflexivity|]. apply key_of_appended.
Qed.

Lemma checkout_collision_store d request st product :
  session_get Product.with_id (PayPalPaymentRequest.product_id request) (products st)
    = Some product ->
  Product.is_active product = true ->
  0 < Product.stock_quantity product ->
  order_number_taken (make_order_number (now_order d) (uuid_order d)) (orders st) = true ->
  PaymentService.create_paypal_payment d request st
  = (Ok None,
     snd (CustomerService.get_or_create_customer (now_customer d)
            (PayPalPaymentRequest.customer_email request)
            (PayPalPaymentRequest.customer_first_name request)
            (PayPalPaymentRequest.customer_last_name request)
            (PayPalPaymentRequest.phone request) st)).
Proof.
  intros Hprod Hactive Hstock Htaken.
  destruct (get_or_create_customer_run (now_customer d)
              (PayPalPaymentRequest.customer_email request)
              (PayPalPaymentRequest.customer_first_name request)
              (PayPalPaymentRequest.customer_last_name request)
              (PayPalPaymentRequest.phone request) st)
    as (customer & cid & st1 & Hcust & Hcid & _).
  pose proof (get_or_create_customer_orders (now_customer d)
                (PayPalPaymentRequest.customer_email request)
                (PayPalPaymentRequest.customer_first_name request)
                (PayPalPaymentRequest.customer_last_name request)
                (PayPalPaymentRequest.phone request) st) as Ho1.
  rewrite Hcust in Ho1 |- *. cbn [snd] in Ho1 |- *.
  rewrite <- Ho1 in Htaken.
  unfold PaymentService.create_paypal_payment, try_except.
  rewrite (bind_ok _ _ _ (proj2 (get_product_by_id_run _ _ _) Hprod)).
  rewrite Hactive. cbn [negb].
  replace (Z.leb (Product.stock_quantity product) 0) with false
    by (symmetry; apply Z.leb_gt; lia).
  rewrite (bind_ok _ _ _ Hcust).
  erewrite bind_raise; [reflexivity|].
  now apply create_order_number_taken with (cid := cid).
Qed.

Lemma store_ok_after_checkout d request product cid st st1 :
  store_ok st1 ->
  products st1 = products st -> orders st1 = orders st ->
  order_items st1 = order_items st -> payments st1 = payments st ->
  In cid (keys (customers st1)) ->
  In (PayPalPaymentRequest.product_id request) (keys (products st)) ->
  order_number_taken (make_order_number (now_order d) (uuid_order d)) (orders st) = false ->
  store_ok (store_after_checkout d request product cid st st1).
Proof.
  intros ((Kp & Kc & Ko & Ki & Kpay) & (Us & Ue & Un & Ut) & (Ro & Ri & Rp))
    Hp Ho Hi Hpay Hcid Hpid Hfree.
  rewrite Hp, Ho, Hi, Hpay in *.
  unfold store_after_checkout, store_ok, keys_distinct, unique_columns_hold,
    references_resolve.
  cbn [products customers orders order_items payments].
  split; [|split].
  - repeat split; try assumption.
    + now apply (keys_distinct_after_insert Order.t).
    + now apply (keys_distinct_after_insert OrderItem.t).
    + now apply (keys_distinct_after_insert Payment.t).
  - repeat split; try assumption.
    + rewrite map_app. cbn. apply NoDup_snoc; [exact Un|].
      now apply order_number_free.
    + rewrite set_values_app. cbn. now rewrite app_nil_r.
  - split; [|split].
    + apply Forall_app. split; [exact Ro|]. constructor; [exact Hcid|constructor].
    + apply Forall_app. split.
      * eapply Forall_impl; [|exact Ri]. intros row [Hord Hprod].
        split; [now apply keys_grow|exact Hprod].
      * constructor; [|constructor]. cbn. split; [apply key_of_appended|exact Hpid].
    + apply Forall_app. split.
      * eapply Forall_impl; [|exact Rp]. intros row Hord. now apply keys_grow.
      * constructor; [|constructor]. cbn. apply key_of_appended.
Qed.

(** X16.  The checkout keeps a well-formed store well-formed, whatever its
    outcome: distinct primary keys, unique emails, order numbers,
    transaction ids and SKUs, and every order, order item and payment
    referring to stored rows, all hold again after the call, be it
    refused, failed on a colliding order number, or successful. *)
Theorem checkout_keeps_store_well_formed d request st :
  store_ok st -> store_ok (snd (PaymentService.create_paypal_payment d request st)).
Proof.
  intros Hok.
  destruct (session_get Product.with_id (PayPalPaymentRequest.product_id request)
              (products st)) as [product|] eqn:Hprod.
  2:{ rewrite checkout_rejected; [exact Hok|now rewrite Hprod]. }
  destruct (Product.is_active product) eqn:Hactive.
  2:{ rewrite checkout_rejected; [exact Hok|rewrite Hprod; now left]. }
  destruct (Z.leb (Product.stock_quantity product) 0) eqn:Hstock.
  { apply Z.leb_le in Hstock.
    rewrite checkout_rejected; [exact Hok|rewrite Hprod; now right]. }
  apply Z.leb_gt in Hstock.
  destruct (get_or_create_customer_run (now_customer d)
              (PayPalPaymentRequest.customer_email request)
              (PayPalPaymentRequest.customer_first_name request)
              (PayPalPaymentRequest.customer_last_name request)
              (PayPalPaymentRequest.phone request) st)
    as (customer & cid & st1 & Hcust & Hcid & _).
  destruct (customer_step_keeps_store_ok _ _ _ _ _ st customer st1 Hok Hcust)
    as (Hok1 & _ & (cid' & Hcid' & Hstored) & Hp & Ho & Hi & Hpay).
  assert (cid' = cid) as -> by congruence.
  destruct (order_number_taken (make_order_number (now_order d) (uuid_order d)) (orders st))
    eqn:Htaken.
  - rewrite (checkout_collision_store d request st product Hprod Hactive Hstock Htaken).
    now rewrite Hcust.
  - rewrite (checkout_store d request st product customer cid st1
               Hprod Hactive Hstock Hcust Hcid Htaken).
    cbn [snd]. apply store_ok_after_checkout; try assumption.
    now apply (session_get_stored _ Product.with_id _ _ product).
Qed.

Lemma NoDup_insert {A} (l1 l2 : list A) x :
  NoDup (l1 ++ l2) -> ~ In x (l1 ++ l2) -> NoDup (l1 ++ x :: l2).
Proof.
  induction l1 as [|a l1 IH]; cbn; intros Hnd Hnot; [now constructor|].
  inversion Hnd as [|? ? Ha Hnd']; subst. constructor.
  - intros Hin. apply in_app_or in Hin as [Hin|[->|Hin]].
    + apply Ha. apply in_or_app. now left.
    + apply Hnot. now left.
    + apply Ha. apply in_or_app. now right.
  - apply IH; [exact Hnd'|]. intros Hin. apply Hnot. now right.
Qed.

Lemma NoDup_drop_middle {A} (l1 l2 l3 : list A) :
  NoDup (l1 ++ l2 ++ l3) -> NoDup (l1 ++ l3).
Proof.
  induction l2 as [|a l2 IH]; cbn; intros Hnd; [exact Hnd|].
  apply IH. now apply NoDup_remove_1 in Hnd.
Qed.

(** A transaction id no other row holds may be written under [k]. *)
Lemma transaction_ids_after_complete tbl k row0 payment' txn :
  NoDup (keys tbl) ->
  find (fun row => Z.eqb (fst row) k) tbl = Some row0 ->
  Payment.transaction_id payment' = Some txn ->
  transaction_id_taken (Some k) txn tbl = false ->
  NoDup (set_values Payment.transaction_id tbl) ->
  NoDup (set_values Payment.transaction_id (update_row Payment.with_id k payment' tbl)).
Proof.
  intros Hkeys Hfind Htxn Hfree Hnd.
  destruct (update_row_split Payment.t Payment.with_id tbl k payment' row0 Hkeys Hfind)
    as (before & after & Htbl & -> & Hother).
  rewrite Htbl in Hnd, Hfree. rewrite set_values_app in Hnd |- *.
  change (row0 :: after) with ([row0] ++ after) in Hnd.
  rewrite set_values_app in Hnd. apply NoDup_drop_middle in Hnd.
  change ((k, Payment.with_id (Some k) payment') :: after)
    with ([(k, Payment.with_id (Some k) payment')] ++ after).
  rewrite set_values_app. unfold set_values at 2. cbn [flat_map snd Payment.with_id
    Payment.transaction_id]. rewrite Htxn. cbn [app].
  apply NoDup_insert; [exact Hnd|].
  rewrite <- set_values_app. unfold set_values. intros Hin.
  apply in_flat_map in Hin as (row & Hin & Hs).
  destruct (Payment.transaction_id (snd row)) as [t|] eqn:Hrow; [|contradiction].
  destruct Hs as [->|[]].
  unfold transaction_id_taken in Hfree.
  assert (Htaken : existsb
            (fun row' => negb (Z.eqb (fst row') k)
                         && opt_string_eqb (Payment.transaction_id (snd row')) (Some txn))
            (before ++ row0 :: after) = true).
  { apply existsb_exists. exists row. split.
    - apply in_app_or in Hin as [Hin|Hin]; apply in_or_app; [now left|right; now right].
    - rewrite Hrow. apply andb_true_iff. split; [|now apply opt_string_eqb_some].
      apply negb_true_iff. apply Z.eqb_neq. now apply Hother. }
  congruence.
Qed.

Lemma store_ok_after_payment_write payment' key status now_status st row0 :
  store_ok st ->
  find (fun row => Z.eqb (fst row) key) (payments st) = Some row0 ->
  Payment.order_id payment' = Payment.order_id (snd row0) ->
  NoDup (set_values Payment.transaction_id
           (update_row Payment.with_id key payment' (payments st))) ->
  store_ok (store_after_payment_write payment' key status now_status st).
Proof.
  intros ((Kp & Kc & Ko & Ki & Kpay) & (Us & Ue & Un & Ut) & (Ro & Ri & Rp)) Hfind Hord Htxn.
  destruct (find_key_in Payment.t (payments st) key row0 Hfind) as [Hin0 Hk0].
  assert (Hkeys : keys (match session_get Order.with_id (Payment.order_id payment') (orders st)
                        with
                        | Some order =>
                            update_row Order.with_id (Payment.order_id payment')
                              (Order.set_status status now_status order) (orders st)
                        | None => orders st
                        end) = keys (orders st)).
  { destruct (session_get _ _ _); [apply keys_update_row|reflexivity]. }
  unfold store_after_payment_write, store_ok, keys_distinct, unique_columns_hold,
    references_resolve.
  cbn [products customers orders order_items payments].
  rewrite Hkeys, (keys_update_row Payment.t).
  split; [|split].
  - repeat split; assumption.
  - repeat split; try assumption.
    unfold session_get.
    destruct (find (fun row => Z.eqb (fst row) (Payment.order_id payment')) (orders st))
      as [orow|] eqn:Hofind; cbn [option_map]; [|exact Un].
    erewrite column_after_update_row; [exact Un|exact Ko|exact Hofind|reflexivity].
  - split; [|split].
    + unfold session_get.
      destruct (find (fun row => Z.eqb (fst row) (Payment.order_id payment')) (orders st))
        as [orow|] eqn:Hofind; cbn [option_map]; [|exact Ro].
      apply Forall_update_row; [exact Ro|]. intros _.
      destruct (find_key_in Order.t (orders st) _ orow Hofind) as [Hino _].
      rewrite Forall_forall in Ro. exact (Ro orow Hino).
    + exact Ri.
    + apply Forall_update_row; [exact Rp|]. intros _. cbn. rewrite Hord.
      rewrite Forall_forall in Rp. exact (Rp row0 Hin0).
Qed.

Lemma loaded_payment_row pid st payment :
  NoDup (keys (payments st)) ->
  select_first Payment.with_id (PaymentService.has_paypal_payment_id pid) (payments st)
    = Some payment ->
  exists key r0,
    payment = Payment.with_id (Some key) r0
    /\ find (fun row => Z.eqb (fst row) key) (payments st) = Some (key, r0).
Proof.
  intros Hnd Hsel. destruct (select_first_key _ _ _ Hsel) as (k & r0 & -> & Hin & _).
  exists k, r0. split; [reflexivity|].
  exact (find_stored_row Payment.t (payments st) (k, r0) Hnd Hin).
Qed.

(** X17.  Completing or cancelling a payment keeps a well-formed store
    well-formed, whatever the outcome: keys stay distinct, the unique
    columns (a completion's new transaction id included) stay unique, and
    every reference still names a stored row. *)
Theorem payment_updates_keep_store_well_formed now now' uuid payment_id payer_id st :
  store_ok st ->
  store_ok (snd (PaymentService.complete_paypal_payment now now' uuid payment_id payer_id st))
  /\ store_ok (snd (PaymentService.cancel_paypal_payment now now' payment_id st)).
Proof.
  intros Hok.
  pose proof Hok as ((Kp & Kc & Ko & Ki & Kpay) & (Us & Ue & Un & Ut) & (Ro & Ri & Rp)).
  destruct (select_first Payment.with_id (PaymentService.has_paypal_payment_id payment_id)
              (payments st)) as [payment|] eqn:Hsel.
  2:{ apply get_payment_by_id_run in Hsel. split.
      - unfold PaymentService.complete_paypal_payment, try_except.
        now rewrite (bind_ok _ _ _ Hsel).
      - unfold PaymentService.cancel_paypal_payment, try_except.
        now rewrite (bind_ok _ _ _ Hsel). }
  destruct (loaded_payment_row payment_id st payment Kpay Hsel) as (key & r0 & Hpay & Hfind).
  assert (Hid : Payment.id payment = Some key) by now rewrite Hpay.
  split.
  - destruct (transaction_id_taken (Some key) (make_transaction_id uuid) (payments st))
      eqn:Htaken.
    + rewrite (@complete_paypal_payment_clash now now' uuid payment_id payer_id st payment Hsel);
        [exact Hok|now rewrite Hid].
    + rewrite (complete_paypal_payment_store now now' uuid payment_id payer_id st payment key
                 Hsel Hid Htaken).
      cbn [snd]. apply store_ok_after_payment_write with (row0 := (key, r0)).
      * exact Hok.
      * exact Hfind.
      * now rewrite Hpay.
      * now apply transaction_ids_after_complete
          with (row0 := (key, r0)) (txn := make_transaction_id uuid).
  - rewrite (cancel_paypal_payment_store now now' payment_id st payment key Hsel Hid).
    cbn [snd]. apply store_ok_after_payment_write with (row0 := (key, r0)).
    + exact Hok.
    + exact Hfind.
    + now rewrite Hpay.
    + unfold set_values.
      erewrite flat_column_after_update_row; [exact Ut|exact Kpay|exact Hfind|].
      now rewrite Hpay.
Qed.

Lemma store_ok_after_create_product now product_data st :
  store_ok st -> store_ok (snd (ProductService.create_product now product_data st)).
Proof.
  intros Hok. rewrite create_product_run.
  destruct (sku_free product_data st) eqn:Hfree; [|exact Hok].
  destruct Hok as ((Kp & Kc & Ko & Ki & Kpay) & (Us & Ue & Un & Ut) & (Ro & Ri & Rp)).
  unfold store_ok, keys_distinct, unique_columns_hold, references_resolve.
  cbn [snd products customers orders order_items payments set_products].
  split; [|split].
  - repeat split; try assumption. now apply (keys_distinct_after_insert Product.t).
  - repeat split; try assumption.
    rewrite set_values_app. unfold set_values at 2.
    cbn [flat_map snd Product.with_id Product.sku product_of]. rewrite app_nil_r.
    unfold sku_free in Hfree.
    destruct (ProductCreate.sku product_data) as [s|]; [|now rewrite app_nil_r].
    apply NoDup_snoc; [exact Us|]. apply sku_not_stored.
    now apply negb_true_iff in Hfree.
  - repeat split; try assumption.
    eapply Forall_impl; [|exact Ri]. intros row [Hord Hprod].
    split; [exact Hord|now apply keys_grow].
Qed.

Lemma store_ok_after_create_each now_at product_datas :
  forall i created_count st,
    store_ok st ->
    store_ok (snd (DataSeederService.create_each now_at i product_datas created_count st)).
Proof.
  induction product_datas as [|product_data rest IH]; intros i created_count st Hok.
  - exact Hok.
  - rewrite create_each_step.
    pose proof (store_ok_after_create_product (now_at i) product_data st Hok) as Hok'.
    rewrite create_product_run in Hok'.
    destruct (sku_free product_data st); apply IH; [exact Hok'|exact Hok].
Qed.

(** X18.  Writing to the catalog keeps a well-formed store well-formed:
    after [create_product], accepted or refused on a taken SKU, and after
    [seed_sample_products], keys are distinct, SKUs, emails, order numbers
    and transaction ids are unique, and every reference names a stored
    row. *)
Theorem catalog_writes_keep_store_well_formed now now_at product_data st :
  store_ok st ->
  store_ok (snd (ProductService.create_product now product_data st))
  /\ store_ok (snd (DataSeederService.seed_sample_products now_at st)).
Proof.
  intros Hok. split; [now apply store_ok_after_create_product|].
  rewrite seed_sample_products_run. destruct (Nat.ltb 0 _); [exact Hok|].
  cbn [snd]. now apply store_ok_after_create_each.
Qed.



(** Well-formedness of a store written out in full, by evaluation. *)
Ltac concrete_store_ok :=
  vm_compute; repeat split;
  repeat (first [apply NoDup_nil | apply NoDup_cons | apply Forall_nil | apply Forall_cons
                | split]);
  cbn; intuition (try discriminate; auto).

Lemma checkout_keeps_store_well_formed_sample :
  store_ok sample_store
  /\ store_ok (snd (PaymentService.create_paypal_payment sample_draws (sample_request 1)
                      sample_store)).
Proof.
  assert (Hok : store_ok sample_store) by concrete_store_ok.
  split; [exact Hok|].
  exact (checkout_keeps_store_well_formed sample_draws (sample_request 1) sample_store Hok).
Defined.

Lemma payment_updates_keep_store_well_formed_sample :
  store_ok purchased_store
  /\ store_ok (snd (PaymentService.complete_paypal_payment sample_time sample_time
                      sample_txn_uuid sample_payment_id "PAYER5B099BC9" purchased_store))
  /\ store_ok (snd (PaymentService.cancel_paypal_payment sample_time sample_time
                      sample_payment_id purchased_store)).
Proof.
  assert (Hok : store_ok purchased_store) by concrete_store_ok.
  split; [exact Hok|].
  exact (payment_updates_keep_store_well_formed sample_time sample_time sample_txn_uuid
           sample_payment_id "PAYER5B099BC9"%string purchased_store Hok).
Defined.

Lemma catalog_writes_keep_store_well_formed_sample :
  store_ok sample_store
  /\ store_ok (snd (ProductService.create_product sample_time
                      {| ProductCreate.name := "Active Product";
                         ProductCreate.description := "This is active";
                         ProductCreate.price := 5000; ProductCreate.stock_quantity := 0;
                         ProductCreate.sku := Some "CORE-002"%string;
                         ProductCreate.category := None;
                         ProductCreate.image_url := None;
                         ProductCreate.is_active := true |}
                      sample_store))
  /\ store_ok (snd (DataSeederService.seed_sample_products (fun _ => sample_time)
                      sample_store)).
Proof.
  assert (Hok : store_ok sample_store) by concrete_store_ok.
  split; [exact Hok|].
  exact (catalog_writes_keep_store_well_formed sample_time (fun _ => sample_time) _
           sample_store Hok).
Defined.


(** * The store pages *)




(** X21.  For a payment id that no stored payment carries, the complete
    button closes the dialog and shows the failure notification, while the
    cancel button closes the dialog and still navigates to the cancelled
    page; neither writes anything. *)
Theorem demo_payment_buttons_on_unknown_payment now now' uuid payment_id st :
  PaymentService.get_payment_by_id payment_id st = (Ok None, st) ->
  StorePages.complete_demo_payment now now' uuid payment_id st
    = (Ok [StorePages.DialogClose;
           StorePages.Notify "Payment completion failed" "negative"], st)
  /\ StorePages.cancel_demo_payment now now' payment_id st
     = (Ok [StorePages.DialogClose; StorePages.NavigateTo "/payment/cancelled"], st).
Proof.
  intros Hget. split.
  - unfold StorePages.complete_demo_payment, PaymentService.complete_paypal_payment,
      try_except.
    unfold bind at 1. now rewrite (bind_ok _ _ _ Hget).
  - unfold StorePages.cancel_demo_payment, PaymentService.cancel_paypal_payment,
      try_except.
    unfold bind at 1. now rewrite (bind_ok _ _ _ Hget).
Qed.

Lemma demo_payment_buttons_on_unknown_payment_sample :
  StorePages.complete_demo_payment sample_time sample_time sample_txn_uuid
    "PAY-00000000000000000000" purchased_store
    = (Ok [StorePages.DialogClose;
           StorePages.Notify "Payment completion failed" "negative"], purchased_store)
  /\ StorePages.cancel_demo_payment sample_time sample_time
       "PAY-00000000000000000000" purchased_store
     = (Ok [StorePages.DialogClose; StorePages.NavigateTo "/payment/cancelled"],
        purchased_store).
Proof.
  apply (demo_payment_buttons_on_unknown_payment sample_time sample_time sample_txn_uuid
           "PAY-00000000000000000000"%string purchased_store).
  vm_compute. reflexivity.
Defined.

(** X22.  The checkout page and the checkout disagree on inactive
    products: for a stored product that is inactive but in stock, the page
    renders the checkout form, and every checkout of that product returns
    [None] and writes nothing. *)
Theorem checkout_page_offers_inactive_product d request st product :
  ProductService.get_product_by_id (PayPalPaymentRequest.product_id request) st
    = (Ok (Some product), st) ->
  Product.is_active product = false ->
  0 < Product.stock_quantity product ->
  StorePages.create_checkout_page (PayPalPaymentRequest.product_id request) st
    = (Ok (StorePages.CheckoutFormPage product), st)
  /\ PaymentService.create_paypal_payment d request st = (Ok None, st).
Proof.
  intros Hget Hinactive Hstock. split.
  - unfold StorePages.create_checkout_page. rewrite (bind_ok _ _ _ Hget).
    replace (Z.leb (Product.stock_quantity product) 0) with false
      by (symmetry; apply Z.leb_gt; lia).
    reflexivity.
  - unfold PaymentService.create_paypal_payment, try_except.
    rewrite (bind_ok _ _ _ Hget). now rewrite Hinactive.
Qed.

Lemma checkout_page_offers_inactive_product_sample :
  let retired :=
    {| Product.id := None; Product.name := "Inactive Product";
       Product.description := "This is inactive"; Product.price := 5000;
       Product.is_active := false; Product.stock_quantity := 3;
       Product.sku := None; Product.category := None; Product.image_url := None;
       Product.created_at := sample_time; Product.updated_at := sample_time |} in
  let st := set_products (products sample_store ++ [(3, Product.with_id (Some 3) retired)])
              sample_store in
  StorePages.create_checkout_page 3 st
    = (Ok (StorePages.CheckoutFormPage (Product.with_id (Some 3) retired)), st)
  /\ PaymentService.create_paypal_payment sample_draws (sample_request 3) st = (Ok None, st).
Proof.
  intros retired st.
  apply (checkout_page_offers_inactive_product sample_draws (sample_request 3) st
           (Product.with_id (Some 3) retired)).
  - reflexivity.
  - reflexivity.
  - reflexivity.
Defined.

(** The checkout page never shows the form for a product the store does
    not hold or that is out of stock. *)
Lemma create_checkout_page_cases product_id st :
  StorePages.create_checkout_page product_id st
  = (Ok match session_get Product.with_id product_id (products st) with
        | None => StorePages.ProductNotFoundPage
        | Some product =>
            if Z.leb (Product.stock_quantity product) 0
            then StorePages.OutOfStockPage product
            else StorePages.CheckoutFormPage product
        end, st).
Proof.
  unfold StorePages.create_checkout_page, ProductService.get_product_by_id, bind, gets.
  destruct (session_get Product.with_id product_id (products st)) as [product|];
    [|reflexivity].
  now destruct (Z.leb (Product.stock_quantity product) 0).
Qed.

(** X23.  Whenever a checkout succeeds, the checkout page of the same
    store and product shows the form, for the active product stored
    under the requested id: the page never hides what the checkout
    accepts. *)
Theorem successful_checkout_was_offered_by_the_page d request st response st' :
  PaymentService.create_paypal_payment d request st = (Ok (Some response), st') ->
  exists product,
    StorePages.create_checkout_page (PayPalPaymentRequest.product_id request) st
      = (Ok (StorePages.CheckoutFormPage product), st)
    /\ Product.is_active product = true
    /\ Product.id product = Some (PayPalPaymentRequest.product_id request).
Proof.
  intros Hrun. rewrite create_checkout_page_cases.
  destruct (session_get Product.with_id (PayPalPaymentRequest.product_id request)
              (products st)) as [product|] eqn:Hprod.
  2:{ rewrite checkout_rejected in Hrun; [discriminate|now rewrite Hprod]. }
  destruct (Product.is_active product) eqn:Hactive.
  2:{ rewrite checkout_rejected in Hrun; [discriminate|rewrite Hprod; now left]. }
  destruct (Z.leb (Product.stock_quantity product) 0) eqn:Hstock.
  { apply Z.leb_le in Hstock.
    rewrite checkout_rejected in Hrun; [discriminate|rewrite Hprod; now right]. }
  exists product. split; [reflexivity|]. split; [exact Hactive|].
  eapply loaded_product_has_id. exact Hprod.
Qed.

Lemma successful_checkout_was_offered_by_the_page_sample :
  exists product,
    StorePages.create_checkout_page 1 sample_store
      = (Ok (StorePages.CheckoutFormPage product), sample_store)
    /\ Product.is_active product = true
    /\ Product.id product = Some 1.
Proof.
  eapply (successful_checkout_was_offered_by_the_page sample_draws (sample_request 1)
            sample_store).
  vm_compute. reflexivity.
Defined.

Lemma length_append s1 s2 :
  String.length (s1 ++ s2)%string = (String.length s1 + String.length s2)%nat.
Proof. induction s1 as [|c s1 IH]; cbn; [reflexivity|now rewrite IH]. Qed.

Lemma length_prefix_of n s : String.length (prefix_of n s) = Nat.min n (String.length s).
Proof.
  unfold prefix_of. revert n. induction s as [|c s IH]; intros [|n]; cbn; try reflexivity.
  now rewrite IH.
Qed.

Lemma prefix_of_append n s t :
  (n <= String.length s)%nat -> prefix_of n (s ++ t)%string = prefix_of n s.
Proof.
  unfold prefix_of. revert n. induction s as [|c s IH]; intros [|n] Hle; cbn in *;
    try reflexivity; try lia.
  - now destruct t.
  - rewrite IH; [reflexivity|lia].
Qed.

Lemma prefix_of_prefix_of n s : prefix_of n (prefix_of n s) = prefix_of n s.
Proof.
  unfold prefix_of. revert n. induction s as [|c s IH]; intros [|n]; cbn; try reflexivity.
  now rewrite IH.
Qed.

(** X24.  The description shown on a product card is at most 120
    characters long: a description of up to 120 characters is shown as it
    is, a longer one is cut to its first 117 characters followed by three
    dots. *)
Theorem card_description_is_at_most_120_characters product :
  String.length (StorePages.card_description product)
    = Nat.min (String.length (Product.description product)) 120
  /\ prefix_of 117 (StorePages.card_description product)
     = prefix_of 117 (Product.description product)
  /\ (StorePages.card_description product = Product.description product
      \/ StorePages.card_description product
         = (prefix_of 117 (Product.description product) ++ "...")%string
         /\ (120 < String.length (Product.description product))%nat).
Proof.
  unfold StorePages.card_description.
  destruct (Nat.ltb 120 (String.length (Product.description product))) eqn:Hlong.
  - apply Nat.ltb_lt in Hlong. split; [|split].
    + rewrite length_append, length_prefix_of. cbn [String.length]. lia.
    + rewrite prefix_of_append; [apply prefix_of_prefix_of|].
      rewrite length_prefix_of. lia.
    + right. now split.
  - apply Nat.ltb_ge in Hlong. split; [lia|]. split; [reflexivity|now left].
Qed.

(** * What a payment update leaves alone *)

Lemma store_after_payment_write_frame payment' key status now_status st :
  let st' := store_after_payment_write payment' key status now_status st in
  products st' = products st /\ customers st' = customers st
  /\ order_items st' = order_items st
  /\ (forall k, k <> key ->
        session_get Payment.with_id k (payments st')
        = session_get Payment.with_id k (payments st))
  /\ (forall k, k <> Payment.order_id payment' ->
        session_get Order.with_id k (orders st') = session_get Order.with_id k (orders st)).
Proof.
  cbn. repeat split.
  - intros k Hne. now apply session_get_update_row_other.
  - intros k Hne.
    destruct (session_get Order.with_id (Payment.order_id payment') (orders st));
      [now apply session_get_update_row_other|reflexivity].
Qed.

(** X25.  Completing or cancelling a stored payment rewrites that payment
    and its order and nothing else: products, customers and order items
    are untouched, every payment stored under another key and every order
    other than the payment's reads back as before. *)
Theorem payment_updates_touch_one_payment_and_its_order
    now now' uuid payment_id payer_id st payment key :
  PaymentService.get_payment_by_id payment_id st = (Ok (Some payment), st) ->
  Payment.id payment = Some key ->
  forall st',
    st' = snd (PaymentService.complete_paypal_payment now now' uuid payment_id payer_id st)
    \/ st' = snd (PaymentService.cancel_paypal_payment now now' payment_id st) ->
    products st' = products st /\ customers st' = customers st
    /\ order_items st' = order_items st
    /\ (forall k, k <> key ->
          session_get Payment.with_id k (payments st')
          = session_get Payment.with_id k (payments st))
    /\ (forall k, k <> Payment.order_id payment ->
          session_get Order.with_id k (orders st') = session_get Order.with_id k (orders st)).
Proof.
  intros Hget Hid st' Hst'. apply get_payment_by_id_run in Hget.
  destruct Hst' as [->| ->].
  - destruct (transaction_id_taken (Some key) (make_transaction_id uuid) (payments st))
      eqn:Htaken.
    + rewrite (@complete_paypal_payment_clash now now' uuid payment_id payer_id st payment
                 Hget); [now repeat split|now rewrite Hid].
    + rewrite (complete_paypal_payment_store now now' uuid payment_id payer_id st payment key
                 Hget Hid Htaken).
      cbn [snd].
      exact (store_after_payment_write_frame
               (Payment.complete payer_id now (make_transaction_id uuid) payment) key
               OrderStatus.PAID now' st).
  - rewrite (cancel_paypal_payment_store now now' payment_id st payment key Hget Hid).
    cbn [snd].
    exact (store_after_payment_write_frame (Payment.cancel now payment) key
             OrderStatus.CANCELLED now' st).
Qed.

Lemma payment_updates_touch_one_payment_and_its_order_sample :
  exists payment,
    PaymentService.get_payment_by_id sample_payment_id two_purchases_store
      = (Ok (Some payment), two_purchases_store)
    /\ Payment.id payment = Some 1
    /\ forall st',
         st' = snd (PaymentService.complete_paypal_payment sample_time sample_time
                      sample_txn_uuid sample_payment_id "PAYER5B099BC9" two_purchases_store)
         \/ st' = snd (PaymentService.cancel_paypal_payment sample_time sample_time
                         sample_payment_id two_purchases_store) ->
         products st' = products two_purchases_store
         /\ customers st' = customers two_purchases_store
         /\ order_items st' = order_items two_purchases_store
         /\ (forall k, k <> 1 ->
               session_get Payment.with_id k (payments st')
               = session_get Payment.with_id k (payments two_purchases_store))
         /\ (forall k, k <> Payment.order_id payment ->
               session_get Order.with_id k (orders st')
               = session_get Order.with_id k (orders two_purchases_store)).
Proof.
  eexists. split; [vm_compute; reflexivity|]. split; [reflexivity|].
  eapply (payment_updates_touch_one_payment_and_its_order sample_time sample_time
            sample_txn_uuid sample_payment_id "PAYER5B099BC9"%string two_purchases_store).
  - vm_compute. reflexivity.
  - reflexivity.
Defined.
